(** * Founder Execution Engine: scoring engine and action generation

    A shallow embedding of the Python sources

      - [engine.py]                 (judge_day, level_from_xp, clamp, and the
                                     functions that read and write the store)
      - [_legacy/backend/rules.py]  (the older copy of judge_day)
      - [_legacy/backend/ai.py]     (_offline_actions, generate_actions)
      - [_legacy/backend/main.py]   (create_user, generate_today, checkin)
      - [streamlit_app.py]          (the buttons of the Init and Today tabs)
      - [frontend/app.py]           (the updates that the page sends to /checkin)

    Python [int] is [Z]; Python [float] is IEEE-754 binary64, taken from the
    executable specification [SpecFloat] of the standard library; [str] is
    the [string] of its UTF-8 bytes; exceptions are an explicit error
    monad; the SQLite tables are lists of rows in rowid order, written
    through the checks sqlite3 makes on the parameters of a statement. *)

From Stdlib Require Import ZArith Bool List Lia.
From Stdlib Require Import Ascii String DecimalString.
From Stdlib Require Import Floats.SpecFloat.
From Stdlib Require Import Sorted.
Import ListNotations.

Local Open Scope string_scope.
Local Open Scope Z_scope.

(* ================================================================== *)
(** * Python exceptions as an error monad *)
(* ================================================================== *)

(** The exception classes the modelled code can meet.  All of them derive
    from Python's [Exception]. *)
Inductive PyExn : Type :=
| OverflowError      (* int too large for a float, round(inf), int(inf) *)
| ValueError         (* round(nan), float("abc"), int("abc") *)
| TypeError          (* float(None), iterating a number, str += non-str *)
| AttributeError     (* .get on something that is not a dict *)
| RequestException   (* requests: connection error, timeout *)
| HTTPError          (* raise_for_status on a non-success status *)
| JSONDecodeError    (* r.json() or json.loads on malformed text *)
| IntegrityError.    (* sqlite3: NULL in a NOT NULL column *)

Inductive result (A : Type) : Type :=
| Ok (a : A)
| Raise (e : PyExn).
Arguments Ok {A} a.
Arguments Raise {A} e.

Definition bind {A B : Type} (c : result A) (k : A -> result B) : result B :=
  match c with
  | Ok a => k a
  | Raise e => Raise e
  end.

Notation "x <- c ;; k" := (bind c (fun x => k))
  (at level 61, c at next level, right associativity).

(** [try: body except Exception: handler] *)
Definition try_except {A : Type} (body : result A) (handler : result A) : result A :=
  match body with
  | Ok a => Ok a
  | Raise _ => handler
  end.

(** Monadic map over a list, left to right, stopping at the first raise:
    a [for] loop that appends one value per element. *)
Fixpoint mapM {A B : Type} (f : A -> result B) (l : list A) : result (list B) :=
  match l with
  | [] => Ok []
  | a :: l' => b <- f a ;; bs <- mapM f l' ;; Ok (b :: bs)
  end.

(* ================================================================== *)
(** * Python numbers *)
(* ================================================================== *)

Module PyFloat.

(** binary64: 53 bits of precision, infinities at exponent 1024 *)
Definition prec : Z := 53.
Definition emax : Z := 1024.

Definition float : Type := spec_float.

Definition fadd : float -> float -> float := SFadd prec emax.
Definition fmul : float -> float -> float := SFmul prec emax.
Definition fdiv : float -> float -> float := SFdiv prec emax.

(** The double nearest to an integer (ties to even), infinite when the
    integer is out of range. *)
Definition nearest (z : Z) : float := binary_normalize prec emax z 0 false.

(** Conversion of an [int] operand in mixed arithmetic, and [float(int)]:
    [OverflowError: int too large to convert to float]. *)
Definition of_int (z : Z) : result float :=
  match nearest z with
  | S754_infinity _ => Raise OverflowError
  | f => Ok f
  end.

(** A decimal literal with [n] digits after the point, such as [1.4]
    ([decimal 14 1]): the correctly rounded double, here obtained as the
    correctly rounded quotient of two exactly represented integers. *)
Definition decimal (digits : Z) (n : Z) : float :=
  fdiv (nearest digits) (nearest (10 ^ n)).

(** A finite float below [2^k] in absolute value: its mantissa has
    [digits2_pos m] bits, so its value is below [2^(digits2_pos m + e)]. *)
Definition below (k : Z) (f : float) : Prop :=
  match f with
  | S754_zero _ => True
  | S754_finite _ m e => Zpos (digits2_pos m) + e <= k
  | _ => False
  end.

(** Round half to even of [m / 2^k], for [m >= 0]. *)
Definition round_half_even_shift (m : Z) (k : Z) : Z :=
  let q := Z.shiftr m k in
  let r := m - Z.shiftl q k in
  match Z.compare (2 * r) (Z.shiftl 1 k) with
  | Lt => q
  | Gt => q + 1
  | Eq => if Z.even q then q else q + 1
  end.

(** [round(x)] with one argument: the nearest integer, ties to even;
    [OverflowError] on an infinity, [ValueError] on a NaN. *)
Definition round (f : float) : result Z :=
  match f with
  | S754_nan => Raise ValueError
  | S754_infinity _ => Raise OverflowError
  | S754_zero _ => Ok 0
  | S754_finite s m e =>
      let a := if 0 <=? e then Z.shiftl (Zpos m) e
               else round_half_even_shift (Zpos m) (- e) in
      Ok (if s then - a else a)
  end.

(** [int(x)]: truncation toward zero, same errors as [round]. *)
Definition trunc (f : float) : result Z :=
  match f with
  | S754_nan => Raise ValueError
  | S754_infinity _ => Raise OverflowError
  | S754_zero _ => Ok 0
  | S754_finite s m e =>
      let a := if 0 <=? e then Z.shiftl (Zpos m) e
               else Z.shiftr (Zpos m) (- e) in
      Ok (if s then - a else a)
  end.

End PyFloat.

(** A Python number as the scoring code meets it.  [impacts_sum] is
    annotated [float], but both callers compute it with [sum(...)] over a
    generator, which is the [int] 0 when no action was completed. *)
Inductive pynum : Type :=
| PyInt (z : Z)
| PyFloat (f : PyFloat.float).

Definition py_add (a b : pynum) : result pynum :=
  match a, b with
  | PyInt x, PyInt y => Ok (PyInt (x + y))
  | PyInt x, PyFloat g => f <- PyFloat.of_int x ;; Ok (PyFloat (PyFloat.fadd f g))
  | PyFloat f, PyInt y => g <- PyFloat.of_int y ;; Ok (PyFloat (PyFloat.fadd f g))
  | PyFloat f, PyFloat g => Ok (PyFloat (PyFloat.fadd f g))
  end.

Definition py_mul (a b : pynum) : result pynum :=
  match a, b with
  | PyInt x, PyInt y => Ok (PyInt (x * y))
  | PyInt x, PyFloat g => f <- PyFloat.of_int x ;; Ok (PyFloat (PyFloat.fmul f g))
  | PyFloat f, PyInt y => g <- PyFloat.of_int y ;; Ok (PyFloat (PyFloat.fmul f g))
  | PyFloat f, PyFloat g => Ok (PyFloat (PyFloat.fmul f g))
  end.

(** [int(round(x))]: [round] of an [int] is that [int]. *)
Definition py_int_round (a : pynum) : result Z :=
  match a with
  | PyInt x => Ok x
  | PyFloat f => PyFloat.round f
  end.

(* ================================================================== *)
(** * engine.py: the scoring engine *)
(* ================================================================== *)

Module Engine.

(** [def clamp(v, lo, hi): return max(lo, min(hi, v))] *)
Definition clamp (v lo hi : Z) : Z := Z.max lo (Z.min hi v).

(** [def level_from_xp(xp): return clamp(1 + (xp // 250), 1, 10)];
    Python's [//] is floor division, as [Z.div] is for a positive
    divisor. *)
Definition level_from_xp (xp : Z) : Z := clamp (1 + xp / 250) 1 10.

Record Judgement : Type := mkJudgement {
  xp_delta : Z;
  penalty : Z;
  new_xp : Z;
  new_level : Z;
  new_streak : Z;
  new_debt : Z;
  new_difficulty : Z;
  verdict : string
}.

Definition verdict_nothing : string :=
  "You executed nothing. That's self-deception. Penalty applied.".
Definition verdict_hard : string :=
  "You executed hard. Keep going. Next level demands more.".
Definition verdict_work : string :=
  "You did the work. No excuses. No detours.".
Definition verdict_avoided : string :=
  "You avoided the main goal. You pay now and later. Fix it.".
Definition verdict_bailed : string :=
  "You did something — then you bailed on the rest. Not enough.".

(** Line 88: [int(round(20 * completed + 10 * impacts_sum
    + 5 * current_difficulty))], evaluated left to right. *)
Definition base_xp_of (completed : Z) (impacts_sum : pynum)
    (current_difficulty : Z) : result Z :=
  a <- py_mul (PyInt 20) (PyInt completed) ;;
  b <- py_mul (PyInt 10) impacts_sum ;;
  ab <- py_add a b ;;
  c <- py_mul (PyInt 5) (PyInt current_difficulty) ;;
  abc <- py_add ab c ;;
  py_int_round abc.

Definition judge_day
    (current_xp current_streak current_debt current_difficulty : Z)
    (completed missed : Z) (impacts_sum : pynum) : result Judgement :=
  base_xp <- base_xp_of completed impacts_sum current_difficulty ;;
  let penalty := 15 * missed in
  let new_streak :=
    if (missed =? 0) && (completed >? 0) then current_streak + 1 else 0 in
  let streak_bonus := if new_streak >=? 3 then 5 else 0 in
  let xp_delta := base_xp + streak_bonus - penalty in
  let new_xp := Z.max 0 (current_xp + xp_delta) in
  let new_debt := current_debt + missed in
  let diff := current_difficulty in
  let diff :=
    if missed >=? 2 then diff + 1
    else if new_streak >=? 5 then diff + 1
    else if (missed =? 0) && (completed >=? 4) then diff + 1
    else diff in
  let new_difficulty := clamp diff 1 5 in
  let new_level := level_from_xp new_xp in
  let verdict :=
    if (completed =? 0) && (missed >? 0) then verdict_nothing
    else if (missed =? 0) && (completed >=? 4) then verdict_hard
    else if (missed =? 0) && (completed >? 0) then verdict_work
    else if missed >=? 2 then verdict_avoided
    else verdict_bailed in
  Ok (mkJudgement xp_delta penalty new_xp new_level new_streak new_debt
        new_difficulty verdict).

End Engine.

(* ================================================================== *)
(** * _legacy/backend/rules.py: the older copy of the scoring engine *)
(* ================================================================== *)

Module LegacyRules.

Definition clamp (v lo hi : Z) : Z := Z.max lo (Z.min hi v).

(** [# Level up every 250 XP (cap 10)] *)
Definition level_from_xp (xp : Z) : Z := clamp (1 + xp / 250) 1 10.

(** The catch-all verdict of this file: its dash is stored there as the
    three characters of a mis-decoded UTF-8 sequence. *)
Definition verdict_bailed : string :=
  "You did something â€” then you bailed on the rest. Not enough.".

Definition judge_day
    (current_xp current_streak current_debt current_difficulty : Z)
    (completed missed : Z) (impacts_sum : pynum) : result Engine.Judgement :=
  base_xp <- Engine.base_xp_of completed impacts_sum current_difficulty ;;
  let penalty := 15 * missed in
  let new_streak :=
    if (missed =? 0) && (completed >? 0) then current_streak + 1 else 0 in
  let streak_bonus := if new_streak >=? 3 then 5 else 0 in
  let xp_delta := base_xp + streak_bonus - penalty in
  let new_xp := Z.max 0 (current_xp + xp_delta) in
  let new_debt := current_debt + missed in
  let diff := current_difficulty in
  let diff :=
    if missed >=? 2 then diff + 1
    else if new_streak >=? 5 then diff + 1
    else if (missed =? 0) && (completed >=? 4) then diff + 1
    else diff in
  let new_difficulty := clamp diff 1 5 in
  let new_level := level_from_xp new_xp in
  let verdict :=
    if (completed =? 0) && (missed >? 0) then Engine.verdict_nothing
    else if (missed =? 0) && (completed >=? 4) then Engine.verdict_hard
    else if (missed =? 0) && (completed >? 0) then Engine.verdict_work
    else if missed >=? 2 then Engine.verdict_avoided
    else verdict_bailed in
  Ok (Engine.mkJudgement xp_delta penalty new_xp new_level new_streak
        new_debt new_difficulty verdict).

End LegacyRules.

(* ================================================================== *)
(** * Python text *)
(* ================================================================== *)

(** A [str] is modelled by the bytes of its UTF-8 encoding: a character
    of the ASCII range is one byte, any other character is a lead byte
    followed by continuation bytes.  Whitespace is recognised on the
    whole of Unicode and lengths count characters; case is folded on the
    ASCII letters only, which are the letters of the keywords. *)
Module Text.

(** A continuation byte [10xxxxxx]: every other byte starts a character. *)
Definition is_continuation (c : ascii) : bool :=
  let n := nat_of_ascii c in
  ((128 <=? n) && (n <? 192))%nat.

(** [str.isspace] on the ASCII range: TAB, LF, VT, FF, CR, the four
    separators FS, GS, RS, US, and the space. *)
Definition is_space (c : ascii) : bool :=
  let n := nat_of_ascii c in
  ((9 <=? n) && (n <=? 13) || (28 <=? n) && (n <=? 32))%nat.

(** The whitespace characters of two bytes: U+0085 (C2 85) and U+00A0
    (C2 A0). *)
Definition is_space2 (c1 c2 : ascii) : bool :=
  let n1 := nat_of_ascii c1 in
  let n2 := nat_of_ascii c2 in
  ((n1 =? 194) && ((n2 =? 133) || (n2 =? 160)))%nat.

(** The whitespace characters of three bytes: U+1680 (E1 9A 80),
    U+2000..U+200A, U+2028, U+2029, U+202F (E2 80 80..8A, A8, A9, AF),
    U+205F (E2 81 9F) and U+3000 (E3 80 80). *)
Definition is_space3 (c1 c2 c3 : ascii) : bool :=
  let n1 := nat_of_ascii c1 in
  let n2 := nat_of_ascii c2 in
  let n3 := nat_of_ascii c3 in
  ((n1 =? 225) && (n2 =? 154) && (n3 =? 128)
   || (n1 =? 226) && (n2 =? 128)
      && ((128 <=? n3) && (n3 <=? 138)
          || (n3 =? 168) || (n3 =? 169) || (n3 =? 175))
   || (n1 =? 226) && (n2 =? 129) && (n3 =? 159)
   || (n1 =? 227) && (n2 =? 128) && (n3 =? 128))%nat.

(** [s.lstrip()]: the whitespace characters at the front are dropped. *)
Fixpoint lstrip (s : string) : string :=
  match s with
  | String c1 s1 =>
      if is_space c1 then lstrip s1
      else
        match s1 with
        | String c2 s2 =>
            if is_space2 c1 c2 then lstrip s2
            else
              match s2 with
              | String c3 s3 => if is_space3 c1 c2 c3 then lstrip s3 else s
              | EmptyString => s
              end
        | EmptyString => s
        end
  | EmptyString => EmptyString
  end.

(** [s.rstrip()]: a whitespace character is dropped when nothing but
    whitespace follows it. *)
Fixpoint rstrip (s : string) : string :=
  match s with
  | String c1 s1 =>
      if is_space c1 then
        match rstrip s1 with
        | EmptyString => EmptyString
        | t => String c1 t
        end
      else
        match s1 with
        | String c2 s2 =>
            if is_space2 c1 c2 then
              match rstrip s2 with
              | EmptyString => EmptyString
              | t => String c1 (String c2 t)
              end
            else
              match s2 with
              | String c3 s3 =>
                  if is_space3 c1 c2 c3 then
                    match rstrip s3 with
                    | EmptyString => EmptyString
                    | t => String c1 (String c2 (String c3 t))
                    end
                  else String c1 (rstrip s1)
              | EmptyString => String c1 (rstrip s1)
              end
        | EmptyString => String c1 EmptyString
        end
  | EmptyString => EmptyString
  end.

(** [s.strip()] *)
Definition strip (s : string) : string := rstrip (lstrip s).

Definition lower_char (c : ascii) : ascii :=
  let n := nat_of_ascii c in
  if ((65 <=? n) && (n <=? 90))%nat then ascii_of_nat (n + 32) else c.

(** [s.lower()] on the ASCII letters; the other characters are left as
    they are. *)
Fixpoint lower (s : string) : string :=
  match s with
  | String c s' => String (lower_char c) (lower s')
  | EmptyString => EmptyString
  end.

(** [k in s]: [k] occurs in [s] as a contiguous substring. *)
Fixpoint contains (k s : string) : bool :=
  prefix k s ||
  match s with
  | String _ s' => contains k s'
  | EmptyString => false
  end.

(** [s[:n]]: the first [n] characters, each with its continuation
    bytes. *)
Fixpoint take (n : nat) (s : string) : string :=
  match s with
  | String c s' =>
      if is_continuation c then String c (take n s')
      else
        match n with
        | S n' => String c (take n' s')
        | O => EmptyString
        end
  | EmptyString => EmptyString
  end.

(** [len(s)]: the number of characters. *)
Fixpoint len (s : string) : nat :=
  match s with
  | String c s' => if is_continuation c then len s' else S (len s')
  | EmptyString => O
  end.

(** [any(k in s for k in keywords)] *)
Definition any_in (keywords : list string) (s : string) : bool :=
  existsb (fun k => contains k s) keywords.

Definition is_empty (s : string) : bool :=
  match s with EmptyString => true | _ => false end.

End Text.

(* ================================================================== *)
(** * _legacy/backend/ai.py: the heuristic generator *)
(* ================================================================== *)

(** The dict built by [add] and by the cleaning loop of [generate_actions]:
    always the same four keys. *)
Record Action : Type := mkAction {
  text : string;
  impact_weight : PyFloat.float;
  difficulty : Z;
  non_negotiable : bool
}.

Module Ai.

Definition revenue_keywords : list string :=
  ["mrr"; "sales"; "customers"; "customer"; "revenue"; "sell"; "pipeline"].

Definition build_keywords : list string :=
  ["product"; "mvp"; "app"; "build"; "launch"; "ship"].

(** The inner [add(text, w, d)]: appends one dict to [actions]. *)
Definition add (actions : list Action) (text : string) (w : PyFloat.float)
    (d : Z) : list Action :=
  actions ++ [mkAction text w d true].

(** The [if] branch, lines 22-25. *)
Definition revenue_actions (difficulty : Z) : list Action :=
  let actions := [] in
  let actions := add actions
    "Contact 10 prospects (DM/email) with ONE offer. Log replies."
    (PyFloat.decimal 14 1) (Z.min 3 (difficulty + 1)) in
  let actions := add actions
    "Improve the offer (headline + price + guarantee). Publish it."
    (PyFloat.decimal 12 1) difficulty in
  let actions := add actions
    "Book 1 short sales call (15 min). No research-avoidance."
    (PyFloat.decimal 15 1) (Z.min 3 (difficulty + 1)) in
  let actions := add actions
    "Ask for money: send 1 invoice/checkout link or request a deposit."
    (PyFloat.decimal 15 1) 3 in
  actions.

(** The [elif] branch, lines 27-30. *)
Definition build_actions (difficulty : Z) : list Action :=
  let actions := [] in
  let actions := add actions
    "Set a deadline: ship 1 concrete feature today. No side quests."
    (PyFloat.decimal 13 1) difficulty in
  let actions := add actions
    "Cut 1 feature you 'want' but don't need. Commit the change."
    (PyFloat.decimal 12 1) difficulty in
  let actions := add actions
    "Post a public update (X/LinkedIn) showing what you shipped."
    (PyFloat.decimal 11 1) difficulty in
  let actions := add actions
    "Get 3 people to test and give feedback. Collect responses."
    (PyFloat.decimal 14 1) (Z.min 3 (difficulty + 1)) in
  actions.

(** The [else] branch, lines 32-35. *)
Definition generic_actions (difficulty : Z) : list Action :=
  let actions := [] in
  let actions := add actions
    "Write today's 3 deliverables in 1 sentence each. No fluff."
    (PyFloat.decimal 10 1) difficulty in
  let actions := add actions
    "Do the most uncomfortable task first. 45-minute timer. No distractions."
    (PyFloat.decimal 14 1) (Z.min 3 (difficulty + 1)) in
  let actions := add actions
    "Remove 1 blocker by contacting a human (not Googling)."
    (PyFloat.decimal 13 1) (Z.min 3 (difficulty + 1)) in
  let actions := add actions
    "Ship something visible: post/commit/demo. Proof > intention."
    (PyFloat.decimal 12 1) difficulty in
  actions.

(** Lines 37-45: truncate to five, then one catch-all action when fewer
    than three are there. *)
Definition finish (actions : list Action) (difficulty : Z) : list Action :=
  let actions := firstn 5 actions in
  if (List.length actions <? 3)%nat then
    actions ++ [mkAction "Ship a result you can show publicly."
                  (PyFloat.decimal 12 1) difficulty true]
  else actions.

Definition _offline_actions (goal_text : string) (difficulty : Z)
    : list Action :=
  let goal := Text.strip goal_text in
  let lower := Text.lower goal in
  let actions :=
    if Text.any_in revenue_keywords lower then revenue_actions difficulty
    else if Text.any_in build_keywords lower then build_actions difficulty
    else generic_actions difficulty in
  finish actions difficulty.

(** ** The generation adapter *)

(** What [json.loads] and [r.json()] produce. *)
#[warnings="-register-all"]
Inductive json : Type :=
| JNull
| JBool (b : bool)
| JInt (z : Z)
| JFloat (f : PyFloat.float)
| JStr (s : string)
| JArr (l : list json)
| JObj (kvs : list (string * json)).

(** What the adapter sees of an HTTP response. *)
Record Response : Type := mkResponse {
  status_code : Z;
  json_body : result json          (* r.json() *)
}.

(** The outside world of [generate_actions]. *)
Record Env : Type := mkEnv {
  (** [os.getenv] of OPENAI_API_KEY, the empty str when it is not set *)
  getenv_OPENAI_API_KEY : string;
  (** [requests.post(url, headers, json, timeout=20)], given the key of
      the Authorization header and the prompt of the payload; raises on a
      connection error or a timeout. *)
  requests_post : string -> string -> result Response
}.

(** [r.raise_for_status()] *)
Definition raise_for_status (r : Response) : result unit :=
  if (400 <=? status_code r) && (status_code r <? 600)
  then Raise HTTPError else Ok tt.

Fixpoint lookup (key : string) (kvs : list (string * json)) : option json :=
  match kvs with
  | [] => None
  | (k, v) :: rest => if String.eqb k key then Some v else lookup key rest
  end.

(** [x.get(key, default)]: only a dict has [get]. *)
Definition py_get (x : json) (key : string) (default : json) : result json :=
  match x with
  | JObj kvs =>
      Ok (match lookup key kvs with Some v => v | None => default end)
  | _ => Raise AttributeError
  end.

Fixpoint chars (s : string) : list json :=
  match s with
  | String c s' => JStr (String c EmptyString) :: chars s'
  | EmptyString => []
  end.

(** [for a in x]: the elements of a list, the keys of a dict, the
    characters of a str; anything else is not iterable. *)
Definition py_iter (x : json) : result (list json) :=
  match x with
  | JArr l => Ok l
  | JObj kvs => Ok (map (fun kv => JStr (fst kv)) kvs)
  | JStr s => Ok (chars s)
  | _ => Raise TypeError
  end.

(** [x == s] for a str literal [s] *)
Definition is_str (x : json) (s : string) : bool :=
  match x with
  | JStr t => String.eqb t s
  | _ => false
  end.

(** [txt += x] *)
Definition str_concat (txt : string) (x : json) : result string :=
  match x with
  | JStr t => Ok (txt ++ t)%string
  | _ => Raise TypeError
  end.

(** A [for] loop that updates an accumulator. *)
Fixpoint foldM {A B : Type} (f : A -> B -> result A) (acc : A) (l : list B)
    : result A :=
  match l with
  | [] => Ok acc
  | b :: l' => acc' <- f acc b ;; foldM f acc' l'
  end.

(** Lines 80-82, the inner loop body. *)
Definition content_text (txt : string) (c : json) : result string :=
  ty <- py_get c "type" JNull ;;
  if is_str ty "output_text" || is_str ty "text" then
    t <- py_get c "text" (JStr EmptyString) ;;
    str_concat txt t
  else Ok txt.

(** Lines 78-82, the outer loop body. *)
Definition item_text (txt : string) (item : json) : result string :=
  ty <- py_get item "type" JNull ;;
  if is_str ty "message" then
    content <- py_get item "content" (JArr []) ;;
    cs <- py_iter content ;;
    foldM content_text txt cs
  else Ok txt.

(** The suffix of [s] that starts at its first opening bracket. *)
Fixpoint from_first_open (s : string) : option string :=
  match s with
  | String c s' => if Ascii.eqb c "["%char then Some s else from_first_open s'
  | EmptyString => None
  end.

(** The longest prefix of [s] that ends with a closing bracket. *)
Fixpoint upto_last_close (s : string) : option string :=
  match s with
  | String c s' =>
      match upto_last_close s' with
      | Some t => Some (String c t)
      | None => if Ascii.eqb c "]"%char then Some (String c EmptyString)
                else None
      end
  | EmptyString => None
  end.

(** [re.search(r"\[.*\]", txt, flags=re.S)] and [m.group(0)]: with a
    greedy star that also matches newlines, the match runs from the
    first opening bracket to the last closing bracket after it. *)
Definition re_search_brackets (txt : string) : option string :=
  match from_first_open txt with
  | Some (String c rest) =>
      match upto_last_close rest with
      | Some body => Some (String c body)
      | None => None
      end
  | _ => None
  end.

Definition dq : string := String "034"%char EmptyString.
Definition nl : string := String "010"%char EmptyString.

(** [str(n)] for an [int] *)
Definition str_of_int (z : Z) : string := NilZero.string_of_int (Z.to_int z).

(** The f-string of lines 54-67. *)
Definition prompt_of (goal_text : string) (difficulty : Z) (history : string)
    : string :=
  (nl
   ++ "You are a ruthless operating manager. Generate 3-5 DAILY, NON-NEGOTIABLE actions for a founder." ++ nl
   ++ nl
   ++ "Rules:" ++ nl
   ++ "- No administrative tasks." ++ nl
   ++ "- At least 1 action must be uncomfortable (contacting people, publishing, committing, asking for money)." ++ nl
   ++ "- Actions must directly drive the goal." ++ nl
   ++ "- Return ONLY a JSON array of objects:" ++ nl
   ++ "  { " ++ dq ++ "text" ++ dq ++ ": " ++ dq ++ "..." ++ dq ++ ", "
   ++ dq ++ "impact_weight" ++ dq ++ ": 0.5-1.5, "
   ++ dq ++ "difficulty" ++ dq ++ ": 1-3, "
   ++ dq ++ "non_negotiable" ++ dq ++ ": true }" ++ nl
   ++ nl
   ++ "GOAL: " ++ goal_text ++ nl
   ++ "DIFFICULTY (1-5): " ++ str_of_int difficulty ++ nl
   ++ "HISTORY (brief): " ++ history ++ nl)%string.

Section Adapter.

(** Library functions the adapter calls, taken as they are:
    [json.loads], [str] of a value that is not a str, [float] and [int]
    of a str. *)
Variable json_loads : string -> result json.
Variable repr : json -> string.
Variable float_of_str : string -> result PyFloat.float.
Variable int_of_str : string -> result Z.

Variable env : Env.

(** [str(x)] *)
Definition py_str (x : json) : string :=
  match x with
  | JStr s => s
  | _ => repr x
  end.

(** [float(x)] *)
Definition py_float (x : json) : result PyFloat.float :=
  match x with
  | JFloat f => Ok f
  | JInt z => PyFloat.of_int z
  | JBool b => Ok (PyFloat.nearest (if b then 1 else 0))
  | JStr s => float_of_str s
  | _ => Raise TypeError
  end.

(** [int(x)] *)
Definition py_int (x : json) : result Z :=
  match x with
  | JInt z => Ok z
  | JBool b => Ok (if b then 1 else 0)
  | JFloat f => PyFloat.trunc f
  | JStr s => int_of_str s
  | _ => Raise TypeError
  end.

(** Lines 91-96: one cleaned dict. *)
Definition clean (a : json) : result Action :=
  t <- py_get a "text" (JStr EmptyString) ;;
  let text := Text.take 300 (Text.strip (py_str t)) in
  w <- py_get a "impact_weight" (JFloat (PyFloat.decimal 10 1)) ;;
  impact_weight <- py_float w ;;
  d <- py_get a "difficulty" (JInt 2) ;;
  difficulty <- py_int d ;;
  Ok (mkAction text impact_weight difficulty true).

(** Lines 54-101: the body of the [try]. *)
Definition external_attempt (api_key goal_text : string) (difficulty : Z)
    (history : string) : result (list Action) :=
  let prompt := prompt_of goal_text difficulty history in
  r <- requests_post env api_key prompt ;;
  _ <- raise_for_status r ;;
  data <- json_body r ;;
  output <- py_get data "output" (JArr []) ;;
  items <- py_iter output ;;
  txt <- foldM item_text EmptyString items ;;
  match re_search_brackets txt with
  | None => Ok (_offline_actions goal_text difficulty)
  | Some m =>
      arr <- json_loads m ;;
      elems <- py_iter arr ;;
      cleaned <- mapM clean elems ;;
      let cleaned := firstn 5 cleaned in
      if (List.length cleaned <? 3)%nat
      then Ok (_offline_actions goal_text difficulty)
      else Ok cleaned
  end.

Definition generate_actions (goal_text : string) (difficulty : Z)
    (history : string) : result (list Action) :=
  let api_key := Text.strip (getenv_OPENAI_API_KEY env) in
  if Text.is_empty api_key then Ok (_offline_actions goal_text difficulty)
  else
    try_except
      (external_attempt api_key goal_text difficulty history)
      (Ok (_offline_actions goal_text difficulty)).

End Adapter.

End Ai.

(* ================================================================== *)
(** * The SQLite store *)
(* ================================================================== *)

(** The three tables of [SCHEMA].  A table is the list of its rows in
    rowid order, which is insertion order: no row is ever deleted.  The
    primary keys of actions and results are values of [uuid.uuid4()],
    taken to be new each time: a collision of two of them is not
    modelled. *)
Module Store.

Record UserRow : Type := mkUserRow {
  u_id : string;
  u_created_at : string;
  u_goal_text : string;
  u_level : Z;
  u_xp : Z;
  u_streak : Z;
  u_debt : Z;
  u_difficulty : Z
}.

Record ActionRow : Type := mkActionRow {
  a_id : string;
  a_user_id : string;
  a_date : string;
  a_text : string;
  a_impact_weight : PyFloat.float;
  a_difficulty : Z;
  a_non_negotiable : Z;
  a_completed : option Z;            (* NULL, 0 or 1 *)
  a_completed_at : option string
}.

Record ResultRow : Type := mkResultRow {
  r_id : string;
  r_user_id : string;
  r_date : string;
  r_xp_delta : Z;
  r_penalty : Z;
  r_verdict_text : string;
  r_created_at : string
}.

Record Db : Type := mkDb {
  users : list UserRow;
  actions : list ActionRow;
  daily_results : list ResultRow
}.

(** The database together with the number of [uuid.uuid4()] and of
    [now_iso()] calls made so far; the calls of a transaction that is
    rolled back are not counted, as their values are stored nowhere. *)
Record World : Type := mkWorld {
  db : Db;
  uuid_calls : nat;
  now_calls : nat
}.

(** What sqlite3 does with the parameters of a statement.  An [int] must
    fit the 64-bit INTEGER of SQLite: [OverflowError: Python int too large
    to convert to SQLite INTEGER] is raised otherwise, before the
    statement runs. *)
Definition bind_int (z : Z) : result Z :=
  if (- 2 ^ 63 <=? z) && (z <? 2 ^ 63) then Ok z else Raise OverflowError.

(** A [float] is bound as it is, but for a NaN, which SQLite takes as
    NULL: a NOT NULL column then refuses the row with [IntegrityError]. *)
Definition bind_real (f : PyFloat.float) : result PyFloat.float :=
  match f with
  | S754_nan => Raise IntegrityError
  | _ => Ok f
  end.

(** [SELECT * FROM users WHERE id=?] and [fetchone()] *)
Definition get_user (db : Db) (user_id : string) : option UserRow :=
  find (fun u => String.eqb (u_id u) user_id) (users db).

(** [SELECT * FROM actions WHERE user_id=? AND date=? ORDER BY rowid] *)
Definition list_actions (db : Db) (user_id day : string) : list ActionRow :=
  filter (fun a => String.eqb (a_user_id a) user_id && String.eqb (a_date a) day)
         (actions db).

(** [ORDER BY date DESC]: insertion into a list sorted by decreasing
    date, bytewise as SQLite compares text. *)
Fixpoint insert_by_date (r : ResultRow) (l : list ResultRow) : list ResultRow :=
  match l with
  | [] => [r]
  | r' :: l' =>
      if String.leb (r_date r') (r_date r) then r :: l
      else r' :: insert_by_date r l'
  end.

(** [SELECT ... FROM daily_results WHERE user_id=? ORDER BY date DESC
    LIMIT ?] *)
Definition history (db : Db) (user_id : string) (limit : nat) : list ResultRow :=
  firstn limit
    (fold_right insert_by_date []
       (filter (fun r => String.eqb (r_user_id r) user_id) (daily_results db))).

(** [SELECT id FROM daily_results WHERE user_id=? AND date=?] and
    [fetchone()] *)
Definition get_result (db : Db) (user_id day : string) : option ResultRow :=
  find (fun r => String.eqb (r_user_id r) user_id && String.eqb (r_date r) day)
       (daily_results db).

(** [UPDATE table SET ... WHERE cond]: every row that meets the condition
    is rewritten where it stands. *)
Definition update_where {A : Type} (cond : A -> bool) (set : A -> A)
    (rows : list A) : list A :=
  map (fun r => if cond r then set r else r) rows.

(** One [INSERT INTO actions(...) VALUES(...)] with
    [non_negotiable = 1], [completed = NULL], [completed_at = NULL].  The
    difficulty is bound as an INTEGER and the weight goes to a REAL NOT
    NULL column. *)
Definition insert_action (db : Db) (id user_id day text : string)
    (w : PyFloat.float) (d : Z) : result Db :=
  d <- bind_int d ;;
  w <- bind_real w ;;
  Ok (mkDb (users db)
        (actions db ++ [mkActionRow id user_id day text w d 1 None None])
        (daily_results db)).

(** [UPDATE actions SET completed=?, completed_at=? WHERE id=?] *)
Definition update_completion (db : Db) (action_id : string) (completed : Z)
    (completed_at : string) : Db :=
  mkDb (users db)
       (update_where (fun a => String.eqb (a_id a) action_id)
          (fun a => mkActionRow (a_id a) (a_user_id a) (a_date a) (a_text a)
                      (a_impact_weight a) (a_difficulty a) (a_non_negotiable a)
                      (Some completed) (Some completed_at))
          (actions db))
       (daily_results db).

(** [UPDATE daily_results SET xp_delta=?, penalty=?, verdict_text=?,
    created_at=? WHERE id=?] *)
Definition update_result (db : Db) (id : string) (j : Engine.Judgement)
    (created_at : string) : result Db :=
  xp_delta <- bind_int (Engine.xp_delta j) ;;
  penalty <- bind_int (Engine.penalty j) ;;
  Ok (mkDb (users db) (actions db)
        (update_where (fun r => String.eqb (r_id r) id)
           (fun r => mkResultRow (r_id r) (r_user_id r) (r_date r)
                       xp_delta penalty (Engine.verdict j) created_at)
           (daily_results db))).

(** [INSERT INTO daily_results(...) VALUES(...)] *)
Definition insert_result (db : Db) (id user_id day : string)
    (j : Engine.Judgement) (created_at : string) : result Db :=
  xp_delta <- bind_int (Engine.xp_delta j) ;;
  penalty <- bind_int (Engine.penalty j) ;;
  Ok (mkDb (users db) (actions db)
        (daily_results db
         ++ [mkResultRow id user_id day xp_delta penalty (Engine.verdict j)
               created_at])).

(** [UPDATE users SET xp=?, level=?, streak=?, debt=?, difficulty=?
    WHERE id=?] *)
Definition update_stats (db : Db) (user_id : string) (j : Engine.Judgement)
    : result Db :=
  xp <- bind_int (Engine.new_xp j) ;;
  level <- bind_int (Engine.new_level j) ;;
  streak <- bind_int (Engine.new_streak j) ;;
  debt <- bind_int (Engine.new_debt j) ;;
  difficulty <- bind_int (Engine.new_difficulty j) ;;
  Ok (mkDb (update_where (fun u => String.eqb (u_id u) user_id)
              (fun u => mkUserRow (u_id u) (u_created_at u) (u_goal_text u)
                          level xp streak debt difficulty)
              (users db))
        (actions db) (daily_results db)).

(** [if rows:] *)
Definition nonempty {A : Type} (l : list A) : bool :=
  match l with [] => false | _ => true end.

(** [sep.join(parts)] *)
Fixpoint join (sep : string) (parts : list string) : string :=
  match parts with
  | [] => EmptyString
  | [x] => x
  | x :: rest => (x ++ sep ++ join sep rest)%string
  end.

(** [sum(1 for a in rows if a["completed"] == v)] *)
Definition count_completed (v : Z) (rows : list ActionRow) : Z :=
  Z.of_nat
    (List.length
       (filter (fun a => match a_completed a with
                         | Some c => c =? v
                         | None => false
                         end) rows)).

(** The weights that [sum(float(a["impact_weight"]) for a in rows if
    a["completed"] == 1)] adds up. *)
Definition completed_weights (rows : list ActionRow) : list PyFloat.float :=
  map a_impact_weight
    (filter (fun a => match a_completed a with
                      | Some c => c =? 1
                      | None => false
                      end) rows).

(** ** The store functions of engine.py *)

Section EngineStore.

(** The successive values of [uuid.uuid4()] and of [now_iso()]. *)
Variable uuid4 : nat -> string.
Variable now_iso : nat -> string.

(** [upsert_user]: [INSERT OR IGNORE] with the column defaults, then the
    goal text is set. *)
Definition upsert_user (w : World) (user_id goal_text : string) : World :=
  let created_at := now_iso (now_calls w) in
  let goal := Text.strip goal_text in
  let inserted :=
    match get_user (db w) user_id with
    | Some _ => users (db w)
    | None => (users (db w) ++ [mkUserRow user_id created_at goal 1 0 0 0 1])%list
    end in
  let updated :=
    update_where (fun u => String.eqb (u_id u) user_id)
      (fun u => mkUserRow (u_id u) (u_created_at u) goal (u_level u) (u_xp u)
                  (u_streak u) (u_debt u) (u_difficulty u))
      inserted in
  mkWorld (mkDb updated (actions (db w)) (daily_results (db w)))
          (uuid_calls w) (S (now_calls w)).

Fixpoint insert_rows (w : World) (user_id day : string)
    (actions : list Action) : result World :=
  match actions with
  | [] => Ok w
  | a :: rest =>
      let id := uuid4 (uuid_calls w) in
      db' <- insert_action (db w) id user_id day
               (Text.take 300 (Text.strip (text a)))
               (impact_weight a) (difficulty a) ;;
      insert_rows (mkWorld db' (S (uuid_calls w)) (now_calls w)) user_id day rest
  end.

(** [insert_actions]: at most five rows, the text stripped and cut to
    300 characters.  The connection commits when the loop is through and
    rolls back when an insertion raises. *)
Definition insert_actions (w : World) (user_id day : string)
    (actions : list Action) : result World :=
  insert_rows w user_id day (firstn 5 actions).

(** [set_action_completion] *)
Definition set_action_completion (w : World) (action_id : string)
    (completed : bool) : World :=
  mkWorld (update_completion (db w) action_id (if completed then 1 else 0)
             (now_iso (now_calls w)))
          (uuid_calls w) (S (now_calls w)).

(** [upsert_daily_result] *)
Definition upsert_daily_result (w : World) (user_id day : string)
    (j : Engine.Judgement) : result World :=
  match get_result (db w) user_id day with
  | Some existing =>
      db' <- update_result (db w) (r_id existing) j (now_iso (now_calls w)) ;;
      Ok (mkWorld db' (uuid_calls w) (S (now_calls w)))
  | None =>
      db' <- insert_result (db w) (uuid4 (uuid_calls w)) user_id day j
               (now_iso (now_calls w)) ;;
      Ok (mkWorld db' (S (uuid_calls w)) (S (now_calls w)))
  end.

(** [update_user_stats] *)
Definition update_user_stats (w : World) (user_id : string)
    (j : Engine.Judgement) : result World :=
  db' <- update_stats (db w) user_id j ;;
  Ok (mkWorld db' (uuid_calls w) (now_calls w)).

End EngineStore.

End Store.

(* ================================================================== *)
(** * _legacy/backend/main.py: the HTTP routes *)
(* ================================================================== *)

Module LegacyMain.

Import Store.

(** The outcome of a route: its JSON reply, an [HTTPException], or an
    exception that escaped the handler. *)
Inductive response (A : Type) : Type :=
| Reply (a : A)
| HTTPException (status_code : Z) (detail : string)
| Uncaught (e : PyExn).
Arguments Reply {A} a.
Arguments HTTPException {A} status_code detail.
Arguments Uncaught {A} e.

(** The reply of [/checkin]. *)
Record CheckInReply : Type := mkCheckInReply {
  ci_date : string;
  ci_completed : Z;
  ci_missed : Z;
  ci_judgement : Engine.Judgement;
  ci_actions : list ActionRow
}.

(** The truth value of a decoded JSON value, as in [1 if completed else 0]. *)
Definition truthy (x : Ai.json) : bool :=
  match x with
  | Ai.JNull => false
  | Ai.JBool b => b
  | Ai.JInt z => negb (z =? 0)
  | Ai.JFloat (S754_zero _) => false
  | Ai.JFloat _ => true
  | Ai.JStr s => negb (Text.is_empty s)
  | Ai.JArr l => nonempty l
  | Ai.JObj kvs => nonempty kvs
  end.

Section Handlers.

Variable uuid4 : nat -> string.
Variable now_iso : nat -> string.
(** [ai.generate_actions] in its environment. *)
Variable generate_actions : string -> Z -> string -> result (list Action).
(** The built-in [sum] over the weights of the completed actions, whose
    rounding depends on the interpreter; on no weight at all it is the
    [int] 0. *)
Variable sum_weights : list PyFloat.float -> pynum.

(** [CreateUserReq]: the request model bounds the lengths of both fields;
    a request outside the bounds is refused before the handler runs. *)
Definition valid_create_user_req (user_id goal_text : string) : bool :=
  ((3 <=? Text.len user_id) && (Text.len user_id <=? 64)
   && (5 <=? Text.len goal_text) && (Text.len goal_text <=? 280))%nat.

(** [create_user(req)] *)
Definition create_user (w : World) (user_id goal_text : string)
    : World * response string :=
  match get_user (db w) user_id with
  | Some _ => (w, HTTPException 409 "User already exists.")
  | None =>
      let row := mkUserRow user_id (now_iso (now_calls w))
                   (Text.strip goal_text) 1 0 0 0 1 in
      (mkWorld (mkDb (users (db w) ++ [row]) (actions (db w))
                  (daily_results (db w)))
               (uuid_calls w) (S (now_calls w)),
       Reply user_id)
  end.

(** Line 74: one entry of the brief history. *)
Definition history_entry (r : ResultRow) : string :=
  (r_date r ++ ": xpÎ”=" ++ Ai.str_of_int (r_xp_delta r)
   ++ ", pen=" ++ Ai.str_of_int (r_penalty r))%string.

(** Lines 78-84: the insertion loop. *)
Fixpoint insert_generated (w : World) (user_id d : string)
    (actions : list Action) : result World :=
  match actions with
  | [] => Ok w
  | a :: rest =>
      let aid := uuid4 (uuid_calls w) in
      db' <- insert_action (db w) aid user_id d (text a)
               (impact_weight a) (difficulty a) ;;
      insert_generated (mkWorld db' (S (uuid_calls w)) (now_calls w))
        user_id d rest
  end.

(** [generate_today(req)], with [d = today_str()] given.  The
    connection commits when the handler returns and is closed without
    a commit when it raises. *)
Definition generate_today (w : World) (d : string) (user_id : string)
    : World * response (string * list ActionRow) :=
  match get_user (db w) user_id with
  | None => (w, HTTPException 404 "User not found.")
  | Some u =>
      (* If already generated for today, return existing *)
      let existing := list_actions (db w) user_id d in
      if nonempty existing then (w, Reply (d, existing))
      else
        let hist_rows := history (db w) user_id 7 in
        let history := join "; " (map history_entry hist_rows) in
        match generate_actions (u_goal_text u) (u_difficulty u) history with
        | Raise e => (w, Uncaught e)
        | Ok actions =>
            match insert_generated w user_id d actions with
            | Raise e => (w, Uncaught e)
            | Ok w' =>
                let out := list_actions (db w') user_id d in
                (w', Reply (d, out))
            end
        end
  end.

(** Lines 109-117: one update of the request.  [aid not in action_map]
    hashes [aid], which fails on a list or a dict. *)
Definition apply_update (ids : list string) (w : World) (upd : Ai.json)
    : result World :=
  aid <- Ai.py_get upd "id" Ai.JNull ;;
  completed <- Ai.py_get upd "completed" Ai.JNull ;;
  match aid with
  | Ai.JArr _ | Ai.JObj _ => Raise TypeError
  | Ai.JStr id =>
      if existsb (String.eqb id) ids then
        Ok (mkWorld (update_completion (db w) id
                       (if truthy completed then 1 else 0)
                       (now_iso (now_calls w)))
                    (uuid_calls w) (S (now_calls w)))
      else Ok w
  | _ => Ok w
  end.

(** The body of [checkin(req)] after the two guards. *)
Definition checkin_body (w : World) (d user_id : string) (u : UserRow)
    (actions : list ActionRow) (action_updates : list Ai.json)
    : result (World * CheckInReply) :=
  (* Apply updates *)
  w1 <- Ai.foldM (apply_update (map a_id actions)) w action_updates ;;
  (* Re-read after updates *)
  let actions2 := list_actions (db w1) user_id d in
  let completed := count_completed 1 actions2 in
  let missed := count_completed 0 actions2 in
  let impacts_sum := sum_weights (completed_weights actions2) in
  j <- LegacyRules.judge_day (u_xp u) (u_streak u) (u_debt u) (u_difficulty u)
         completed missed impacts_sum ;;
  (* Upsert daily result *)
  w2 <-
    match get_result (db w1) user_id d with
    | Some existing_res =>
        db2 <- update_result (db w1) (r_id existing_res) j
                 (now_iso (now_calls w1)) ;;
        Ok (mkWorld db2 (uuid_calls w1) (S (now_calls w1)))
    | None =>
        db2 <- insert_result (db w1) (uuid4 (uuid_calls w1)) user_id d j
                 (now_iso (now_calls w1)) ;;
        Ok (mkWorld db2 (S (uuid_calls w1)) (S (now_calls w1)))
    end ;;
  (* Update user stats *)
  db3 <- update_stats (db w2) user_id j ;;
  let w3 := mkWorld db3 (uuid_calls w2) (now_calls w2) in
  Ok (w3, mkCheckInReply d completed missed j actions2).

(** [checkin(req)]: nothing is committed when the body raises. *)
Definition checkin (w : World) (d user_id : string)
    (action_updates : list Ai.json) : World * response CheckInReply :=
  match get_user (db w) user_id with
  | None => (w, HTTPException 404 "User not found.")
  | Some u =>
      let actions := list_actions (db w) user_id d in
      if negb (nonempty actions) then
        (w, HTTPException 400 "No actions for today. Call /generate_today first.")
      else
        match checkin_body w d user_id u actions action_updates with
        | Ok (w', reply) => (w', Reply reply)
        | Raise e => (w, Uncaught e)
        end
  end.

(** The routes that write, each with the date of the day it is served. *)
Inductive request : Type :=
| CreateUser (user_id goal_text : string)
| GenerateToday (d user_id : string)
| CheckIn (d user_id : string) (action_updates : list Ai.json).

Definition serve (w : World) (r : request) : World :=
  match r with
  | CreateUser user_id goal_text =>
      if valid_create_user_req user_id goal_text
      then fst (create_user w user_id goal_text)
      else w
  | GenerateToday d user_id => fst (generate_today w d user_id)
  | CheckIn d user_id action_updates => fst (checkin w d user_id action_updates)
  end.

(** The worlds the service can be in, from the empty database. *)
Inductive reachable : World -> Prop :=
| reachable_init : reachable (mkWorld (mkDb [] [] []) 0 0)
| reachable_serve (w : World) (r : request) :
    reachable w -> reachable (serve w r).

End Handlers.

End LegacyMain.

(* ================================================================== *)
(** * streamlit_app.py: the Init and Today tabs *)
(* ================================================================== *)

Module App.

Import Store.

(** What the Verdict tab shows. *)
Record Verdict : Type := mkVerdict {
  v_completed : Z;
  v_missed : Z;
  v_judgement : Engine.Judgement
}.

(** [st.session_state] *)
Record Session : Type := mkSession {
  user_id : string;
  today_actions : list ActionRow;
  today : string;
  last_verdict : option Verdict
}.

Inductive notice : Type :=
| Warning (msg : string)
| Success (msg : string)
| Error (msg : string).

Section Handlers.

Variable uuid4 : nat -> string.
Variable now_iso : nat -> string.
(** [generate_actions] of the module [ai_actions], which is not among
    the sources: taken as it is. *)
Variable generate_actions : string -> Z -> string -> result (list Action).
(** The built-in [sum] over the weights of the completed actions. *)
Variable sum_weights : list PyFloat.float -> pynum.

(** Lines 48-54: the "Commit goal" button, given the two input fields. *)
Definition commit_goal (w : World) (ss : Session) (user_id_input goal : string)
    : World * Session * notice :=
  if Text.is_empty (Text.strip goal) then
    (w, ss, Error "Write a goal. No blanks.")
  else
    (upsert_user now_iso w (Text.strip user_id_input) (Text.strip goal),
     mkSession (Text.strip user_id_input) (today_actions ss) (today ss)
       (last_verdict ss),
     Success "Goal locked. The game starts now.").

(** Line 79: one entry of the brief history. *)
Definition history_entry (r : ResultRow) : string :=
  (r_date r ++ ": xpΔ=" ++ Ai.str_of_int (r_xp_delta r)
   ++ ", pen=" ++ Ai.str_of_int (r_penalty r))%string.

(** Lines 72-83, run when "Generate today's actions" is pressed; [u] is
    the row of the session's user, which the tab has fetched and found. *)
Definition generate_button (w : World) (ss : Session) (u : UserRow)
    : result (World * Session * notice) :=
  let uid := user_id ss in
  let existing2 := list_actions (db w) uid (today ss) in
  if nonempty existing2 then
    Ok (w, mkSession (user_id ss) existing2 (today ss) (last_verdict ss),
        Warning "Already generated for today. You don't get a re-roll.")
  else
    let hist := history (db w) uid 7 in
    let hist_str := join "; " (map history_entry hist) in
    actions <- generate_actions (u_goal_text u) (u_difficulty u) hist_str ;;
    w' <- insert_actions uuid4 w uid (today ss) actions ;;
    Ok (w', mkSession (user_id ss) (list_actions (db w') uid (today ss))
              (today ss) (last_verdict ss),
        Success "Actions generated. They are non-negotiable.").

(** Lines 96-130, run when "Submit check-in" is pressed; [checked] is
    the state of the checkbox of each action.  Every store function
    commits on its own, so what was written stays when a later step
    raises. *)
Definition checkin_button (w : World) (ss : Session) (checked : string -> bool)
    : World * result Session :=
  let uid := user_id ss in
  let updates := map (fun a => (a_id a, checked (a_id a))) (today_actions ss) in
  let w1 := fold_left
              (fun w upd => set_action_completion now_iso w (fst upd) (snd upd))
              updates w in
  let actions2 := list_actions (db w1) uid (today ss) in
  let completed := count_completed 1 actions2 in
  let missed := count_completed 0 actions2 in
  let impacts_sum := sum_weights (completed_weights actions2) in
  match get_user (db w1) uid with
  | None => (w1, Raise TypeError)
  | Some u2 =>
      match Engine.judge_day (u_xp u2) (u_streak u2) (u_debt u2)
              (u_difficulty u2) completed missed impacts_sum with
      | Raise e => (w1, Raise e)
      | Ok j =>
          match upsert_daily_result uuid4 now_iso w1 uid (today ss) j with
          | Raise e => (w1, Raise e)
          | Ok w2 =>
              match update_user_stats w2 uid j with
              | Raise e => (w2, Raise e)
              | Ok w3 =>
                  (w3, Ok (mkSession (user_id ss) (today_actions ss) (today ss)
                             (Some (mkVerdict completed missed j))))
              end
          end
      end
  end.

End Handlers.

End App.

(* ================================================================== *)
(** * frontend/app.py: the client of the HTTP routes *)
(* ================================================================== *)

Module Frontend.

(** Lines 63-70: one update per action of the session, with the state of
    its checkbox; the list is the [action_updates] of the request to
    [/checkin]. *)
Definition updates (actions : list Store.ActionRow) (checked : string -> bool)
    : list Ai.json :=
  map (fun a => Ai.JObj [("id", Ai.JStr (Store.a_id a));
                         ("completed", Ai.JBool (checked (Store.a_id a)))])
      actions.

End Frontend.

(* ================================================================== *)
(** * The specification's reading of an if/elif chain *)
(* ================================================================== *)

(** An ordered list of (predicate, outcome) pairs evaluated top to bottom,
    the first match winning, with a default when none matches. *)
Fixpoint first_match {C A : Type} (rules : list ((C -> bool) * A))
    (default : A) (ctx : C) : A :=
  match rules with
  | [] => default
  | (p, a) :: rest => if p ctx then a else first_match rest default ctx
  end.

(** The verdict chain of the specification, over (completed, missed). *)
Definition verdict_rules : list ((Z * Z -> bool) * string) :=
  [ (fun '(completed, missed) => (completed =? 0) && (missed >? 0),
     Engine.verdict_nothing);
    (fun '(completed, missed) => (missed =? 0) && (completed >=? 4),
     Engine.verdict_hard);
    (fun '(completed, missed) => (missed =? 0) && (completed >? 0),
     Engine.verdict_work);
    (fun '(completed, missed) => missed >=? 2,
     Engine.verdict_avoided) ].

(** The difficulty chain of the specification, over
    (completed, missed, new_streak): the amount added to the difficulty. *)
Definition difficulty_rules : list ((Z * Z * Z -> bool) * Z) :=
  [ (fun '(completed, missed, new_streak) => missed >=? 2, 1);
    (fun '(completed, missed, new_streak) => new_streak >=? 5, 1);
    (fun '(completed, missed, new_streak) =>
       (missed =? 0) && (completed >=? 4), 1) ].

(** Inputs on which line 88 stays within the doubles: any [int] for
    [impacts_sum], or a finite [float] below [2^1000] in absolute value
    together with integer terms below [2^1000]. *)
Definition in_double_range (completed : Z) (impacts_sum : pynum)
    (current_difficulty : Z) : Prop :=
  match impacts_sum with
  | PyInt _ => True
  | PyFloat f =>
      PyFloat.below 1000 f /\
      Z.abs (20 * completed) < 2 ^ 1000 /\
      Z.abs (5 * current_difficulty) < 2 ^ 1000
  end.





(** Text made of whitespace only (the empty text included). *)
Fixpoint all_space (s : string) : bool :=
  match s with
  | String c s' => Text.is_space c && all_space s'
  | EmptyString => true
  end.

(** A text matches a keyword set: one of the keywords occurs in it. *)
Definition mentions (keywords : list string) (s : string) : Prop :=
  exists k a b, In k keywords /\ s = (a ++ k ++ b)%string.

(** The failures of the external generation path that the specification
    lists, for a configured key [api_key]. *)
Section ExternalFailure.

Variable json_loads : string -> result Ai.json.
Variable repr : Ai.json -> string.
Variable float_of_str : string -> result PyFloat.float.
Variable int_of_str : string -> result Z.
Variable env : Ai.Env.
Variables (api_key goal_text : string) (difficulty : Z) (history : string).

Local Abbreviation post :=
  (Ai.requests_post env api_key (Ai.prompt_of goal_text difficulty history)).

(** The text gathered from a decoded response body, lines 77-82. *)
Definition output_text (data : Ai.json) : result string :=
  output <- Ai.py_get data "output" (Ai.JArr []) ;;
  items <- Ai.py_iter output ;;
  Ai.foldM Ai.item_text EmptyString items.

(** The validated items of the bracketed part [m], lines 88-98. *)
Definition usable_items (m : string) : result (list Action) :=
  arr <- json_loads m ;;
  elems <- Ai.py_iter arr ;;
  cleaned <- mapM (Ai.clean repr float_of_str int_of_str) elems ;;
  Ok (firstn 5 cleaned).

Inductive external_failure : Prop :=
| network_error (e : PyExn) :
    post = Raise e -> external_failure
| non_success_status (r : Ai.Response) :
    post = Ok r ->
    400 <= Ai.status_code r < 600 -> external_failure
| unparsable_response (r : Ai.Response) (e : PyExn) :
    post = Ok r ->
    Ai.json_body r = Raise e -> external_failure
| unexpected_shape (r : Ai.Response) (data : Ai.json) (e : PyExn) :
    post = Ok r -> Ai.json_body r = Ok data ->
    output_text data = Raise e -> external_failure
| no_array (r : Ai.Response) (data : Ai.json) (txt : string) :
    post = Ok r -> Ai.json_body r = Ok data ->
    output_text data = Ok txt ->
    Ai.re_search_brackets txt = None -> external_failure
| unparsable_array (r : Ai.Response) (data : Ai.json) (txt m : string)
      (e : PyExn) :
    post = Ok r -> Ai.json_body r = Ok data ->
    output_text data = Ok txt ->
    Ai.re_search_brackets txt = Some m ->
    usable_items m = Raise e -> external_failure
| too_few_items (r : Ai.Response) (data : Ai.json) (txt m : string)
      (cleaned : list Action) :
    post = Ok r -> Ai.json_body r = Ok data ->
    output_text data = Ok txt ->
    Ai.re_search_brackets txt = Some m ->
    usable_items m = Ok cleaned ->
    (List.length cleaned < 3)%nat -> external_failure.

End ExternalFailure.

(* ================================================================== *)
(** * Properties of the store *)
(* ================================================================== *)

(** From one world to the next no user is lost and no debt goes down. *)
Definition debt_kept (w w' : Store.World) : Prop :=
  forall uid u,
    Store.get_user (Store.db w) uid = Some u ->
    exists u',
      Store.get_user (Store.db w') uid = Some u' /\
      Store.u_debt u <= Store.u_debt u'.

(** Every stored action belongs to a stored user. *)
Definition actions_have_users (d : Store.Db) : Prop :=
  forall a, In a (Store.actions d) ->
            Store.get_user d (Store.a_user_id a) <> None.

(** Every action of the second database has the owner of some action of
    the first. *)
Definition owners_within (d d' : Store.Db) : Prop :=
  forall a, In a (Store.actions d') ->
            exists a0, In a0 (Store.actions d) /\
                       Store.a_user_id a = Store.a_user_id a0.

(** The character [c] occurs in [s]. *)
Fixpoint occurs (c : ascii) (s : string) : bool :=
  match s with
  | String c' s' => Ascii.eqb c' c || occurs c s'
  | EmptyString => false
  end.

(** What every proposal of either generation path satisfies: flagged
    non-negotiable, with a text of at most 300 characters. *)
Definition proposal_ok (a : Action) : Prop :=
  non_negotiable a = true /\ (Text.len (text a) <= 300)%nat.


(** What sqlite3 accepts of a proposal: a difficulty that fits the
    64-bit INTEGER and a weight that is a number. *)
Definition storable (a : Action) : Prop :=
  - 2 ^ 63 <= difficulty a < 2 ^ 63 /\ impact_weight a <> S754_nan.

(** The rows of one insertion loop: one per proposal, in order, with the
    identifiers [uuid4 n], [uuid4 (n+1)], ..., not yet judged. *)
Fixpoint fresh_rows (uuid4 : nat -> string) (n : nat) (user_id day : string)
    (proposals : list Action) : list Store.ActionRow :=
  match proposals with
  | [] => []
  | a :: rest =>
      Store.mkActionRow (uuid4 n) user_id day (text a) (impact_weight a)
        (difficulty a) 1 None None
      :: fresh_rows uuid4 (S n) user_id day rest
  end.


(** The columns of an action that no check-in writes. *)
Definition same_action (a a' : Store.ActionRow) : Prop :=
  Store.a_id a' = Store.a_id a /\
  Store.a_user_id a' = Store.a_user_id a /\
  Store.a_date a' = Store.a_date a /\
  Store.a_text a' = Store.a_text a /\
  Store.a_impact_weight a' = Store.a_impact_weight a /\
  Store.a_difficulty a' = Store.a_difficulty a /\
  Store.a_non_negotiable a' = Store.a_non_negotiable a.

(** The row [a'] is the row [a] after the boxes of the actions [ids] were
    submitted: judged by its box when its id is among them, as it was
    otherwise. *)
Definition marked (checked : string -> bool) (ids : list string)
    (a a' : Store.ActionRow) : Prop :=
  same_action a a' /\
  Store.a_completed a'
  = if existsb (String.eqb (Store.a_id a)) ids
    then Some (if checked (Store.a_id a) then 1 else 0)
    else Store.a_completed a.

(** What the columns of a user's row satisfy between requests: XP and
    debt and streak not negative, the level that of the XP, the
    difficulty in [1,5]. *)
Definition user_ok (u : Store.UserRow) : Prop :=
  0 <= Store.u_xp u /\
  Store.u_level u = Engine.level_from_xp (Store.u_xp u) /\
  0 <= Store.u_streak u /\
  0 <= Store.u_debt u /\
  1 <= Store.u_difficulty u <= 5.

(** What the columns of an action satisfy: flagged non-negotiable, and
    either not judged (both completion columns NULL) or judged 0 or 1
    with the time of the judgement. *)
Definition action_ok (a : Store.ActionRow) : Prop :=
  Store.a_non_negotiable a = 1 /\
  match Store.a_completed a, Store.a_completed_at a with
  | None, None => True
  | Some c, Some _ => c = 0 \/ c = 1
  | _, _ => False
  end.

(** The user and the day of a result. *)
Definition result_key (r : Store.ResultRow) : string * string :=
  (Store.r_user_id r, Store.r_date r).

(** From one world to the next no user is lost and no difficulty goes
    down. *)
Definition difficulty_kept (w w' : Store.World) : Prop :=
  forall uid u,
    Store.get_user (Store.db w) uid = Some u ->
    exists u',
      Store.get_user (Store.db w') uid = Some u' /\
      Store.u_difficulty u <= Store.u_difficulty u'.


(* ================================================================== *)
(** * Concrete inputs *)
(* ================================================================== *)

(** Concrete worlds for the adapter: library stubs that always fail, an
    environment without a key, and one with a key and a dead network. *)
Definition loads_fail : string -> result Ai.json := fun _ => Raise JSONDecodeError.
Definition repr_blank : Ai.json -> string := fun _ => EmptyString.
Definition float_fail : string -> result PyFloat.float := fun _ => Raise ValueError.
Definition int_fail : string -> result Z := fun _ => Raise ValueError.

Definition env_no_key : Ai.Env :=
  Ai.mkEnv "  " (fun _ _ => Raise RequestException).
Definition env_dead_network : Ai.Env :=
  Ai.mkEnv "sk-test" (fun _ _ => Raise RequestException).

(** An environment whose service answers with three items, as decoded by
    [json.loads]. *)
Definition three_items : Ai.json :=
  Ai.JArr
    [ Ai.JObj [("text", Ai.JStr " Call five leads "); ("difficulty", Ai.JInt 1)];
      Ai.JObj [("text", Ai.JStr "Send the invoice");
               ("impact_weight", Ai.JInt 1); ("difficulty", Ai.JBool true)];
      Ai.JObj [("impact_weight", Ai.JFloat (PyFloat.decimal 5 1))] ].

Definition env_answering : Ai.Env :=
  Ai.mkEnv "sk-test"
    (fun _ _ =>
       Ok (Ai.mkResponse 200
             (Ok (Ai.JObj
                    [("output",
                      Ai.JArr
                        [Ai.JObj
                           [("type", Ai.JStr "message");
                            ("content",
                             Ai.JArr
                               [Ai.JObj
                                  [("type", Ai.JStr "output_text");
                                   ("text", Ai.JStr "Here: [items] done")]])]])])))).

Definition loads_items : string -> result Ai.json :=
  fun s => if String.eqb s "[items]" then Ok three_items
           else Raise JSONDecodeError.

(** A world with one user and one action stored for 2026-01-05. *)
Definition founder : Store.UserRow :=
  Store.mkUserRow "founder" "2026-01-01T08:00:00Z" "Get 10 paying customers"
    1 0 0 0 1.

Definition stored_action : Store.ActionRow :=
  Store.mkActionRow "a-1" "founder" "2026-01-05" "Book 1 short sales call"
    (PyFloat.decimal 15 1) 2 1 None None.

Definition world_with_actions : Store.World :=
  Store.mkWorld (Store.mkDb [founder] [stored_action] []) 1 0.

Definition uuid_counter : nat -> string :=
  fun n => ("uuid-" ++ NilZero.string_of_uint (Nat.to_uint n))%string.

Definition generator_offline : string -> Z -> string -> result (list Action) :=
  fun goal_text difficulty _ => Ok (Ai._offline_actions goal_text difficulty).

(** A clock that ticks once per call, and a sum that adds the weights
    from left to right. *)
Definition clock_counter : nat -> string :=
  fun n => ("2026-01-05T08:00:00Z+" ++ NilZero.string_of_uint (Nat.to_uint n))%string.

Definition sum_naive (ws : list PyFloat.float) : pynum :=
  match ws with
  | [] => PyInt 0
  | w :: rest => PyFloat (fold_left PyFloat.fadd rest w)
  end.

(** An answer of the service with a bare string among its items. *)
Definition items_one_bad : Ai.json :=
  Ai.JArr
    [ Ai.JObj [("text", Ai.JStr "Call five leads")];
      Ai.JObj [("text", Ai.JStr "Send the invoice")];
      Ai.JStr "Publish the offer";
      Ai.JObj [("text", Ai.JStr "Book a demo")] ].

Definition loads_one_bad : string -> result Ai.json := fun _ => Ok items_one_bad.

(** Worlds of the service: the empty one, one with a user, the one after
    the user's first generation, and the one after a check-in that ticks
    the second action only. *)
Definition empty_world : Store.World :=
  Store.mkWorld (Store.mkDb [] [] []) 0 0.

Definition world_with_founder : Store.World :=
  Store.mkWorld (Store.mkDb [founder] [] []) 0 0.

Definition world_generated : Store.World :=
  LegacyMain.serve uuid_counter clock_counter generator_offline sum_naive
    (LegacyMain.serve uuid_counter clock_counter generator_offline sum_naive
       empty_world
       (LegacyMain.CreateUser "founder" "Get 10 paying customers"))
    (LegacyMain.GenerateToday "2026-01-05" "founder").

Definition second_box : string -> bool := fun id => String.eqb id "uuid-1".

Definition world_checked_in : Store.World :=
  LegacyMain.serve uuid_counter clock_counter generator_offline sum_naive
    world_generated
    (LegacyMain.CheckIn "2026-01-05" "founder"
       (Frontend.updates
          (Store.list_actions (Store.db world_generated) "founder" "2026-01-05")
          second_box)).

(** The session of the Streamlit page that shows the stored action, and
    the page with every box ticked. *)
Definition session_with_actions : App.Session :=
  App.mkSession "founder" [stored_action] "2026-01-05" None.

Definition every_box : string -> bool := fun _ => true.

(* ================================================================== *)
(** * Facts about the number model *)
(* ================================================================== *)

Lemma clamp_bounds (v lo hi : Z) :
  lo <= hi -> lo <= Engine.clamp v lo hi <= hi.
Proof. unfold Engine.clamp. lia. Qed.


(* ================================================================== *)
(** * Facts about binary64 arithmetic: no overflow below 2^1000 *)
(* ================================================================== *)

Lemma digits2_pos_bounds (p : positive) :
  2 ^ (Zpos (digits2_pos p) - 1) <= Zpos p < 2 ^ Zpos (digits2_pos p).
Proof.
  induction p as [p IH | p IH |]; cbn [digits2_pos].
  - rewrite Pos2Z.inj_succ.
    replace (Z.succ (Zpos (digits2_pos p)) - 1) with (Z.succ (Zpos (digits2_pos p) - 1)) by lia.
    rewrite !Z.pow_succ_r by lia. lia.
  - rewrite Pos2Z.inj_succ.
    replace (Z.succ (Zpos (digits2_pos p)) - 1) with (Z.succ (Zpos (digits2_pos p) - 1)) by lia.
    rewrite !Z.pow_succ_r by lia. lia.
  - cbn. lia.
Qed.

(** The number of binary digits of a positive below a power of two. *)
Lemma digits2_pos_le (p : positive) (k : Z) :
  Zpos p < 2 ^ k -> Zpos (digits2_pos p) <= k.
Proof.
  intros H. pose proof (digits2_pos_bounds p) as [Hlo _].
  destruct (Z.le_gt_cases (Zpos (digits2_pos p)) k) as [|Hgt]; [assumption|].
  exfalso.
  assert (0 <= k). { destruct (Z.le_gt_cases 0 k); [assumption|]. rewrite Z.pow_neg_r in H by lia. lia. }
  assert (2 ^ k <= 2 ^ (Zpos (digits2_pos p) - 1)) by (apply Z.pow_le_mono_r; lia).
  lia.
Qed.

Lemma digits2_pos_ge (p : positive) (k : Z) :
  2 ^ k <= Zpos p -> k + 1 <= Zpos (digits2_pos p).
Proof.
  intros H. pose proof (digits2_pos_bounds p) as [_ Hhi].
  destruct (Z.le_gt_cases (k + 1) (Zpos (digits2_pos p))) as [|Hgt]; [assumption|].
  exfalso.
  assert (2 ^ (Zpos (digits2_pos p)) <= 2 ^ k) by (apply Z.pow_le_mono_r; lia).
  lia.
Qed.

Lemma shr_1_m (mrs : shr_record) :
  0 <= shr_m mrs -> shr_m (shr_1 mrs) = shr_m mrs / 2.
Proof.
  destruct mrs as [m r s]. cbn [shr_m]. intros Hm.
  destruct m as [| [p | p |] | p]; cbn [shr_1 shr_m].
  - reflexivity.
  - apply Z.div_unique with (r := 1); lia.
  - apply Z.div_unique with (r := 0); lia.
  - reflexivity.
  - lia.
Qed.

Lemma iter_shr_1_m (n : positive) (mrs : shr_record) :
  0 <= shr_m mrs ->
  shr_m (iter_pos shr_1 n mrs) = shr_m mrs / 2 ^ Zpos n.
Proof.
  revert mrs. induction n as [n IH | n IH |]; intros mrs Hm; cbn [iter_pos].
  - assert (H1 : 0 <= shr_m (shr_1 mrs)) by (rewrite shr_1_m by lia; apply Z.div_pos; lia).
    assert (Hp : 0 < 2 ^ Zpos n) by (apply Z.pow_pos_nonneg; lia).
    assert (H2 : 0 <= shr_m (iter_pos shr_1 n (shr_1 mrs)))
      by (rewrite IH by lia; apply Z.div_pos; lia).
    rewrite IH, IH, shr_1_m by lia.
    rewrite !Z.div_div by lia. f_equal.
    replace (Z.pos n~1) with (1 + Zpos n + Zpos n) by lia.
    rewrite !Z.pow_add_r by lia. lia.
  - assert (Hp : 0 < 2 ^ Zpos n) by (apply Z.pow_pos_nonneg; lia).
    assert (H2 : 0 <= shr_m (iter_pos shr_1 n mrs))
      by (rewrite IH by lia; apply Z.div_pos; lia).
    rewrite IH, IH by lia. rewrite Z.div_div by lia. f_equal.
    replace (Z.pos n~0) with (Zpos n + Zpos n) by lia.
    rewrite Z.pow_add_r by lia. reflexivity.
  - rewrite shr_1_m by lia. reflexivity.
Qed.

Lemma fexp_eq (x : Z) : fexp PyFloat.prec PyFloat.emax x = Z.max (x - 53) (-1074).
Proof. reflexivity. Qed.

Lemma shr_record_of_loc_m (m : Z) (l : location) :
  shr_m (shr_record_of_loc m l) = m.
Proof. destruct l as [| []]; reflexivity. Qed.

Lemma shr_fexp_spec (m e : Z) (l : location) :
  0 <= m ->
  snd (shr_fexp PyFloat.prec PyFloat.emax m e l) = Z.max e (fexp PyFloat.prec PyFloat.emax (Zdigits2 m + e)) /\
  shr_m (fst (shr_fexp PyFloat.prec PyFloat.emax m e l))
    = m / 2 ^ (snd (shr_fexp PyFloat.prec PyFloat.emax m e l) - e).
Proof.
  intros Hm. unfold shr_fexp, shr.
  destruct (fexp PyFloat.prec PyFloat.emax (Zdigits2 m + e) - e) as [| n | n] eqn:Hn;
    cbn [fst snd].
  - rewrite shr_record_of_loc_m, Z.sub_diag, Z.div_1_r. split; lia.
  - rewrite iter_shr_1_m by (rewrite shr_record_of_loc_m; lia).
    rewrite shr_record_of_loc_m. split; [lia |]. f_equal. f_equal. lia.
  - rewrite shr_record_of_loc_m, Z.sub_diag, Z.div_1_r. split; lia.
Qed.

Lemma round_nearest_even_range (m : Z) (l : location) :
  m <= round_nearest_even m l <= m + 1.
Proof.
  unfold round_nearest_even. destruct l as [| []]; try lia.
  destruct (Z.even m); lia.
Qed.

Lemma Zdigits2_le (m k : Z) : 0 <= m < 2 ^ k -> 0 <= k -> Zdigits2 m <= k.
Proof.
  intros [Hm Hlt] Hk. destruct m as [| p | p]; cbn [Zdigits2]; [lia | | lia].
  apply digits2_pos_le. exact Hlt.
Qed.

Lemma below_mono (k k' : Z) (f : spec_float) : k <= k' -> PyFloat.below k f -> PyFloat.below k' f.
Proof. destruct f; cbn; try tauto. lia. Qed.

Lemma binary_round_aux_below (s : bool) (M : positive) (E : Z) (l : location) (k : Z) :
  E <= fexp PyFloat.prec PyFloat.emax (Zpos (digits2_pos M) + E) ->
  Zpos (digits2_pos M) + E <= k -> -1021 <= k <= 1023 ->
  PyFloat.below (k + 1) (binary_round_aux PyFloat.prec PyFloat.emax s (Zpos M) E l).
Proof.
  intros Hshift Hmag Hk. unfold binary_round_aux.
  pose proof (shr_fexp_spec (Zpos M) E l ltac:(lia)) as [He1 Hm1].
  destruct (shr_fexp PyFloat.prec PyFloat.emax (Zpos M) E l) as [mrs1 e1]. cbn [fst snd] in *.
  cbn [Zdigits2] in He1. set (dM := Zpos (digits2_pos M)) in *.
  assert (He1' : e1 = fexp PyFloat.prec PyFloat.emax (dM + E)) by lia. clear He1.
  rewrite fexp_eq in He1', Hshift.
  pose proof (digits2_pos_bounds M) as [_ HMhi]. fold dM in HMhi.
  (* the shifted mantissa has at most 53 digits *)
  assert (Hm1b : 0 <= shr_m mrs1 < 2 ^ 53).
  { rewrite Hm1. split; [apply Z.div_pos; [lia | apply Z.pow_pos_nonneg; lia] |].
    apply Z.div_lt_upper_bound; [apply Z.pow_pos_nonneg; lia |].
    rewrite <- Z.pow_add_r by lia.
    eapply Z.lt_le_trans; [exact HMhi |]. apply Z.pow_le_mono_r; lia. }
  pose proof (round_nearest_even_range (shr_m mrs1) (loc_of_shr_record mrs1)) as Hr.
  set (m2 := round_nearest_even (shr_m mrs1) (loc_of_shr_record mrs1)) in *.
  pose proof (shr_fexp_spec m2 e1 loc_Exact ltac:(lia)) as [He2 Hm2].
  destruct (shr_fexp PyFloat.prec PyFloat.emax m2 e1 loc_Exact) as [mrs2 e2]. cbn [fst snd] in *.
  rewrite fexp_eq in He2.
  assert (Hd2 : Zdigits2 m2 <= 54).
  { apply Zdigits2_le; [| lia]. change (2 ^ 54) with (2 * 2 ^ 53). lia. }
  assert (He2b : e1 <= e2 <= e1 + 1) by lia.
  assert (Hm2b : 0 <= shr_m mrs2 < 2 ^ 53).
  { rewrite Hm2. destruct (Z.eq_dec e2 e1) as [-> | Hne].
    - rewrite Z.sub_diag, Z.div_1_r.
      (* no shift: the digits of m2 are at most 53 *)
      split; [lia |].
      destruct (Z.eq_dec m2 (2 ^ 53)) as [Heq | Hneq]; [| lia].
      exfalso. rewrite Heq in He2. change (Zdigits2 (2 ^ 53)) with 54 in He2. lia.
    - replace (e2 - e1) with 1 by lia. change (2 ^ 1) with 2.
      split; [apply Z.div_pos; lia |].
      apply Z.div_lt_upper_bound; [lia |]. change (2 * 2 ^ 53) with (2 ^ 54).
      change (2 ^ 54) with (2 * 2 ^ 53). lia. }
  destruct (shr_m mrs2) as [| m | m] eqn:Hm; [exact I | | lia].
  replace (e2 <=? PyFloat.emax - PyFloat.prec) with true
    by (symmetry; apply Z.leb_le; unfold PyFloat.emax, PyFloat.prec; lia).
  cbn [PyFloat.below].
  assert (Zpos (digits2_pos m) <= 53) by (apply digits2_pos_le; lia).
  lia.
Qed.

Lemma digits2_pos_iter_xO (m d : positive) :
  Zpos (digits2_pos (Pos.iter xO m d)) = Zpos (digits2_pos m) + Zpos d.
Proof.
  induction d as [| d IH] using Pos.peano_ind.
  - cbn. lia.
  - rewrite Pos.iter_succ. cbn [digits2_pos]. lia.
Qed.

Lemma shl_align_spec (m : positive) (e e' : Z) :
  let '(m', e'') := shl_align m e e' in
  e'' = Z.min e e' /\ Zpos (digits2_pos m') + e'' = Zpos (digits2_pos m) + e.
Proof.
  unfold shl_align. destruct (e' - e) as [| d | d] eqn:Hd.
  - split; lia.
  - split; lia.
  - rewrite digits2_pos_iter_xO. split; lia.
Qed.

Lemma binary_round_below (s : bool) (m : positive) (e k : Z) :
  Zpos (digits2_pos m) + e <= k -> -1021 <= k <= 1023 ->
  PyFloat.below (k + 1) (binary_round PyFloat.prec PyFloat.emax s m e).
Proof.
  intros Hmag Hk. unfold binary_round.
  pose proof (shl_align_spec m e (fexp PyFloat.prec PyFloat.emax (Zpos (digits2_pos m) + e))) as Hal.
  destruct (shl_align m e _) as [mz ez]. destruct Hal as [Hez Hdz].
  apply binary_round_aux_below; [| lia | lia].
  rewrite Hdz. lia.
Qed.

Lemma binary_normalize_below (z e k : Z) :
  Zdigits2 z + e <= k -> -1021 <= k <= 1023 ->
  PyFloat.below (k + 1) (binary_normalize PyFloat.prec PyFloat.emax z e false).
Proof.
  intros Hmag Hk. destruct z as [| m | m]; cbn [binary_normalize Zdigits2] in *.
  - exact I.
  - apply binary_round_below; assumption.
  - apply binary_round_below; assumption.
Qed.

Lemma Zdigits2_abs_lt (z k : Z) : Z.abs z < 2 ^ k -> 0 <= k -> Zdigits2 z <= k.
Proof.
  intros H Hk. destruct z as [| p | p]; cbn [Zdigits2]; [lia | |];
    apply digits2_pos_le; cbn in H; lia.
Qed.

(** multiplication by a normal number *)
Lemma SFmul_below (sx : bool) (mx : positive) (ex : Z) (y : spec_float) (k : Z) :
  2 ^ 52 <= Zpos mx ->
  PyFloat.below k y ->
  -1021 <= Zpos (digits2_pos mx) + ex + k <= 1023 ->
  PyFloat.below (Zpos (digits2_pos mx) + ex + k + 1)
    (SFmul PyFloat.prec PyFloat.emax (S754_finite sx mx ex) y).
Proof.
  intros Hnorm Hy Hk. destruct y as [sy | sy | | sy my ey]; cbn [PyFloat.below] in Hy;
    try contradiction; cbn [SFmul]; [exact I |].
  pose proof (digits2_pos_bounds mx) as [_ Hx].
  pose proof (digits2_pos_bounds my) as [_ Hy'].
  assert (Hlo : 53 <= Zpos (digits2_pos (mx * my))).
  { change 53 with (52 + 1). apply digits2_pos_ge. rewrite Pos2Z.inj_mul. nia. }
  assert (Hhi : Zpos (digits2_pos (mx * my))
                <= Zpos (digits2_pos mx) + Zpos (digits2_pos my)).
  { apply digits2_pos_le. rewrite Pos2Z.inj_mul, Z.pow_add_r by lia. nia. }
  apply binary_round_aux_below; [rewrite fexp_eq; lia | lia | lia].
Qed.

Lemma cond_Zopp_abs (s : bool) (z : Z) : Z.abs (cond_Zopp s z) = Z.abs z.
Proof. destruct s; cbn; lia. Qed.

Lemma SFadd_below (x y : spec_float) (k : Z) :
  PyFloat.below k x -> PyFloat.below k y -> -1022 <= k <= 1022 ->
  PyFloat.below (k + 2) (SFadd PyFloat.prec PyFloat.emax x y).
Proof.
  intros Hx Hy Hk.
  destruct x as [sx | sx | | sx mx ex]; cbn [PyFloat.below] in Hx; try contradiction;
    destruct y as [sy | sy | | sy my ey]; cbn [PyFloat.below] in Hy; try contradiction;
    cbn [SFadd].
  - destruct sx, sy; exact I.
  - cbn [PyFloat.below]. lia.
  - cbn [PyFloat.below]. lia.
  - pose proof (shl_align_spec mx ex (Z.min ex ey)) as Hax.
    pose proof (shl_align_spec my ey (Z.min ex ey)) as Hay.
    destruct (shl_align mx ex (Z.min ex ey)) as [mx' ex'].
    destruct (shl_align my ey (Z.min ex ey)) as [my' ey'].
    destruct Hax as [Hex' Hdx]. destruct Hay as [Hey' Hdy]. cbn [fst].
    pose proof (digits2_pos_bounds mx') as [_ Hbx].
    pose proof (digits2_pos_bounds my') as [_ Hby].
    set (ez := Z.min ex ey) in *.
    apply (below_mono (k + 1 + 1)); [lia |].
    apply binary_normalize_below; [| lia].
    assert (Hp : 2 ^ Zpos (digits2_pos mx') <= 2 ^ (k - ez))
      by (apply Z.pow_le_mono_r; lia).
    assert (Hq : 2 ^ Zpos (digits2_pos my') <= 2 ^ (k - ez))
      by (apply Z.pow_le_mono_r; lia).
    assert (Hd : Zdigits2 (cond_Zopp sx (Zpos mx') + cond_Zopp sy (Zpos my'))
                 <= k - ez + 1).
    { apply Zdigits2_abs_lt; [| lia].
      rewrite Z.pow_add_r by lia. change (2 ^ 1) with 2.
      pose proof (cond_Zopp_abs sx (Zpos mx')). pose proof (cond_Zopp_abs sy (Zpos my')).
      lia. }
    lia.
Qed.

Lemma nearest_below (z k : Z) :
  Z.abs z < 2 ^ k -> 0 <= k <= 1023 ->
  PyFloat.below (k + 1) (PyFloat.nearest z).
Proof.
  intros Hz Hk. unfold PyFloat.nearest.
  apply binary_normalize_below; [| lia].
  rewrite Z.add_0_r. apply Zdigits2_abs_lt; [exact Hz | lia].
Qed.

(** A conversion whose result is finite does not raise. *)
Lemma of_int_below (z k : Z) :
  PyFloat.below k (PyFloat.nearest z) ->
  PyFloat.of_int z = Ok (PyFloat.nearest z).
Proof.
  unfold PyFloat.of_int. destruct (PyFloat.nearest z); cbn; tauto.
Qed.

Lemma round_below (f : PyFloat.float) (k : Z) :
  PyFloat.below k f -> exists z, PyFloat.round f = Ok z.
Proof.
  destruct f; cbn; try contradiction; intros _; eexists; reflexivity.
Qed.

(** With an [int] for [impacts_sum] line 88 is exact integer arithmetic. *)
Lemma base_xp_of_int (completed z current_difficulty : Z) :
  Engine.base_xp_of completed (PyInt z) current_difficulty
  = Ok (20 * completed + 10 * z + 5 * current_difficulty).
Proof. reflexivity. Qed.

(** Line 88 has a value on every input within the doubles: no conversion
    overflows and the sum that is rounded is finite. *)
Lemma base_xp_of_total (completed : Z) (impacts_sum : pynum)
    (current_difficulty : Z) :
  in_double_range completed impacts_sum current_difficulty ->
  exists base_xp,
    Engine.base_xp_of completed impacts_sum current_difficulty = Ok base_xp.
Proof.
  destruct impacts_sum as [z | f]; cbn [in_double_range].
  - intros _. eexists. reflexivity.
  - intros (Hf & Hc & Hd). unfold Engine.base_xp_of.
    cbn [py_mul bind].
    (* 10 * impacts_sum *)
    change (PyFloat.of_int 10)
      with (Ok (S754_finite false 5629499534213120 (-49)) : result PyFloat.float).
    cbn [bind].
    assert (Hb : PyFloat.below 1005
                   (PyFloat.fmul (S754_finite false 5629499534213120 (-49)) f)).
    { apply (SFmul_below false 5629499534213120 (-49) f 1000);
        [vm_compute; discriminate | exact Hf | cbn; lia]. }
    set (b := PyFloat.fmul _ f) in *.
    (* 20 * completed + b *)
    assert (Ha : PyFloat.below 1001 (PyFloat.nearest (20 * completed)))
      by (apply (nearest_below _ 1000); [exact Hc | lia]).
    cbn [py_add]. rewrite (of_int_below _ _ Ha). cbn [bind].
    assert (Hab : PyFloat.below 1007
                    (PyFloat.fadd (PyFloat.nearest (20 * completed)) b)).
    { apply (SFadd_below _ _ 1005); [| exact Hb | lia].
      apply (below_mono 1001); [lia | exact Ha]. }
    set (ab := PyFloat.fadd _ b) in *.
    (* ... + 5 * current_difficulty *)
    assert (Hc5 : PyFloat.below 1001 (PyFloat.nearest (5 * current_difficulty)))
      by (apply (nearest_below _ 1000); [exact Hd | lia]).
    cbn [py_mul py_add bind]. rewrite (of_int_below _ _ Hc5).
    cbn [bind py_int_round].
    apply (round_below _ 1009).
    apply (SFadd_below _ _ 1007); [exact Hab | | lia].
    apply (below_mono 1001); [lia | exact Hc5].
Qed.

(** [judge_day] raises exactly what line 88 raises: nothing after that
    line can fail. *)
Lemma judge_day_raises (xp streak debt d c m : Z) (x : pynum) (e : PyExn) :
  Engine.base_xp_of c x d = Raise e ->
  Engine.judge_day xp streak debt d c m x = Raise e.
Proof. intros H. unfold Engine.judge_day. rewrite H. reflexivity. Qed.

Lemma judge_day_returns (xp streak debt d c m : Z) (x : pynum) (b : Z) :
  Engine.base_xp_of c x d = Ok b ->
  exists j, Engine.judge_day xp streak debt d c m x = Ok j.
Proof.
  intros H. unfold Engine.judge_day. rewrite H. cbn [bind]. eexists. reflexivity.
Qed.

(** [judge_day] returns a judgement on every input within the doubles. *)
Lemma judge_day_total (xp streak debt d c m : Z) (x : pynum) :
  in_double_range c x d ->
  exists j, Engine.judge_day xp streak debt d c m x = Ok j.
Proof.
  intros H. destruct (base_xp_of_total c x d H) as [b Hb].
  exact (judge_day_returns xp streak debt d c m x b Hb).
Qed.

(** X1. The two copies of [judge_day] agree on every numeric field, and on the
    verdict except for the bytes of the dash in the catch-all sentence. *)
Lemma legacy_judge_day_agrees (xp streak debt d c m : Z) (x : pynum) :
  match Engine.judge_day xp streak debt d c m x,
        LegacyRules.judge_day xp streak debt d c m x with
  | Ok j, Ok j' =>
      Engine.xp_delta j' = Engine.xp_delta j /\
      Engine.penalty j' = Engine.penalty j /\
      Engine.new_xp j' = Engine.new_xp j /\
      Engine.new_level j' = Engine.new_level j /\
      Engine.new_streak j' = Engine.new_streak j /\
      Engine.new_debt j' = Engine.new_debt j /\
      Engine.new_difficulty j' = Engine.new_difficulty j /\
      (Engine.verdict j' = Engine.verdict j \/
       (Engine.verdict j = Engine.verdict_bailed /\
        Engine.verdict j' = LegacyRules.verdict_bailed))
  | Raise e, Raise e' => e = e'
  | _, _ => False
  end.
Proof.
  unfold Engine.judge_day, LegacyRules.judge_day.
  destruct (Engine.base_xp_of c x d) as [b | e]; cbn [bind]; [| reflexivity].
  cbn [Engine.xp_delta Engine.penalty Engine.new_xp Engine.new_level
       Engine.new_streak Engine.new_debt Engine.new_difficulty Engine.verdict].
  repeat (split; [reflexivity |]).
  destruct ((c =? 0) && (m >? 0)); [left; reflexivity |].
  destruct ((m =? 0) && (c >=? 4)); [left; reflexivity |].
  destruct ((m =? 0) && (c >? 0)); [left; reflexivity |].
  destruct (m >=? 2); [left; reflexivity |].
  right. split; reflexivity.
Qed.

(* ================================================================== *)
(** * Facts about the text model *)
(* ================================================================== *)

Lemma prefix_app (k s : string) :
  prefix k s = true <-> exists b, s = (k ++ b)%string.
Proof.
  revert s. induction k as [| c k IH]; intros s.
  - split; [intros _; exists s; reflexivity | intros _; destruct s; reflexivity].
  - destruct s as [| c' s']; cbn.
    + split; [discriminate | intros [b Hb]; discriminate].
    + destruct (ascii_dec c c') as [-> | Hne].
      * rewrite IH. split; intros [b Hb]; exists b; congruence.
      * split; [discriminate | intros [b Hb]; congruence].
Qed.

(** [contains k s] holds exactly when [s] is some text, then [k], then some
    text. *)
Lemma contains_spec (k s : string) :
  Text.contains k s = true <-> exists a b, s = (a ++ k ++ b)%string.
Proof.
  induction s as [| c s IH]; cbn [Text.contains].
  - rewrite orb_false_r, prefix_app. split.
    + intros [b Hb]. exists EmptyString, b. exact Hb.
    + intros [a [b Hab]]. destruct a; [exists b; exact Hab |]. discriminate.
  - rewrite orb_true_iff, prefix_app, IH. split.
    + intros [[b Hb] | [a [b Hab]]].
      * exists EmptyString, b. exact Hb.
      * exists (String c a), b. cbn. congruence.
    + intros [a [b Hab]]. destruct a as [| c' a].
      * left. exists b. exact Hab.
      * right. exists a, b. cbn in Hab. congruence.
Qed.

(** Whitespace-only text strips to the empty string. *)
Lemma strip_all_space (s : string) :
  all_space s = true -> Text.strip s = EmptyString.
Proof.
  unfold Text.strip. induction s as [| c s IH]; cbn; [reflexivity |].
  intros H. apply andb_true_iff in H as [Hc Hs]. rewrite Hc. auto.
Qed.

Lemma any_in_mentions (keywords : list string) (s : string) :
  Text.any_in keywords s = true <-> mentions keywords s.
Proof.
  unfold Text.any_in, mentions. rewrite existsb_exists. split.
  - intros [k [Hin Hc]]. apply contains_spec in Hc as [a [b Hab]].
    exists k, a, b. auto.
  - intros [k [a [b [Hin Hab]]]]. exists k. split; [exact Hin |].
    apply contains_spec. exists a, b. exact Hab.
Qed.

Lemma any_in_not_mentions (keywords : list string) (s : string) :
  Text.any_in keywords s = false <-> ~ mentions keywords s.
Proof.
  rewrite <- any_in_mentions. destruct (Text.any_in keywords s); split;
    congruence.
Qed.

(* ================================================================== *)
(** * The scoring engine: claims *)
(* ================================================================== *)

(** [judge_day] after line 88: what it returns when that line has the
    value [base_xp].  Nothing else in the function can raise. *)
Lemma judge_day_at
    (current_xp current_streak current_debt current_difficulty : Z)
    (completed missed : Z) (impacts_sum : pynum) (base_xp : Z) :
  Engine.base_xp_of completed impacts_sum current_difficulty = Ok base_xp ->
  Engine.judge_day current_xp current_streak current_debt current_difficulty
    completed missed impacts_sum
  = let new_streak :=
      if (missed =? 0) && (completed >? 0) then current_streak + 1 else 0 in
    let xp_delta :=
      base_xp + (if new_streak >=? 3 then 5 else 0) - 15 * missed in
    let new_xp := Z.max 0 (current_xp + xp_delta) in
    Ok (Engine.mkJudgement xp_delta (15 * missed) new_xp
          (Engine.level_from_xp new_xp) new_streak (current_debt + missed)
          (Engine.clamp
             (if missed >=? 2 then current_difficulty + 1
              else if new_streak >=? 5 then current_difficulty + 1
              else if (missed =? 0) && (completed >=? 4)
                   then current_difficulty + 1
              else current_difficulty) 1 5)
          (if (completed =? 0) && (missed >? 0) then Engine.verdict_nothing
           else if (missed =? 0) && (completed >=? 4) then Engine.verdict_hard
           else if (missed =? 0) && (completed >? 0) then Engine.verdict_work
           else if missed >=? 2 then Engine.verdict_avoided
           else Engine.verdict_bailed)).
Proof.
  intros line88. unfold Engine.judge_day. rewrite line88. reflexivity.
Qed.

(** The statements below are about every judgement that [judge_day]
    returns, whatever the input.  It returns one on every [int]
    [impacts_sum] and on every finite [float] below [2^1000] with integer
    terms below [2^1000] ([judge_day_total]); when it does not, line 88
    has raised ([judge_day_raises]), as on an infinite [impacts_sum] and
    on the double 1e308, whose product with 10 overflows. *)

Lemma Ok_inj {A : Type} (a b : A) : Ok a = Ok b -> a = b.
Proof. congruence. Qed.




(** A judgement that [judge_day] returns, from the value of line 88. *)
Lemma judge_day_returned
    (current_xp current_streak current_debt current_difficulty : Z)
    (completed missed : Z) (impacts_sum : pynum) (j : Engine.Judgement) :
  Engine.judge_day current_xp current_streak current_debt current_difficulty
    completed missed impacts_sum = Ok j ->
  exists base_xp,
    Engine.base_xp_of completed impacts_sum current_difficulty = Ok base_xp /\
    j = let new_streak :=
          if (missed =? 0) && (completed >? 0) then current_streak + 1 else 0 in
        let xp_delta :=
          base_xp + (if new_streak >=? 3 then 5 else 0) - 15 * missed in
        let new_xp := Z.max 0 (current_xp + xp_delta) in
        Engine.mkJudgement xp_delta (15 * missed) new_xp
          (Engine.level_from_xp new_xp) new_streak (current_debt + missed)
          (Engine.clamp
             (if missed >=? 2 then current_difficulty + 1
              else if new_streak >=? 5 then current_difficulty + 1
              else if (missed =? 0) && (completed >=? 4)
                   then current_difficulty + 1
              else current_difficulty) 1 5)
          (if (completed =? 0) && (missed >? 0) then Engine.verdict_nothing
           else if (missed =? 0) && (completed >=? 4) then Engine.verdict_hard
           else if (missed =? 0) && (completed >? 0) then Engine.verdict_work
           else if missed >=? 2 then Engine.verdict_avoided
           else Engine.verdict_bailed).
Proof.
  intros H.
  destruct (Engine.base_xp_of completed impacts_sum current_difficulty)
    as [base_xp | e] eqn:line88.
  - exists base_xp. split; [reflexivity |].
    rewrite (judge_day_at _ _ _ _ _ _ _ _ line88) in H.
    apply Ok_inj in H. symmetry. exact H.
  - rewrite (judge_day_raises _ _ _ _ _ _ _ _ line88) in H. discriminate.
Qed.


(** C3. In every judgement that [judge_day] returns the verdict is the
    outcome of the ordered chain of the specification, first match
    winning, with the "bailed" sentence as the default; on completed = 0
    and missed = 0 it is that default, not the "executed nothing"
    sentence. *)
Theorem judge_day_verdict
    (current_xp current_streak current_debt current_difficulty : Z)
    (completed missed : Z) (impacts_sum : pynum) (j : Engine.Judgement) :
  Engine.judge_day current_xp current_streak current_debt current_difficulty
    completed missed impacts_sum = Ok j ->
  Engine.verdict j
    = first_match verdict_rules Engine.verdict_bailed (completed, missed) /\
  (completed = 0 -> missed = 0 ->
   Engine.verdict j = Engine.verdict_bailed /\
   Engine.verdict j <> Engine.verdict_nothing).
Proof.
  intros H. apply judge_day_returned in H as (base_xp & _ & ->).
  cbn [Engine.verdict]. split; [reflexivity |].
  intros -> ->. split; [reflexivity | discriminate].
Qed.

(** C4. In every judgement that [judge_day] returns new_difficulty is
    max(1, min(5, current_difficulty + increment)), the increment being
    the outcome of the ordered chain (0 or 1: at most one branch adds 1),
    and new_level is max(1, min(10, 1 + floor(new_xp / 250))); so
    new_difficulty lies in [1,5] and new_level in [1,10]. *)
Theorem judge_day_difficulty_level
    (current_xp current_streak current_debt current_difficulty : Z)
    (completed missed : Z) (impacts_sum : pynum) (j : Engine.Judgement) :
  Engine.judge_day current_xp current_streak current_debt current_difficulty
    completed missed impacts_sum = Ok j ->
  Engine.new_difficulty j
    = Z.max 1
        (Z.min 5
           (current_difficulty
            + first_match difficulty_rules 0
                (completed, missed, Engine.new_streak j))) /\
  0 <= first_match difficulty_rules 0 (completed, missed, Engine.new_streak j)
    <= 1 /\
  Engine.new_level j = Z.max 1 (Z.min 10 (1 + Engine.new_xp j / 250)) /\
  1 <= Engine.new_difficulty j <= 5 /\
  1 <= Engine.new_level j <= 10.
Proof.
  intros H. apply judge_day_returned in H as (base_xp & _ & ->).
  cbn [Engine.new_difficulty Engine.new_level Engine.new_streak Engine.new_xp].
  unfold Engine.level_from_xp, Engine.clamp.
  cbn [first_match difficulty_rules].
  split; [| split; [| split; [reflexivity | split; lia]]].
  - destruct (missed >=? 2); [reflexivity |].
    destruct (_ >=? 5); [reflexivity |].
    destruct ((missed =? 0) && (completed >=? 4)); [reflexivity |].
    rewrite Z.add_0_r. reflexivity.
  - destruct (missed >=? 2); [lia |].
    destruct (_ >=? 5); [lia |].
    destruct ((missed =? 0) && (completed >=? 4)); lia.
Qed.

(** C5. In every judgement that [judge_day] returns new_streak is
    current_streak + 1 when missed = 0 and completed > 0, and 0 in every
    other case. *)
Theorem judge_day_streak
    (current_xp current_streak current_debt current_difficulty : Z)
    (completed missed : Z) (impacts_sum : pynum) (j : Engine.Judgement) :
  Engine.judge_day current_xp current_streak current_debt current_difficulty
    completed missed impacts_sum = Ok j ->
  (missed = 0 /\ completed > 0 -> Engine.new_streak j = current_streak + 1) /\
  (~ (missed = 0 /\ completed > 0) -> Engine.new_streak j = 0).
Proof.
  intros H. apply judge_day_returned in H as (base_xp & _ & ->).
  cbn [Engine.new_streak].
  destruct (Z.eqb_spec missed 0) as [Hm | Hm];
    destruct (Z.gtb_spec completed 0) as [Hc | Hc]; cbn [andb];
    split; intros; lia.
Qed.

(** C6. In every judgement that [judge_day] returns new_debt =
    current_debt + missed, hence new_debt >= current_debt when
    missed >= 0.  That no operation of either front end lowers a stored
    debt is [serve_debt_kept], [commit_goal_debt_kept],
    [generate_button_debt_kept] and [checkin_button_debt_kept]. *)
Theorem judge_day_debt
    (current_xp current_streak current_debt current_difficulty : Z)
    (completed missed : Z) (impacts_sum : pynum) (j : Engine.Judgement) :
  Engine.judge_day current_xp current_streak current_debt current_difficulty
    completed missed impacts_sum = Ok j ->
  Engine.new_debt j = current_debt + missed /\
  (0 <= missed -> current_debt <= Engine.new_debt j).
Proof.
  intros H. apply judge_day_returned in H as (base_xp & _ & ->).
  cbn [Engine.new_debt]. split; [reflexivity | lia].
Qed.

(** C10. With current_difficulty in [1,5], in every judgement that
    [judge_day] returns new_difficulty is current_difficulty or
    current_difficulty + 1. *)
Theorem judge_day_difficulty_step
    (current_xp current_streak current_debt current_difficulty : Z)
    (completed missed : Z) (impacts_sum : pynum) (j : Engine.Judgement) :
  Engine.judge_day current_xp current_streak current_debt current_difficulty
    completed missed impacts_sum = Ok j ->
  1 <= current_difficulty <= 5 ->
  current_difficulty <= Engine.new_difficulty j <= current_difficulty + 1.
Proof.
  intros H Hd. apply judge_day_returned in H as (base_xp & _ & ->).
  cbn [Engine.new_difficulty]. unfold Engine.clamp.
  destruct (missed >=? 2); [lia |].
  destruct (_ >=? 5); [lia |].
  destruct ((missed =? 0) && (completed >=? 4)); lia.
Qed.

(* ================================================================== *)
(** * The heuristic generator: claims *)
(* ================================================================== *)

Lemma offline_actions_cases (goal_text : string) (difficulty : Z) :
  Ai._offline_actions goal_text difficulty =
    let lower := Text.lower (Text.strip goal_text) in
    if Text.any_in Ai.revenue_keywords lower then Ai.revenue_actions difficulty
    else if Text.any_in Ai.build_keywords lower then Ai.build_actions difficulty
    else Ai.generic_actions difficulty.
Proof.
  unfold Ai._offline_actions. cbv zeta.
  destruct (Text.any_in Ai.revenue_keywords _); [reflexivity |].
  destruct (Text.any_in Ai.build_keywords _); reflexivity.
Qed.

(** What the generator does guarantee about difficulties: no proposal is
    above both 3 and the input difficulty. *)
Lemma offline_actions_difficulty_bound (goal_text : string) (d : Z) (a : Action) :
  In a (Ai._offline_actions goal_text d) -> difficulty a <= Z.max 3 d.
Proof.
  rewrite offline_actions_cases. cbv zeta.
  destruct (Text.any_in Ai.revenue_keywords _);
    [| destruct (Text.any_in Ai.build_keywords _)];
    cbn; intros H;
    repeat (destruct H as [<- | H]; [cbn; lia |]); contradiction.
Qed.

Lemma offline_actions_difficulty_le_3 (goal_text : string) (d : Z) (a : Action) :
  d <= 3 -> In a (Ai._offline_actions goal_text d) -> difficulty a <= 3.
Proof.
  intros Hd Hin. apply offline_actions_difficulty_bound in Hin. lia.
Qed.

(** C2 fails on the code.  For the goal "Get 10 paying customers" and the
    input difficulty 4, which lies in [1,5], the second proposal of the
    revenue template (an entry that keeps the input difficulty) has
    difficulty 4, above the cap of 3 that the escalated entries of the
    same template respect. *)
Theorem offline_actions_difficulty_uncapped :
  map difficulty (Ai._offline_actions "Get 10 paying customers" 4)
  = [3; 4; 3; 3] /\
  exists a,
    In a (Ai._offline_actions "Get 10 paying customers" 4) /\
    3 < difficulty a.
Proof.
  split; [reflexivity |].
  eexists. split; [right; left; reflexivity |]. cbn. lia.
Qed.

(** C8. The lowercased, stripped goal is tested against the revenue
    keywords first: a goal that matches them yields the revenue template
    whether or not it matches the build keywords; one that matches only
    the build keywords yields the build template; one that matches neither
    yields the generic template, as does every goal made of whitespace
    only, the empty goal included. *)
Theorem offline_actions_category (goal_text : string) (difficulty : Z) :
  (mentions Ai.revenue_keywords (Text.lower (Text.strip goal_text)) ->
   Ai._offline_actions goal_text difficulty = Ai.revenue_actions difficulty) /\
  (~ mentions Ai.revenue_keywords (Text.lower (Text.strip goal_text)) ->
   mentions Ai.build_keywords (Text.lower (Text.strip goal_text)) ->
   Ai._offline_actions goal_text difficulty = Ai.build_actions difficulty) /\
  (~ mentions Ai.revenue_keywords (Text.lower (Text.strip goal_text)) ->
   ~ mentions Ai.build_keywords (Text.lower (Text.strip goal_text)) ->
   Ai._offline_actions goal_text difficulty = Ai.generic_actions difficulty) /\
  (all_space goal_text = true ->
   Ai._offline_actions goal_text difficulty = Ai.generic_actions difficulty).
Proof.
  rewrite offline_actions_cases. cbv zeta.
  repeat split.
  - intros H. apply any_in_mentions in H. rewrite H. reflexivity.
  - intros Hr Hb. apply any_in_not_mentions in Hr. apply any_in_mentions in Hb.
    rewrite Hr, Hb. reflexivity.
  - intros Hr Hb. apply any_in_not_mentions in Hr, Hb.
    rewrite Hr, Hb. reflexivity.
  - intros Hs. rewrite (strip_all_space _ Hs). reflexivity.
Qed.

(* ================================================================== *)
(** * The generation adapter: claims *)
(* ================================================================== *)

Lemma In_firstn {A : Type} (n : nat) (l : list A) (a : A) :
  In a (firstn n l) -> In a l.
Proof.
  revert l. induction n as [| n IH]; intros [| x l]; cbn; try contradiction.
  intros [-> | H]; [left; reflexivity | right; auto].
Qed.

Section AdapterFacts.

Variable json_loads : string -> result Ai.json.
Variable repr : Ai.json -> string.
Variable float_of_str : string -> result PyFloat.float.
Variable int_of_str : string -> result Z.
Variable env : Ai.Env.
Variables (goal_text : string) (difficulty : Z) (history : string).

Local Abbreviation offline := (Ai._offline_actions goal_text difficulty).
Local Abbreviation generate :=
  (Ai.generate_actions json_loads repr float_of_str int_of_str env
     goal_text difficulty history).
Local Abbreviation attempt api_key :=
  (Ai.external_attempt json_loads repr float_of_str int_of_str env
     api_key goal_text difficulty history).

(** The body of the [try], stage by stage. *)
Lemma external_attempt_stages (api_key : string) :
  attempt api_key =
    (r <- Ai.requests_post env api_key
            (Ai.prompt_of goal_text difficulty history) ;;
     _ <- Ai.raise_for_status r ;;
     data <- Ai.json_body r ;;
     txt <- output_text data ;;
     match Ai.re_search_brackets txt with
     | None => Ok offline
     | Some m =>
         cleaned <- usable_items json_loads repr float_of_str int_of_str m ;;
         if (List.length cleaned <? 3)%nat then Ok offline else Ok cleaned
     end).
Proof.
  unfold Ai.external_attempt, output_text, usable_items.
  cbv zeta.
  destruct (Ai.requests_post env api_key _) as [r | e]; cbn [bind]; [| reflexivity].
  destruct (Ai.raise_for_status r) as [[] | e]; cbn [bind]; [| reflexivity].
  destruct (Ai.json_body r) as [data | e]; cbn [bind]; [| reflexivity].
  destruct (Ai.py_get data "output" _) as [output | e]; cbn [bind]; [| reflexivity].
  destruct (Ai.py_iter output) as [items | e]; cbn [bind]; [| reflexivity].
  destruct (Ai.foldM Ai.item_text EmptyString items) as [txt | e]; cbn [bind]; [| reflexivity].
  destruct (Ai.re_search_brackets txt) as [m |]; [| reflexivity].
  destruct (json_loads m) as [arr | e]; cbn [bind]; [| reflexivity].
  destruct (Ai.py_iter arr) as [elems | e]; cbn [bind]; [| reflexivity].
  destruct (mapM _ elems) as [cleaned | e]; cbn [bind]; reflexivity.
Qed.

(** A listed failure makes the body of the [try] raise or return the
    heuristic actions itself. *)
Lemma external_failure_attempt (api_key : string) :
  external_failure json_loads repr float_of_str int_of_str env
    api_key goal_text difficulty history ->
  attempt api_key = Ok offline \/ exists e, attempt api_key = Raise e.
Proof.
  intros F. rewrite external_attempt_stages.
  destruct F as [e Hp | r Hp Hs | r e Hp Hj | r data e Hp Hj Ht
                | r data txt Hp Hj Ht Hm | r data txt m e Hp Hj Ht Hm Hu
                | r data txt m cleaned Hp Hj Ht Hm Hu Hlen];
    rewrite Hp; cbn [bind].
  - right. eexists. reflexivity.
  - right. unfold Ai.raise_for_status.
    replace (400 <=? Ai.status_code r) with true by (symmetry; apply Z.leb_le; lia).
    replace (Ai.status_code r <? 600) with true by (symmetry; apply Z.ltb_lt; lia).
    eexists. reflexivity.
  - destruct (Ai.raise_for_status r) as [[] | e']; cbn [bind].
    + rewrite Hj. right. eexists. reflexivity.
    + right. eexists. reflexivity.
  - destruct (Ai.raise_for_status r) as [[] | e']; cbn [bind].
    + rewrite Hj. cbn [bind]. rewrite Ht. right. eexists. reflexivity.
    + right. eexists. reflexivity.
  - destruct (Ai.raise_for_status r) as [[] | e']; cbn [bind].
    + rewrite Hj. cbn [bind]. rewrite Ht. cbn [bind]. rewrite Hm. left. reflexivity.
    + right. eexists. reflexivity.
  - destruct (Ai.raise_for_status r) as [[] | e']; cbn [bind].
    + rewrite Hj. cbn [bind]. rewrite Ht. cbn [bind]. rewrite Hm, Hu.
      right. eexists. reflexivity.
    + right. eexists. reflexivity.
  - destruct (Ai.raise_for_status r) as [[] | e']; cbn [bind].
    + rewrite Hj. cbn [bind]. rewrite Ht. cbn [bind]. rewrite Hm, Hu. cbn [bind].
      replace (List.length cleaned <? 3)%nat with true
        by (symmetry; apply Nat.ltb_lt; exact Hlen).
      left. reflexivity.
    + right. eexists. reflexivity.
Qed.

(** C9. [generate_actions] always returns a list and never raises; with
    no API key configured it returns exactly the heuristic generator's
    actions for the same goal and difficulty; with a key and any of the
    listed failures of the external path (network error, non-success
    status, unparsable response, fewer than three items after
    validation) it returns those same heuristic actions, as it does
    whatever exception the body of the [try] raises. *)
Theorem generate_actions_falls_back :
  (exists actions,
      Ai.generate_actions json_loads repr float_of_str int_of_str env
        goal_text difficulty history = Ok actions) /\
  (Text.is_empty (Text.strip (Ai.getenv_OPENAI_API_KEY env)) = true ->
   Ai.generate_actions json_loads repr float_of_str int_of_str env
     goal_text difficulty history
   = Ok (Ai._offline_actions goal_text difficulty)) /\
  (external_failure json_loads repr float_of_str int_of_str env
     (Text.strip (Ai.getenv_OPENAI_API_KEY env)) goal_text difficulty history ->
   Ai.generate_actions json_loads repr float_of_str int_of_str env
     goal_text difficulty history
   = Ok (Ai._offline_actions goal_text difficulty)) /\
  (forall e,
      Ai.external_attempt json_loads repr float_of_str int_of_str env
        (Text.strip (Ai.getenv_OPENAI_API_KEY env)) goal_text difficulty history
      = Raise e ->
      Ai.generate_actions json_loads repr float_of_str int_of_str env
        goal_text difficulty history
      = Ok (Ai._offline_actions goal_text difficulty)).
Proof.
  unfold Ai.generate_actions. cbv zeta.
  split; [| split; [| split]].
  - destruct (Text.is_empty _); [eexists; reflexivity |].
    destruct (attempt _) as [acts | e]; cbn [try_except]; eexists; reflexivity.
  - intros ->. reflexivity.
  - intros F. apply external_failure_attempt in F.
    destruct (Text.is_empty _); [reflexivity |].
    destruct F as [-> | [e ->]]; reflexivity.
  - intros e ->. destruct (Text.is_empty _); reflexivity.
Qed.

(** When the external path succeeds the result is its list: three to
    five validated items, each flagged non-negotiable. *)
Lemma generate_actions_external (actions : list Action) :
  generate = Ok actions ->
  actions = offline \/
  ((3 <= List.length actions <= 5)%nat /\
   Forall (fun a => non_negotiable a = true) actions).
Proof.
  unfold Ai.generate_actions. cbv zeta.
  destruct (Text.is_empty _); [intros [= <-]; left; reflexivity |].
  rewrite external_attempt_stages.
  destruct (Ai.requests_post env _ _) as [r | e]; cbn [bind try_except];
    [| intros [= <-]; left; reflexivity].
  destruct (Ai.raise_for_status r) as [[] | e]; cbn [bind try_except];
    [| intros [= <-]; left; reflexivity].
  destruct (Ai.json_body r) as [data | e]; cbn [bind try_except];
    [| intros [= <-]; left; reflexivity].
  destruct (output_text data) as [txt | e]; cbn [bind try_except];
    [| intros [= <-]; left; reflexivity].
  destruct (Ai.re_search_brackets txt) as [m |];
    [| intros [= <-]; left; reflexivity].
  unfold usable_items.
  destruct (json_loads m) as [arr | e]; cbn [bind try_except];
    [| intros [= <-]; left; reflexivity].
  destruct (Ai.py_iter arr) as [elems | e]; cbn [bind try_except];
    [| intros [= <-]; left; reflexivity].
  destruct (mapM _ elems) as [cleaned | e] eqn:Hclean; cbn [bind try_except];
    [| intros [= <-]; left; reflexivity].
  assert (Hle : (List.length (firstn 5 cleaned) <= 5)%nat)
    by apply firstn_le_length.
  assert (Hsub : forall a, In a (firstn 5 cleaned) -> In a cleaned)
    by (intros a; apply In_firstn).
  set (kept := firstn 5 cleaned) in *.
  destruct (Nat.ltb_spec (List.length kept) 3) as [Hlt | Hge];
    cbn [try_except]; intros [= <-]; [left; reflexivity | right].
  split; [split; assumption |].
  apply Forall_forall. intros a Ha. apply Hsub in Ha.
  clear Hge Hle Hsub kept. revert cleaned Hclean Ha.
  induction elems as [| x elems IH]; intros cleaned Hclean Ha.
  - cbn in Hclean. injection Hclean as <-. contradiction.
  - cbn [mapM] in Hclean.
    destruct (Ai.clean repr float_of_str int_of_str x) as [b | e] eqn:Hx;
      cbn [bind] in Hclean; [| discriminate].
    destruct (mapM _ elems) as [bs | e]; cbn [bind] in Hclean; [| discriminate].
    injection Hclean as <-. destruct Ha as [<- | Ha]; [| eauto].
    unfold Ai.clean in Hx.
    destruct (Ai.py_get x "text" _); cbn [bind] in Hx; [| discriminate].
    destruct (Ai.py_get x "impact_weight" _); cbn [bind] in Hx; [| discriminate].
    destruct (Ai.py_float _ _); cbn [bind] in Hx; [| discriminate].
    destruct (Ai.py_get x "difficulty" _); cbn [bind] in Hx; [| discriminate].
    destruct (Ai.py_int _ _); cbn [bind] in Hx; [| discriminate].
    injection Hx as <-. reflexivity.
Qed.

End AdapterFacts.

(* ================================================================== *)
(** * The store: users, owners and debts *)
(* ================================================================== *)

Lemma nonempty_true {A : Type} (l : list A) :
  Store.nonempty l = true <-> l <> [].
Proof. destruct l; cbn; split; congruence. Qed.

Lemma find_app_found {A : Type} (p : A -> bool) (l l' : list A) (x : A) :
  find p l = Some x -> find p (l ++ l') = Some x.
Proof.
  induction l as [| y l IH]; cbn; [discriminate |].
  destruct (p y); [auto | exact IH].
Qed.

Lemma find_update_where_user (cond : Store.UserRow -> bool)
    (set : Store.UserRow -> Store.UserRow) (rows : list Store.UserRow)
    (uid : string) :
  (forall u, Store.u_id (set u) = Store.u_id u) ->
  find (fun u => String.eqb (Store.u_id u) uid) (Store.update_where cond set rows)
  = option_map (fun u => if cond u then set u else u)
      (find (fun u => String.eqb (Store.u_id u) uid) rows).
Proof.
  intros Hid. unfold Store.update_where.
  induction rows as [| r rows IH]; cbn; [reflexivity |].
  assert (Hr : Store.u_id (if cond r then set r else r) = Store.u_id r)
    by (destruct (cond r); auto).
  rewrite Hr. destruct (String.eqb (Store.u_id r) uid); [reflexivity | exact IH].
Qed.

Lemma debt_kept_same_users (w w' : Store.World) :
  Store.users (Store.db w') = Store.users (Store.db w) -> debt_kept w w'.
Proof.
  intros H uid u Hu. exists u. unfold Store.get_user in *. rewrite H.
  split; [exact Hu | lia].
Qed.

Lemma debt_kept_refl (w : Store.World) : debt_kept w w.
Proof. apply debt_kept_same_users. reflexivity. Qed.

Lemma debt_kept_trans (w1 w2 w3 : Store.World) :
  debt_kept w1 w2 -> debt_kept w2 w3 -> debt_kept w1 w3.
Proof.
  intros H12 H23 uid u Hu.
  destruct (H12 uid u Hu) as [u2 [Hu2 Hle2]].
  destruct (H23 uid u2 Hu2) as [u3 [Hu3 Hle3]].
  exists u3. split; [exact Hu3 | lia].
Qed.

Lemma count_completed_nonneg (v : Z) (rows : list Store.ActionRow) :
  0 <= Store.count_completed v rows.
Proof. unfold Store.count_completed. lia. Qed.

Lemma judge_day_new_debt (xp streak debt d c m : Z) (x : pynum)
    (j : Engine.Judgement) :
  Engine.judge_day xp streak debt d c m x = Ok j ->
  Engine.new_debt j = debt + m.
Proof.
  unfold Engine.judge_day.
  destruct (Engine.base_xp_of c x d); cbn [bind]; [| discriminate].
  intros [= <-]. reflexivity.
Qed.

Lemma legacy_judge_day_new_debt (xp streak debt d c m : Z) (x : pynum)
    (j : Engine.Judgement) :
  LegacyRules.judge_day xp streak debt d c m x = Ok j ->
  Engine.new_debt j = debt + m.
Proof.
  unfold LegacyRules.judge_day.
  destruct (Engine.base_xp_of c x d); cbn [bind]; [| discriminate].
  intros [= <-]. reflexivity.
Qed.

(** A write of the store that sqlite3 accepts stores the values it was
    given. *)
Lemma bind_int_ok (z z' : Z) :
  Store.bind_int z = Ok z' -> z' = z /\ - 2 ^ 63 <= z < 2 ^ 63.
Proof.
  unfold Store.bind_int.
  destruct (Z.leb_spec (- 2 ^ 63) z) as [Hlo | Hlo];
    destruct (Z.ltb_spec z (2 ^ 63)) as [Hhi | Hhi];
    cbn [andb]; try discriminate.
  intros Hz. apply Ok_inj in Hz. split; [congruence | lia].
Qed.

Lemma bind_real_ok (f f' : PyFloat.float) :
  Store.bind_real f = Ok f' -> f' = f.
Proof.
  destruct f; cbn [Store.bind_real]; try discriminate;
    intros H; apply Ok_inj in H; congruence.
Qed.

Lemma insert_action_ok (d d' : Store.Db) (id user_id day text : string)
    (w : PyFloat.float) (n : Z) :
  Store.insert_action d id user_id day text w n = Ok d' ->
  d' = Store.mkDb (Store.users d)
         (Store.actions d
          ++ [Store.mkActionRow id user_id day text w n 1 None None])
         (Store.daily_results d).
Proof.
  unfold Store.insert_action.
  destruct (Store.bind_int n) as [n' |] eqn:Hn; cbn [bind]; [| discriminate].
  destruct (Store.bind_real w) as [w' |] eqn:Hw; cbn [bind]; [| discriminate].
  apply bind_int_ok in Hn as [-> _]. apply bind_real_ok in Hw as ->.
  intros H. apply Ok_inj in H. symmetry. exact H.
Qed.

Lemma update_result_ok (d d' : Store.Db) (id : string) (j : Engine.Judgement)
    (created_at : string) :
  Store.update_result d id j created_at = Ok d' ->
  d' = Store.mkDb (Store.users d) (Store.actions d)
         (Store.update_where (fun r => String.eqb (Store.r_id r) id)
            (fun r => Store.mkResultRow (Store.r_id r) (Store.r_user_id r)
                        (Store.r_date r) (Engine.xp_delta j) (Engine.penalty j)
                        (Engine.verdict j) created_at)
            (Store.daily_results d)).
Proof.
  unfold Store.update_result.
  destruct (Store.bind_int (Engine.xp_delta j)) as [x |] eqn:Hx; cbn [bind];
    [| discriminate].
  destruct (Store.bind_int (Engine.penalty j)) as [y |] eqn:Hy; cbn [bind];
    [| discriminate].
  apply bind_int_ok in Hx as [-> _]. apply bind_int_ok in Hy as [-> _].
  intros H. apply Ok_inj in H. symmetry. exact H.
Qed.

Lemma insert_result_ok (d d' : Store.Db) (id user_id day : string)
    (j : Engine.Judgement) (created_at : string) :
  Store.insert_result d id user_id day j created_at = Ok d' ->
  d' = Store.mkDb (Store.users d) (Store.actions d)
         (Store.daily_results d
          ++ [Store.mkResultRow id user_id day (Engine.xp_delta j)
                (Engine.penalty j) (Engine.verdict j) created_at]).
Proof.
  unfold Store.insert_result.
  destruct (Store.bind_int (Engine.xp_delta j)) as [x |] eqn:Hx; cbn [bind];
    [| discriminate].
  destruct (Store.bind_int (Engine.penalty j)) as [y |] eqn:Hy; cbn [bind];
    [| discriminate].
  apply bind_int_ok in Hx as [-> _]. apply bind_int_ok in Hy as [-> _].
  intros H. apply Ok_inj in H. symmetry. exact H.
Qed.

Lemma update_stats_ok (d d' : Store.Db) (user_id : string)
    (j : Engine.Judgement) :
  Store.update_stats d user_id j = Ok d' ->
  d' = Store.mkDb
         (Store.update_where (fun u => String.eqb (Store.u_id u) user_id)
            (fun u => Store.mkUserRow (Store.u_id u) (Store.u_created_at u)
                        (Store.u_goal_text u) (Engine.new_level j)
                        (Engine.new_xp j) (Engine.new_streak j)
                        (Engine.new_debt j) (Engine.new_difficulty j))
            (Store.users d))
         (Store.actions d) (Store.daily_results d).
Proof.
  unfold Store.update_stats.
  destruct (Store.bind_int (Engine.new_xp j)) as [a |] eqn:Ha; cbn [bind];
    [| discriminate].
  destruct (Store.bind_int (Engine.new_level j)) as [b |] eqn:Hb; cbn [bind];
    [| discriminate].
  destruct (Store.bind_int (Engine.new_streak j)) as [c |] eqn:Hc; cbn [bind];
    [| discriminate].
  destruct (Store.bind_int (Engine.new_debt j)) as [e |] eqn:He; cbn [bind];
    [| discriminate].
  destruct (Store.bind_int (Engine.new_difficulty j)) as [f |] eqn:Hf;
    cbn [bind]; [| discriminate].
  apply bind_int_ok in Ha as [-> _]. apply bind_int_ok in Hb as [-> _].
  apply bind_int_ok in Hc as [-> _]. apply bind_int_ok in He as [-> _].
  apply bind_int_ok in Hf as [-> _].
  intros H. apply Ok_inj in H. symmetry. exact H.
Qed.

(** The upsert of the day's result, shared by [/checkin] and
    [upsert_daily_result]: only the results change, by one row rewritten
    or one row added. *)
Lemma upsert_daily_result_ok (uuid4 now_iso : nat -> string)
    (w w2 : Store.World) (user_id day : string) (j : Engine.Judgement) :
  Store.upsert_daily_result uuid4 now_iso w user_id day j = Ok w2 ->
  Store.users (Store.db w2) = Store.users (Store.db w) /\
  Store.actions (Store.db w2) = Store.actions (Store.db w) /\
  Store.daily_results (Store.db w2)
  = match Store.get_result (Store.db w) user_id day with
    | Some existing =>
        Store.update_where
          (fun r => String.eqb (Store.r_id r) (Store.r_id existing))
          (fun r => Store.mkResultRow (Store.r_id r) (Store.r_user_id r)
                      (Store.r_date r) (Engine.xp_delta j) (Engine.penalty j)
                      (Engine.verdict j)
                      (now_iso (Store.now_calls w)))
          (Store.daily_results (Store.db w))
    | None =>
        (Store.daily_results (Store.db w)
         ++ [Store.mkResultRow (uuid4 (Store.uuid_calls w)) user_id day
               (Engine.xp_delta j) (Engine.penalty j) (Engine.verdict j)
               (now_iso (Store.now_calls w))])%list
    end.
Proof.
  unfold Store.upsert_daily_result.
  destruct (Store.get_result (Store.db w) user_id day) as [existing |].
  - destruct (Store.update_result _ _ _ _) as [d' |] eqn:Hd; cbn [bind];
      [| discriminate].
    apply update_result_ok in Hd. subst d'.
    intros H. apply Ok_inj in H. subst w2. repeat split.
  - destruct (Store.insert_result _ _ _ _ _ _) as [d' |] eqn:Hd; cbn [bind];
      [| discriminate].
    apply insert_result_ok in Hd. subst d'.
    intros H. apply Ok_inj in H. subst w2. repeat split.
Qed.

(** Writing the stats of a judgement whose debt is not below the user's
    keeps every debt. *)
Lemma update_stats_debt_kept (w w' : Store.World) (uid : string)
    (u : Store.UserRow) (j : Engine.Judgement) (d1 d' : Store.Db) :
  Store.get_user (Store.db w) uid = Some u ->
  Store.u_debt u <= Engine.new_debt j ->
  Store.users d1 = Store.users (Store.db w) ->
  Store.update_stats d1 uid j = Ok d' ->
  Store.users (Store.db w') = Store.users d' ->
  debt_kept w w'.
Proof.
  intros Hu Hle Hd1 Hstats Hw' uid' u' Hu'. unfold Store.get_user in *.
  apply update_stats_ok in Hstats. subst d'.
  rewrite Hw'. cbn [Store.users]. rewrite Hd1.
  rewrite find_update_where_user by reflexivity. rewrite Hu'. cbn [option_map].
  eexists. split; [reflexivity |].
  destruct (String.eqb_spec (Store.u_id u') uid) as [Heq | Hne]; [| lia].
  cbn [Store.u_debt].
  (* the row found under [uid'] carries the id [uid], so it is [u] *)
  pose proof (find_some _ _ Hu') as [_ Hid']. apply String.eqb_eq in Hid'.
  rewrite <- Hid', Heq in Hu'.
  assert (u' = u) by congruence. subst u'. exact Hle.
Qed.

Section StoreFacts.

Import Store.

Variable uuid4 : nat -> string.
Variable now_iso : nat -> string.
Variable generate_actions : string -> Z -> string -> result (list Action).
Variable sum_weights : list PyFloat.float -> pynum.

Lemma insert_generated_users (w w' : World) (user_id d : string)
    (actions : list Action) :
  LegacyMain.insert_generated uuid4 w user_id d actions = Ok w' ->
  users (db w') = users (db w).
Proof.
  revert w. induction actions as [| a rest IH]; intros w;
    cbn [LegacyMain.insert_generated].
  - intros H. apply Ok_inj in H. subst w'. reflexivity.
  - destruct (insert_action _ _ _ _ _ _ _) as [d' |] eqn:Hd; cbn [bind];
      [| discriminate].
    apply insert_action_ok in Hd. subst d'.
    intros H. rewrite (IH _ H). reflexivity.
Qed.

Lemma insert_rows_users (w w' : World) (user_id day : string)
    (actions : list Action) :
  insert_rows uuid4 w user_id day actions = Ok w' ->
  users (db w') = users (db w).
Proof.
  revert w. induction actions as [| a rest IH]; intros w; cbn [insert_rows].
  - intros H. apply Ok_inj in H. subst w'. reflexivity.
  - destruct (insert_action _ _ _ _ _ _ _) as [d' |] eqn:Hd; cbn [bind];
      [| discriminate].
    apply insert_action_ok in Hd. subst d'.
    intros H. rewrite (IH _ H). reflexivity.
Qed.

Lemma apply_update_users (ids : list string) (w w1 : World) (upd : Ai.json) :
  LegacyMain.apply_update now_iso ids w upd = Ok w1 ->
  users (db w1) = users (db w).
Proof.
  unfold LegacyMain.apply_update.
  destruct (Ai.py_get upd "id" Ai.JNull) as [aid | e]; cbn [bind]; [| discriminate].
  destruct (Ai.py_get upd "completed" Ai.JNull) as [c | e]; cbn [bind];
    [| discriminate].
  destruct aid as [| b | z | f | id | l | kvs]; try discriminate;
    try (intros [= <-]; reflexivity).
  destruct (existsb (String.eqb id) ids); intros [= <-]; reflexivity.
Qed.

Lemma apply_updates_users (ids : list string) (upds : list Ai.json)
    (w w1 : World) :
  Ai.foldM (LegacyMain.apply_update now_iso ids) w upds = Ok w1 ->
  users (db w1) = users (db w).
Proof.
  revert w. induction upds as [| upd upds IH]; intros w; cbn [Ai.foldM].
  - intros [= <-]. reflexivity.
  - destruct (LegacyMain.apply_update now_iso ids w upd) as [w' | e] eqn:Hupd;
      cbn [bind]; [| discriminate].
    intros H. rewrite (IH _ H). exact (apply_update_users _ _ _ _ Hupd).
Qed.

Lemma set_completions_users (updates : list (string * bool)) (w : World) :
  users (db (fold_left
               (fun w upd => set_action_completion now_iso w (fst upd) (snd upd))
               updates w))
  = users (db w).
Proof.
  revert w. induction updates as [| upd updates IH]; intros w; cbn [fold_left];
    [reflexivity |].
  rewrite IH. reflexivity.
Qed.

(** ** The routes of main.py *)

Lemma create_user_debt_kept (w : World) (user_id goal_text : string) :
  debt_kept w (fst (LegacyMain.create_user now_iso w user_id goal_text)).
Proof.
  unfold LegacyMain.create_user.
  destruct (get_user (db w) user_id); [apply debt_kept_refl |].
  cbn [fst]. intros uid u Hu. exists u. split; [| lia].
  unfold get_user in *. cbn [db users]. apply find_app_found. exact Hu.
Qed.

Lemma generate_today_debt_kept (w : World) (d user_id : string) :
  debt_kept w
    (fst (LegacyMain.generate_today uuid4 generate_actions w d user_id)).
Proof.
  unfold LegacyMain.generate_today.
  destruct (get_user (db w) user_id); [| apply debt_kept_refl].
  destruct (nonempty _); [apply debt_kept_refl |].
  destruct (generate_actions _ _ _); [| apply debt_kept_refl].
  destruct (LegacyMain.insert_generated _ _ _ _ _) as [w' |] eqn:Hins;
    [| apply debt_kept_refl].
  cbn [fst]. apply debt_kept_same_users.
  exact (insert_generated_users _ _ _ _ _ Hins).
Qed.

(** The body of [/checkin] when it goes through, step by step. *)
Lemma checkin_body_ok (w w' : World) (d user_id : string) (u : UserRow)
    (rows : list ActionRow) (action_updates : list Ai.json)
    (reply : LegacyMain.CheckInReply) :
  LegacyMain.checkin_body uuid4 now_iso sum_weights w d user_id u rows
    action_updates = Ok (w', reply) ->
  exists w1 j w2 db3,
    Ai.foldM (LegacyMain.apply_update now_iso (map a_id rows)) w action_updates
    = Ok w1 /\
    LegacyRules.judge_day (u_xp u) (u_streak u) (u_debt u) (u_difficulty u)
      (count_completed 1 (list_actions (db w1) user_id d))
      (count_completed 0 (list_actions (db w1) user_id d))
      (sum_weights (completed_weights (list_actions (db w1) user_id d)))
    = Ok j /\
    upsert_daily_result uuid4 now_iso w1 user_id d j = Ok w2 /\
    update_stats (db w2) user_id j = Ok db3 /\
    w' = mkWorld db3 (uuid_calls w2) (now_calls w2) /\
    reply = LegacyMain.mkCheckInReply d
              (count_completed 1 (list_actions (db w1) user_id d))
              (count_completed 0 (list_actions (db w1) user_id d))
              j (list_actions (db w1) user_id d).
Proof.
  unfold LegacyMain.checkin_body.
  destruct (Ai.foldM _ w action_updates) as [w1 | e] eqn:Hupd; cbn [bind];
    [| discriminate].
  destruct (LegacyRules.judge_day _ _ _ _ _ _ _) as [j | e] eqn:Hj;
    cbn [bind]; [| discriminate].
  change (match get_result (db w1) user_id d with
          | Some existing_res => _
          | None => _
          end)
    with (upsert_daily_result uuid4 now_iso w1 user_id d j).
  destruct (upsert_daily_result uuid4 now_iso w1 user_id d j) as [w2 |] eqn:Hw2;
    cbn [bind]; [| discriminate].
  destruct (update_stats (db w2) user_id j) as [db3 |] eqn:Hdb3;
    cbn [bind]; [| discriminate].
  intros H. apply Ok_inj in H. injection H as <- <-.
  exists w1, j, w2, db3. repeat split; assumption.
Qed.

Lemma checkin_debt_kept (w : World) (d user_id : string)
    (action_updates : list Ai.json) :
  debt_kept w
    (fst (LegacyMain.checkin uuid4 now_iso sum_weights w d user_id
            action_updates)).
Proof.
  unfold LegacyMain.checkin.
  destruct (get_user (db w) user_id) as [u |] eqn:Hu; [| apply debt_kept_refl].
  destruct (negb _); [apply debt_kept_refl |].
  destruct (LegacyMain.checkin_body _ _ _ _ _ _ _ _ _) as [[w' reply] | e]
    eqn:Hbody; [| apply debt_kept_refl].
  cbn [fst]. apply checkin_body_ok in Hbody
    as (w1 & j & w2 & db3 & Hupd & Hj & Hw2 & Hdb3 & -> & _).
  apply apply_updates_users in Hupd.
  apply legacy_judge_day_new_debt in Hj.
  apply upsert_daily_result_ok in Hw2 as (Hus2 & _).
  apply (update_stats_debt_kept w _ user_id u j (db w2) db3 Hu).
  - rewrite Hj. pose proof (count_completed_nonneg 0 (list_actions (db w1) user_id d)).
    lia.
  - congruence.
  - exact Hdb3.
  - reflexivity.
Qed.

(** No route of main.py loses a user or lowers a debt. *)
Lemma serve_debt_kept (w : World) (r : LegacyMain.request) :
  debt_kept w
    (LegacyMain.serve uuid4 now_iso generate_actions sum_weights w r).
Proof.
  destruct r; cbn [LegacyMain.serve].
  - destruct (LegacyMain.valid_create_user_req _ _);
      [apply create_user_debt_kept | apply debt_kept_refl].
  - apply generate_today_debt_kept.
  - apply checkin_debt_kept.
Qed.

(** ** The buttons of streamlit_app.py *)

Lemma commit_goal_debt_kept (w : World) (ss : App.Session)
    (user_id_input goal : string) :
  debt_kept w (fst (fst (App.commit_goal now_iso w ss user_id_input goal))).
Proof.
  unfold App.commit_goal. destruct (Text.is_empty _); [apply debt_kept_refl |].
  cbn [fst]. unfold upsert_user. cbv zeta.
  intros uid u Hu. unfold get_user in *. cbn [db users].
  rewrite find_update_where_user by reflexivity.
  assert (Hin : find (fun u0 => String.eqb (u_id u0) uid)
                  match find (fun u0 => String.eqb (u_id u0) (Text.strip user_id_input))
                          (users (db w)) with
                  | Some _ => users (db w)
                  | None =>
                      (users (db w)
                       ++ [mkUserRow (Text.strip user_id_input)
                             (now_iso (now_calls w)) (Text.strip (Text.strip goal))
                             1 0 0 0 1])%list
                  end = Some u).
  { destruct (find (fun u0 => String.eqb (u_id u0) (Text.strip user_id_input))
                (users (db w)));
      [exact Hu | apply find_app_found; exact Hu]. }
  rewrite Hin. cbn [option_map]. eexists. split; [reflexivity |].
  destruct (String.eqb _ _); cbn [u_debt]; lia.
Qed.

Lemma generate_button_debt_kept (w w' : World) (ss ss' : App.Session)
    (u : UserRow) (n : App.notice) :
  App.generate_button uuid4 generate_actions w ss u = Ok (w', ss', n) ->
  debt_kept w w'.
Proof.
  unfold App.generate_button. cbv zeta.
  destruct (nonempty _); [intros [= <- _ _]; apply debt_kept_refl |].
  destruct (generate_actions _ _ _); cbn [bind]; [| discriminate].
  destruct (insert_actions _ _ _ _ _) as [w1 |] eqn:Hins; cbn [bind];
    [| discriminate].
  intros [= <- _ _]. apply debt_kept_same_users.
  exact (insert_rows_users _ _ _ _ _ Hins).
Qed.

Lemma checkin_button_debt_kept (w : World) (ss : App.Session)
    (checked : string -> bool) :
  debt_kept w (fst (App.checkin_button uuid4 now_iso sum_weights w ss checked)).
Proof.
  unfold App.checkin_button. cbv zeta.
  set (updates := map _ (App.today_actions ss)).
  pose proof (set_completions_users updates w) as Hw1.
  set (w1 := fold_left _ updates w) in *.
  destruct (get_user (db w1) (App.user_id ss)) as [u2 |] eqn:Hu2;
    [| cbn [fst]; apply debt_kept_same_users; exact Hw1].
  destruct (Engine.judge_day _ _ _ _ _ _ _) as [j | e] eqn:Hj;
    [| cbn [fst]; apply debt_kept_same_users; exact Hw1].
  destruct (upsert_daily_result uuid4 now_iso w1 _ _ j) as [w2 |] eqn:Hw2;
    [| cbn [fst]; apply debt_kept_same_users; exact Hw1].
  apply upsert_daily_result_ok in Hw2 as (Hus2 & _).
  unfold update_user_stats.
  destruct (update_stats (db w2) (App.user_id ss) j) as [db3 |] eqn:Hdb3;
    cbn [bind fst]; [| apply debt_kept_same_users; congruence].
  apply judge_day_new_debt in Hj.
  assert (Hu : get_user (db w) (App.user_id ss) = Some u2)
    by (unfold get_user in *; rewrite <- Hw1; exact Hu2).
  apply (update_stats_debt_kept w _ (App.user_id ss) u2 j (db w2) db3 Hu).
  - rewrite Hj.
    pose proof (count_completed_nonneg 0
                  (list_actions (db w1) (App.user_id ss) (App.today ss))).
    lia.
  - congruence.
  - exact Hdb3.
  - reflexivity.
Qed.

End StoreFacts.

Section Reachable.

Import Store.

Variable uuid4 : nat -> string.
Variable now_iso : nat -> string.
Variable generate_actions : string -> Z -> string -> result (list Action).
Variable sum_weights : list PyFloat.float -> pynum.

Lemma debt_kept_user (w w' : World) (uid : string) :
  debt_kept w w' ->
  get_user (db w) uid <> None -> get_user (db w') uid <> None.
Proof.
  intros Hk Hu. destruct (get_user (db w) uid) as [u |] eqn:E; [| congruence].
  destruct (Hk uid u E) as [u' [Hu' _]]. congruence.
Qed.

Lemma owners_within_refl (d : Db) : owners_within d d.
Proof. intros a Ha. exists a. auto. Qed.

Lemma update_completion_owners (d : Db) (id : string) (c : Z) (at_ : string) :
  owners_within d (update_completion d id c at_).
Proof.
  intros a Ha. cbn [update_completion actions] in Ha.
  unfold update_where in Ha. apply in_map_iff in Ha as [a0 [Heq Hin]].
  exists a0. split; [exact Hin |].
  destruct (String.eqb (a_id a0) id); subst a; reflexivity.
Qed.

Lemma apply_update_owners (ids : list string) (w w1 : World) (upd : Ai.json) :
  LegacyMain.apply_update now_iso ids w upd = Ok w1 ->
  owners_within (db w) (db w1).
Proof.
  unfold LegacyMain.apply_update.
  destruct (Ai.py_get upd "id" Ai.JNull) as [aid | e]; cbn [bind]; [| discriminate].
  destruct (Ai.py_get upd "completed" Ai.JNull) as [c | e]; cbn [bind];
    [| discriminate].
  destruct aid as [| b | z | f | id | l | kvs]; try discriminate;
    try (intros [= <-]; apply owners_within_refl).
  destruct (existsb (String.eqb id) ids); intros [= <-];
    [apply update_completion_owners | apply owners_within_refl].
Qed.

Lemma apply_updates_owners (ids : list string) (upds : list Ai.json)
    (w w1 : World) :
  Ai.foldM (LegacyMain.apply_update now_iso ids) w upds = Ok w1 ->
  owners_within (db w) (db w1).
Proof.
  revert w. induction upds as [| upd upds IH]; intros w; cbn [Ai.foldM].
  - intros [= <-]. apply owners_within_refl.
  - destruct (LegacyMain.apply_update now_iso ids w upd) as [w' | e] eqn:Hupd;
      cbn [bind]; [| discriminate].
    intros H a Ha. destruct (IH _ H a Ha) as [a1 [Ha1 Heq1]].
    destruct (apply_update_owners _ _ _ _ Hupd a1 Ha1) as [a0 [Ha0 Heq0]].
    exists a0. split; [exact Ha0 | congruence].
Qed.

Lemma insert_generated_owners (w w' : World) (user_id d : string)
    (acts : list Action) (a : ActionRow) :
  LegacyMain.insert_generated uuid4 w user_id d acts = Ok w' ->
  In a (actions (db w')) ->
  In a (actions (db w)) \/ a_user_id a = user_id.
Proof.
  revert w. induction acts as [| x rest IH]; intros w;
    cbn [LegacyMain.insert_generated].
  - intros H. apply Ok_inj in H. subst w'. auto.
  - destruct (insert_action _ _ _ _ _ _ _) as [d' |] eqn:Hd; cbn [bind];
      [| discriminate].
    apply insert_action_ok in Hd. subst d'.
    intros H Ha. destruct (IH _ H Ha) as [Hin | Hin]; [| auto].
    cbn in Hin. apply in_app_or in Hin as [Hin | [<- | []]]; auto.
Qed.

Lemma serve_actions_have_users (w : World) (r : LegacyMain.request) :
  actions_have_users (db w) ->
  actions_have_users
    (db (LegacyMain.serve uuid4 now_iso generate_actions sum_weights w r)).
Proof.
  intros Inv.
  pose proof (serve_debt_kept uuid4 now_iso generate_actions sum_weights w r)
    as Hkept.
  intros a Ha.
  assert (Hown : (exists a0, In a0 (actions (db w)) /\ a_user_id a = a_user_id a0)
                 \/ get_user (db w) (a_user_id a) <> None).
  { destruct r as [uid goal | d uid | d uid upds]; cbn [LegacyMain.serve] in Ha.
    - left. exists a. split; [| reflexivity].
      destruct (LegacyMain.valid_create_user_req _ _); [| exact Ha].
      unfold LegacyMain.create_user in Ha.
      destruct (get_user (db w) uid); exact Ha.
    - unfold LegacyMain.generate_today in Ha.
      destruct (get_user (db w) uid) as [u |] eqn:Hu;
        [| left; exists a; auto].
      destruct (nonempty _); [left; exists a; auto |].
      destruct (generate_actions _ _ _); [| left; exists a; auto].
      destruct (LegacyMain.insert_generated _ _ _ _ _) as [w' |] eqn:Hins;
        [| left; exists a; auto].
      cbn [fst] in Ha.
      destruct (insert_generated_owners _ _ _ _ _ _ Hins Ha) as [Hin | ->].
      + left. exists a. auto.
      + right. congruence.
    - left. unfold LegacyMain.checkin in Ha.
      destruct (get_user (db w) uid) as [u |]; [| exists a; auto].
      destruct (negb _); [exists a; auto |].
      destruct (LegacyMain.checkin_body _ _ _ _ _ _ _ _ _) as [[w' reply] | e]
        eqn:Hbody; [| exists a; auto].
      cbn [fst] in Ha.
      apply (checkin_body_ok uuid4 now_iso sum_weights) in Hbody
        as (w1 & j & w2 & db3 & Hupd & _ & Hw2 & Hdb3 & -> & _).
      apply (apply_updates_owners _ _ _ _ Hupd).
      apply upsert_daily_result_ok in Hw2 as (_ & Hacts2 & _).
      apply update_stats_ok in Hdb3. subst db3.
      cbn [db actions] in Ha. rewrite Hacts2 in Ha. exact Ha. }
  apply (debt_kept_user _ _ _ Hkept).
  destruct Hown as [[a0 [Ha0 ->]] | Hu]; [apply Inv; exact Ha0 | exact Hu].
Qed.

Lemma reachable_actions_have_users (w : World) :
  LegacyMain.reachable uuid4 now_iso generate_actions sum_weights w ->
  actions_have_users (db w).
Proof.
  induction 1 as [| w r _ IH].
  - intros a [].
  - apply serve_actions_have_users. exact IH.
Qed.

(** X26. Along any run of the service the debt of a user never goes down. *)
Lemma reachable_debt_kept (w : World) (rs : list LegacyMain.request) :
  debt_kept w
    (fold_left (LegacyMain.serve uuid4 now_iso generate_actions sum_weights)
       rs w).
Proof.
  revert w. induction rs as [| r rs IH]; intros w; cbn [fold_left].
  - apply debt_kept_refl.
  - eapply debt_kept_trans; [apply serve_debt_kept | apply IH].
Qed.

End Reachable.

(* ================================================================== *)
(** * Generation once per user and day: claims *)
(* ================================================================== *)

Section OncePerDay.

Import Store.

Variable uuid4 : nat -> string.
Variable now_iso : nat -> string.
Variable generate_actions : string -> Z -> string -> result (list Action).
Variable sum_weights : list PyFloat.float -> pynum.

(** The route of main.py on a day that has actions. *)
Lemma generate_today_existing (w : World) (d user_id : string) (u : UserRow) :
  get_user (db w) user_id = Some u ->
  list_actions (db w) user_id d <> [] ->
  LegacyMain.generate_today uuid4 generate_actions w d user_id
  = (w, LegacyMain.Reply (d, list_actions (db w) user_id d)).
Proof.
  intros Hu Hex. unfold LegacyMain.generate_today.
  rewrite Hu. apply nonempty_true in Hex. rewrite Hex. reflexivity.
Qed.

(** The button of the Streamlit page on a day that has actions. *)
Lemma generate_button_existing (w : World) (ss : App.Session) (u : UserRow) :
  list_actions (db w) (App.user_id ss) (App.today ss) <> [] ->
  exists n,
    App.generate_button uuid4 generate_actions w ss u
    = Ok (w,
          App.mkSession (App.user_id ss)
            (list_actions (db w) (App.user_id ss) (App.today ss))
            (App.today ss) (App.last_verdict ss),
          n).
Proof.
  intros Hex. unfold App.generate_button. cbv zeta.
  apply nonempty_true in Hex. rewrite Hex. eexists. reflexivity.
Qed.

(** C7. In a state where actions exist for a user and a day, a request to
    generate for that user and day changes nothing in the store and
    returns exactly the stored actions, in both front ends: the HTTP
    route [generate_today] (for a user that exists, as the route answers
    404 otherwise) and the button of the Streamlit page. *)
Theorem generation_once_per_day (w : World) :
  (forall (d user_id : string) (u : UserRow),
      get_user (db w) user_id = Some u ->
      list_actions (db w) user_id d <> [] ->
      LegacyMain.generate_today uuid4 generate_actions w d user_id
      = (w, LegacyMain.Reply (d, list_actions (db w) user_id d))) /\
  (forall (ss : App.Session) (u : UserRow),
      list_actions (db w) (App.user_id ss) (App.today ss) <> [] ->
      exists n,
        App.generate_button uuid4 generate_actions w ss u
        = Ok (w,
              App.mkSession (App.user_id ss)
                (list_actions (db w) (App.user_id ss) (App.today ss))
                (App.today ss) (App.last_verdict ss),
              n)).
Proof.
  split.
  - intros d user_id u. apply generate_today_existing.
  - intros ss u. apply generate_button_existing.
Qed.

(** In a world that the routes of main.py can reach, stored actions always
    have their user, so the route needs no assumption on the user. *)
Lemma generate_today_existing_reachable (w : World) (d user_id : string) :
  LegacyMain.reachable uuid4 now_iso generate_actions sum_weights w ->
  list_actions (db w) user_id d <> [] ->
  LegacyMain.generate_today uuid4 generate_actions w d user_id
  = (w, LegacyMain.Reply (d, list_actions (db w) user_id d)).
Proof.
  intros Hreach Hex.
  pose proof (reachable_actions_have_users _ _ _ _ _ Hreach) as Inv.
  destruct (list_actions (db w) user_id d) as [| a rest] eqn:Hl; [congruence |].
  assert (Ha : In a (list_actions (db w) user_id d)) by (rewrite Hl; left; reflexivity).
  unfold list_actions in Ha. apply filter_In in Ha as [Hin Hmatch].
  apply andb_true_iff in Hmatch as [Huid _]. apply String.eqb_eq in Huid.
  specialize (Inv a Hin). rewrite Huid in Inv.
  destruct (get_user (db w) user_id) as [u |] eqn:Hu; [| congruence].
  rewrite <- Hl. apply (generate_today_existing w d user_id u Hu).
  rewrite Hl. discriminate.
Qed.

(** X21. The round trip of the specification: a reply of [generate_today]
    that carries at least one action is reproduced by the next request
    for the same user and day, which leaves the world as it is. *)
Lemma generate_today_twice (w w1 : World) (d d1 user_id : string)
    (out : list ActionRow) :
  LegacyMain.generate_today uuid4 generate_actions w d user_id
    = (w1, LegacyMain.Reply (d1, out)) ->
  out <> [] ->
  LegacyMain.generate_today uuid4 generate_actions w1 d user_id
    = (w1, LegacyMain.Reply (d1, out)).
Proof.
  unfold LegacyMain.generate_today at 1.
  destruct (get_user (db w) user_id) as [u |] eqn:Hu; [| discriminate].
  destruct (nonempty (list_actions (db w) user_id d)) eqn:Hex.
  - intros [= <- <- <-] _. unfold LegacyMain.generate_today.
    rewrite Hu, Hex. reflexivity.
  - destruct (generate_actions _ _ _) as [actions | e]; [| discriminate].
    destruct (LegacyMain.insert_generated _ _ _ _ _) as [w' |] eqn:Hins;
      [| discriminate].
    intros [= <- <- <-] Hout. unfold LegacyMain.generate_today.
    unfold get_user in *. rewrite (insert_generated_users uuid4 _ _ _ _ _ Hins), Hu.
    apply nonempty_true in Hout. rewrite Hout. reflexivity.
Qed.

(** X16. The same round trip for the button of the Streamlit page. *)
Lemma generate_button_twice (w w1 : World) (ss ss1 : App.Session)
    (u u1 : UserRow) (n : App.notice) :
  App.generate_button uuid4 generate_actions w ss u = Ok (w1, ss1, n) ->
  App.today_actions ss1 <> [] ->
  exists n1,
    App.generate_button uuid4 generate_actions w1 ss1 u1 = Ok (w1, ss1, n1).
Proof.
  unfold App.generate_button at 1. cbv zeta.
  destruct (nonempty (list_actions (db w) (App.user_id ss) (App.today ss)))
    eqn:Hex.
  - intros [= <- <- <-] _. unfold App.generate_button. cbv zeta.
    cbn [App.user_id App.today App.last_verdict]. rewrite Hex.
    eexists. reflexivity.
  - destruct (generate_actions _ _ _) as [actions | e]; cbn [bind];
      [| discriminate].
    destruct (insert_actions _ _ _ _ _) as [w' |]; cbn [bind];
      [| discriminate].
    intros [= <- <- <-] Hout. cbn [App.today_actions] in Hout.
    unfold App.generate_button. cbv zeta.
    cbn [App.user_id App.today App.last_verdict].
    apply nonempty_true in Hout. rewrite Hout. eexists. reflexivity.
Qed.

End OncePerDay.

(* ================================================================== *)
(** * The scoring engine: further properties *)
(* ================================================================== *)

(** X2. [level_from_xp]: level 1 below 250 XP (negative XP included), one more
    level for every full 250 XP up to 2250, level 10 from there on; it
    never decreases when the XP grows. *)
Theorem level_from_xp_steps (xp : Z) :
  (xp < 250 -> Engine.level_from_xp xp = 1) /\
  (0 <= xp < 2250 ->
   250 * (Engine.level_from_xp xp - 1) <= xp < 250 * Engine.level_from_xp xp) /\
  (2250 <= xp -> Engine.level_from_xp xp = 10) /\
  (forall xp', xp <= xp' ->
               Engine.level_from_xp xp <= Engine.level_from_xp xp').
Proof.
  unfold Engine.level_from_xp, Engine.clamp.
  pose proof (Z.div_mod xp 250 ltac:(lia)) as Hdm.
  pose proof (Z.mod_pos_bound xp 250 ltac:(lia)) as Hb.
  repeat split; try lia.
  intros xp' Hle. pose proof (Z.div_le_mono xp xp' 250 ltac:(lia) Hle). lia.
Qed.

(** X3. One more miss, everything else equal, costs at least 15 XP of the
    day's delta, resets the streak and adds one to the debt. *)
Theorem judge_day_miss_costs (xp streak debt d c m : Z) (x : pynum)
    (j : Engine.Judgement) :
  0 <= m ->
  Engine.judge_day xp streak debt d c m x = Ok j ->
  exists j',
    Engine.judge_day xp streak debt d c (m + 1) x = Ok j' /\
    Engine.xp_delta j' <= Engine.xp_delta j - 15 /\
    Engine.new_xp j' <= Engine.new_xp j /\
    Engine.new_streak j' = 0 /\
    Engine.new_debt j' = Engine.new_debt j + 1.
Proof.
  intros Hm. unfold Engine.judge_day.
  destruct (Engine.base_xp_of c x d) as [b |]; cbn [bind]; [| discriminate].
  intros <-%Ok_inj. eexists. split; [reflexivity |].
  cbn [Engine.xp_delta Engine.new_xp Engine.new_streak Engine.new_debt].
  replace (m + 1 =? 0) with false by (symmetry; apply Z.eqb_neq; lia).
  cbn [andb].
  replace (0 >=? 3) with false by reflexivity.
  destruct (_ >=? 3); repeat split; lia.
Qed.

(** X4. With counts that are not negative, each verdict is returned on exactly
    one region of (completed, missed); the catch-all sentence is returned
    when one action was missed beside completed ones, and when nothing was
    completed and nothing missed. *)
Theorem judge_day_verdict_cases (xp streak debt d c m : Z) (x : pynum)
    (j : Engine.Judgement) :
  0 <= c -> 0 <= m ->
  Engine.judge_day xp streak debt d c m x = Ok j ->
  (Engine.verdict j = Engine.verdict_nothing <-> c = 0 /\ 1 <= m) /\
  (Engine.verdict j = Engine.verdict_hard <-> 4 <= c /\ m = 0) /\
  (Engine.verdict j = Engine.verdict_work <-> 1 <= c <= 3 /\ m = 0) /\
  (Engine.verdict j = Engine.verdict_avoided <-> 1 <= c /\ 2 <= m) /\
  (Engine.verdict j = Engine.verdict_bailed <->
   (1 <= c /\ m = 1) \/ (c = 0 /\ m = 0)).
Proof.
  intros Hc Hm. unfold Engine.judge_day.
  destruct (Engine.base_xp_of c x d) as [b |]; cbn [bind]; [| discriminate].
  intros <-%Ok_inj. cbn [Engine.verdict].
  destruct (Z.eqb_spec c 0) as [Hc0 | Hc0];
    destruct (Z.gtb_spec m 0) as [Hm0 | Hm0]; cbn [andb].
  1: repeat split; try discriminate; try lia; intros; exfalso; lia.
  all: destruct (Z.eqb_spec m 0) as [Hm1 | Hm1];
    destruct (Z.geb_spec c 4) as [Hc4 | Hc4]; cbn [andb].
  all: try (destruct (Z.gtb_spec c 0) as [Hc1 | Hc1]; cbn [andb]).
  all: try (destruct (Z.geb_spec m 2) as [Hm2 | Hm2]).
  all: repeat split; try discriminate; try lia; intros; exfalso; lia.
Qed.

(** A finite or zero float plus an infinity is that infinity. *)
Lemma fadd_below_infinity (f : PyFloat.float) (k : Z) (s : bool) :
  PyFloat.below k f ->
  PyFloat.fadd f (S754_infinity s) = S754_infinity s /\
  PyFloat.fadd (S754_infinity s) f = S754_infinity s.
Proof.
  destruct f; cbn [PyFloat.below]; try contradiction; intros _; split; reflexivity.
Qed.

Lemma fadd_below_nan (f : PyFloat.float) (k : Z) :
  PyFloat.below k f ->
  PyFloat.fadd f S754_nan = S754_nan /\ PyFloat.fadd S754_nan f = S754_nan.
Proof.
  destruct f; cbn [PyFloat.below]; try contradiction; intros _; split; reflexivity.
Qed.

(** X5. Line 88 on an [impacts_sum] that is not a number of the reals:
    [judge_day] raises OverflowError on an infinity and ValueError on a
    NaN, whatever the other arguments are (the integer terms below 2^1000
    so that their conversion does not overflow first). *)
Theorem judge_day_non_finite_impacts (xp streak debt d c m : Z) :
  Z.abs (20 * c) < 2 ^ 1000 -> Z.abs (5 * d) < 2 ^ 1000 ->
  (forall s, Engine.judge_day xp streak debt d c m (PyFloat (S754_infinity s))
             = Raise OverflowError) /\
  Engine.judge_day xp streak debt d c m (PyFloat S754_nan) = Raise ValueError.
Proof.
  intros Hc Hd.
  assert (Ha : PyFloat.below 1001 (PyFloat.nearest (20 * c)))
    by (apply (nearest_below _ 1000); [exact Hc | lia]).
  assert (Hb : PyFloat.below 1001 (PyFloat.nearest (5 * d)))
    by (apply (nearest_below _ 1000); [exact Hd | lia]).
  split; [intros s |]; apply judge_day_raises; unfold Engine.base_xp_of;
    cbn [py_mul py_add bind];
    change (PyFloat.of_int 10)
      with (Ok (S754_finite false 5629499534213120 (-49)) : result PyFloat.float);
    cbn [bind]; rewrite (of_int_below _ _ Ha); cbn [bind py_mul py_add].
  - change (PyFloat.fmul (S754_finite false 5629499534213120 (-49))
              (S754_infinity s)) with (S754_infinity s).
    rewrite (proj1 (fadd_below_infinity _ _ s Ha)).
    rewrite (of_int_below _ _ Hb). cbn [bind py_int_round].
    rewrite (proj2 (fadd_below_infinity _ _ s Hb)). reflexivity.
  - change (PyFloat.fmul (S754_finite false 5629499534213120 (-49)) S754_nan)
      with S754_nan.
    rewrite (proj1 (fadd_below_nan _ _ Ha)).
    rewrite (of_int_below _ _ Hb). cbn [bind py_int_round].
    rewrite (proj2 (fadd_below_nan _ _ Hb)). reflexivity.
Qed.

(* ================================================================== *)
(** * The heuristic generator: further properties *)
(* ================================================================== *)

Lemma is_space_lower_char (c : ascii) :
  Text.is_space (Text.lower_char c) = Text.is_space c.
Proof. destruct c as [[] [] [] [] [] [] [] []]; reflexivity. Qed.

Lemma is_space2_lower_char (c1 c2 : ascii) :
  Text.is_space2 (Text.lower_char c1) (Text.lower_char c2) = Text.is_space2 c1 c2.
Proof.
  destruct c1 as [[] [] [] [] [] [] [] []]; try reflexivity;
    destruct c2 as [[] [] [] [] [] [] [] []]; reflexivity.
Qed.

Lemma is_space3_lower_char (c1 c2 c3 : ascii) :
  Text.is_space3 (Text.lower_char c1) (Text.lower_char c2) (Text.lower_char c3)
  = Text.is_space3 c1 c2 c3.
Proof.
  destruct c1 as [[] [] [] [] [] [] [] []]; try reflexivity;
    destruct c2 as [[] [] [] [] [] [] [] []]; try reflexivity;
    destruct c3 as [[] [] [] [] [] [] [] []]; reflexivity.
Qed.

(** An ASCII whitespace byte is no part of a longer whitespace
    character. *)
Lemma is_space_not_space2 (c1 c2 : ascii) :
  Text.is_space c2 = true -> Text.is_space2 c1 c2 = false.
Proof.
  unfold Text.is_space2.
  destruct c2 as [[] [] [] [] [] [] [] []]; try discriminate; intros _;
    apply andb_false_r.
Qed.

Lemma is_space_not_space3 (c1 c2 c3 : ascii) :
  Text.is_space c3 = true -> Text.is_space3 c1 c2 c3 = false.
Proof.
  unfold Text.is_space3.
  destruct c3 as [[] [] [] [] [] [] [] []]; try discriminate; intros _;
    cbn; rewrite !andb_false_r; reflexivity.
Qed.

(** Induction on a text together with its shorter texts, as the stripping
    functions read up to three bytes ahead. *)
Lemma string_length_ind (P : string -> Prop) :
  (forall s, (forall t, (String.length t < String.length s)%nat -> P t) -> P s) ->
  forall s, P s.
Proof.
  intros H s.
  assert (Hn : forall n t, (String.length t < n)%nat -> P t).
  { induction n as [| n IH]; intros t Ht; [lia |].
    apply H. intros t' Ht'. apply IH. lia. }
  apply (Hn (S (String.length s))). lia.
Qed.

Lemma lower_lstrip (s : string) :
  Text.lower (Text.lstrip s) = Text.lstrip (Text.lower s).
Proof.
  induction s as [s IH] using string_length_ind.
  destruct s as [| c1 s1]; [reflexivity |].
  cbn [Text.lstrip Text.lower]. rewrite is_space_lower_char.
  destruct (Text.is_space c1); [apply IH; cbn; lia |].
  destruct s1 as [| c2 s2]; [reflexivity |].
  cbn [Text.lower]. rewrite is_space2_lower_char.
  destruct (Text.is_space2 c1 c2); [apply IH; cbn; lia |].
  destruct s2 as [| c3 s3]; [reflexivity |].
  cbn [Text.lower]. rewrite is_space3_lower_char.
  destruct (Text.is_space3 c1 c2 c3); [apply IH; cbn; lia | reflexivity].
Qed.

Lemma lower_rstrip (s : string) :
  Text.lower (Text.rstrip s) = Text.rstrip (Text.lower s).
Proof.
  induction s as [s IH] using string_length_ind.
  destruct s as [| c1 s1]; [reflexivity |].
  cbn [Text.rstrip Text.lower]. rewrite is_space_lower_char.
  destruct (Text.is_space c1).
  { rewrite <- (IH s1) by (cbn; lia).
    destruct (Text.rstrip s1); reflexivity. }
  destruct s1 as [| c2 s2]; [reflexivity |].
  cbn [Text.lower]. rewrite is_space2_lower_char.
  destruct (Text.is_space2 c1 c2).
  { rewrite <- (IH s2) by (cbn; lia).
    destruct (Text.rstrip s2); reflexivity. }
  destruct s2 as [| c3 s3].
  { cbn [Text.lower].
    change (String (Text.lower_char c2) EmptyString)
      with (Text.lower (String c2 EmptyString)).
    rewrite <- (IH (String c2 EmptyString)) by (cbn; lia).
    reflexivity. }
  cbn [Text.lower]. rewrite is_space3_lower_char.
  destruct (Text.is_space3 c1 c2 c3).
  { rewrite <- (IH s3) by (cbn; lia).
    destruct (Text.rstrip s3); reflexivity. }
  change (String (Text.lower_char c2) (String (Text.lower_char c3) (Text.lower s3)))
    with (Text.lower (String c2 (String c3 s3))).
  rewrite <- (IH (String c2 (String c3 s3))) by (cbn; lia).
  reflexivity.
Qed.

(** Lowercasing and stripping commute: no cased letter is whitespace. *)
Lemma lower_strip (s : string) :
  Text.lower (Text.strip s) = Text.strip (Text.lower s).
Proof. unfold Text.strip. rewrite lower_rstrip, lower_lstrip. reflexivity. Qed.

Lemma lstrip_all_space (s : string) :
  all_space s = true -> Text.lstrip s = EmptyString.
Proof.
  induction s as [| c s IH]; cbn; [reflexivity |].
  intros H. apply andb_true_iff in H as [Hc Hs]. rewrite Hc. auto.
Qed.

Lemma rstrip_all_space (s : string) :
  all_space s = true -> Text.rstrip s = EmptyString.
Proof.
  induction s as [| c s IH]; cbn; [reflexivity |].
  intros H. apply andb_true_iff in H as [Hc Hs]. rewrite (IH Hs), Hc. reflexivity.
Qed.

Lemma lstrip_app_space (a s : string) :
  all_space a = true -> Text.lstrip (a ++ s) = Text.lstrip s.
Proof.
  induction a as [| c a IH]; cbn; [reflexivity |].
  intros H. apply andb_true_iff in H as [Hc Ha]. rewrite Hc. auto.
Qed.

Lemma all_space_head (c : ascii) (s : string) :
  all_space (String c s) = true -> Text.is_space c = true /\ all_space s = true.
Proof. cbn. intros H. apply andb_true_iff in H. exact H. Qed.

Lemma rstrip_app_space (s b : string) :
  all_space b = true -> Text.rstrip (s ++ b) = Text.rstrip s.
Proof.
  intros Hb. induction s as [s IH] using string_length_ind.
  destruct s as [| c1 s1]; [apply rstrip_all_space; exact Hb |].
  cbn [append Text.rstrip].
  destruct (Text.is_space c1); [rewrite (IH s1) by (cbn; lia); reflexivity |].
  destruct s1 as [| c2 s2].
  { cbn [append]. destruct b as [| b1 b']; [reflexivity |].
    destruct (all_space_head _ _ Hb) as [Hb1 Hb'].
    rewrite (is_space_not_space2 _ _ Hb1), (rstrip_all_space _ Hb).
    destruct b' as [| b2 b'']; [reflexivity |].
    destruct (all_space_head _ _ Hb') as [Hb2 _].
    rewrite (is_space_not_space3 _ _ _ Hb2). reflexivity. }
  cbn [append].
  destruct (Text.is_space2 c1 c2); [rewrite (IH s2) by (cbn; lia); reflexivity |].
  destruct s2 as [| c3 s3].
  { cbn [append]. destruct b as [| b1 b']; [reflexivity |].
    destruct (all_space_head _ _ Hb) as [Hb1 _].
    rewrite (is_space_not_space3 _ _ _ Hb1).
    change (String c2 (String b1 b')) with (String c2 EmptyString ++ String b1 b').
    rewrite (IH (String c2 EmptyString)) by (cbn; lia). reflexivity. }
  cbn [append].
  destruct (Text.is_space3 c1 c2 c3); [rewrite (IH s3) by (cbn; lia); reflexivity |].
  change (String c2 (String c3 (s3 ++ b))) with (String c2 (String c3 s3) ++ b).
  rewrite (IH (String c2 (String c3 s3))) by (cbn; lia). reflexivity.
Qed.

(** Whitespace around a text does not change what [strip] makes of it. *)
Lemma strip_padded (a s b : string) :
  all_space a = true -> all_space b = true ->
  Text.strip (a ++ s ++ b) = Text.strip s.
Proof.
  intros Ha Hb. unfold Text.strip. rewrite (lstrip_app_space _ _ Ha).
  induction s as [s IH] using string_length_ind.
  destruct s as [| c1 s1].
  { cbn [append Text.lstrip]. rewrite (lstrip_all_space _ Hb). reflexivity. }
  cbn [append Text.lstrip].
  destruct (Text.is_space c1); [apply IH; cbn; lia |].
  destruct s1 as [| c2 s2].
  { cbn [append]. destruct b as [| b1 b']; [reflexivity |].
    destruct (all_space_head _ _ Hb) as [Hb1 Hb'].
    rewrite (is_space_not_space2 _ _ Hb1).
    assert (E : match b' with
                | String c3 s3 =>
                    if Text.is_space3 c1 b1 c3 then Text.lstrip s3
                    else String c1 (String b1 b')
                | EmptyString => String c1 (String b1 b')
                end = String c1 (String b1 b')).
    { destruct b' as [| b2 b'']; [reflexivity |].
      destruct (all_space_head _ _ Hb') as [Hb2 _].
      rewrite (is_space_not_space3 _ _ _ Hb2). reflexivity. }
    rewrite E.
    apply (rstrip_app_space (String c1 EmptyString) (String b1 b') Hb). }
  cbn [append].
  destruct (Text.is_space2 c1 c2); [apply IH; cbn; lia |].
  destruct s2 as [| c3 s3].
  { cbn [append]. destruct b as [| b1 b']; [reflexivity |].
    destruct (all_space_head _ _ Hb) as [Hb1 _].
    rewrite (is_space_not_space3 _ _ _ Hb1).
    apply (rstrip_app_space (String c1 (String c2 EmptyString)) (String b1 b') Hb). }
  cbn [append].
  destruct (Text.is_space3 c1 c2 c3); [apply IH; cbn; lia |].
  apply (rstrip_app_space (String c1 (String c2 (String c3 s3))) b Hb).
Qed.

(** X6. The heuristic generator reads the goal up to letter case and up to
    whitespace around it. *)
Theorem offline_actions_insensitive (a goal b goal' : string) (difficulty : Z) :
  all_space a = true -> all_space b = true ->
  Text.lower goal = Text.lower goal' ->
  Ai._offline_actions (a ++ goal ++ b) difficulty
  = Ai._offline_actions goal' difficulty.
Proof.
  intros Ha Hb Hlow. rewrite !offline_actions_cases. cbv zeta.
  rewrite (strip_padded _ _ _ Ha Hb), !lower_strip, Hlow. reflexivity.
Qed.

Lemma offline_actions_ok (goal_text : string) (d : Z) :
  List.length (Ai._offline_actions goal_text d) = 4%nat /\
  Forall proposal_ok (Ai._offline_actions goal_text d).
Proof.
  rewrite offline_actions_cases. cbv zeta.
  destruct (Text.any_in Ai.revenue_keywords _);
    [| destruct (Text.any_in Ai.build_keywords _)];
    (split; [reflexivity |]);
    repeat (apply Forall_cons;
            [split; [reflexivity | apply Nat.leb_le; vm_compute; reflexivity] |]);
    apply Forall_nil.
Qed.

(** X7. Every goal and every difficulty yield exactly four proposals, each
    flagged non-negotiable, with a non-empty text of at most 300
    characters and an impact weight between 1.0 and 1.5. *)
Theorem offline_actions_shape (goal_text : string) (d : Z) :
  List.length (Ai._offline_actions goal_text d) = 4%nat /\
  Forall (fun a =>
            proposal_ok a /\ text a <> EmptyString /\
            SFleb (PyFloat.nearest 1) (impact_weight a) = true /\
            SFleb (impact_weight a) (PyFloat.decimal 15 1) = true)
         (Ai._offline_actions goal_text d).
Proof.
  rewrite offline_actions_cases. cbv zeta.
  destruct (Text.any_in Ai.revenue_keywords _);
    [| destruct (Text.any_in Ai.build_keywords _)];
    (split; [reflexivity |]);
    repeat (apply Forall_cons;
            [split; [split; [reflexivity
                            | apply Nat.leb_le; vm_compute; reflexivity]
                    | split; [discriminate | split; vm_compute; reflexivity]] |]);
    apply Forall_nil.
Qed.

(** X8. The difficulty of a proposal lies between the input difficulty and 3,
    whichever way round they are: it is never below the input when the
    input is at most 3, and never above it when the input is at least 3. *)
Theorem offline_actions_difficulty_range (goal_text : string) (d : Z) :
  Forall (fun a => Z.min 3 d <= difficulty a <= Z.max 3 d)
         (Ai._offline_actions goal_text d).
Proof.
  rewrite offline_actions_cases. cbv zeta.
  destruct (Text.any_in Ai.revenue_keywords _);
    [| destruct (Text.any_in Ai.build_keywords _)];
    repeat (apply Forall_cons; [cbn [difficulty]; lia |]); apply Forall_nil.
Qed.

(* ================================================================== *)
(** * The generation adapter: further properties *)
(* ================================================================== *)

Lemma from_first_open_spec (s : string) :
  match Ai.from_first_open s with
  | Some t => exists a rest,
      s = (a ++ String "["%char rest)%string /\ occurs "["%char a = false /\
      t = String "["%char rest
  | None => occurs "["%char s = false
  end.
Proof.
  induction s as [| c s IH]; cbn [Ai.from_first_open occurs]; [reflexivity |].
  destruct (Ascii.eqb_spec c "["%char) as [-> | Hne].
  - exists EmptyString, s. auto.
  - destruct (Ai.from_first_open s) as [t |].
    + destruct IH as (a & rest & -> & Ha & ->).
      exists (String c a), rest. cbn [append occurs].
      rewrite Ha. apply Ascii.eqb_neq in Hne. rewrite Hne. auto.
    + exact IH.
Qed.

Lemma upto_last_close_spec (s : string) :
  match Ai.upto_last_close s with
  | Some t => exists body b,
      s = (body ++ String "]"%char b)%string /\ occurs "]"%char b = false /\
      t = (body ++ String "]"%char EmptyString)%string
  | None => occurs "]"%char s = false
  end.
Proof.
  induction s as [| c s IH]; cbn [Ai.upto_last_close occurs]; [reflexivity |].
  destruct (Ai.upto_last_close s) as [t |].
  - destruct IH as (body & b & -> & Hb & ->).
    exists (String c body), b. auto.
  - destruct (Ascii.eqb_spec c "]"%char) as [-> | Hne].
    + exists EmptyString, s. auto.
    + exact IH.
Qed.

Lemma string_app_assoc (a b c : string) :
  ((a ++ b) ++ c = a ++ (b ++ c))%string.
Proof. induction a as [| x a IH]; cbn; [reflexivity | rewrite IH; reflexivity]. Qed.

Lemma occurs_app (c : ascii) (a b : string) :
  occurs c (a ++ b) = occurs c a || occurs c b.
Proof.
  induction a as [| c' a IH]; cbn [append occurs]; [reflexivity |].
  rewrite IH, orb_assoc. reflexivity.
Qed.

(** The text after the first opening bracket of [a ++ "[" ++ rest] ends
    with [rest]. *)
Lemma from_first_open_app (a rest : string) :
  exists x,
    Ai.from_first_open (a ++ String "["%char rest)
    = Some (String "["%char (x ++ rest)).
Proof.
  induction a as [| c a [x IH]]; cbn [append Ai.from_first_open].
  - exists EmptyString. reflexivity.
  - destruct (Ascii.eqb_spec c "["%char) as [-> | Hne].
    + exists (a ++ String "["%char EmptyString)%string.
      rewrite string_app_assoc. reflexivity.
    + exists x. exact IH.
Qed.

(** X9. [re.search(r"\[.*\]", txt, re.S)]: a match is the part of the text
    from its first opening bracket to its last closing bracket; there is
    none exactly when no opening bracket has a closing bracket after it. *)
Theorem re_search_brackets_spec (txt : string) :
  match Ai.re_search_brackets txt with
  | Some m =>
      exists a body b,
        txt = (a ++ "[" ++ body ++ "]" ++ b)%string /\
        occurs "["%char a = false /\ occurs "]"%char b = false /\
        m = ("[" ++ body ++ "]")%string
  | None =>
      forall a body b, txt <> (a ++ "[" ++ body ++ "]" ++ b)%string
  end.
Proof.
  unfold Ai.re_search_brackets.
  pose proof (from_first_open_spec txt) as Hopen.
  destruct (Ai.from_first_open txt) as [t |] eqn:Efirst.
  - destruct Hopen as (a & rest & -> & Ha & ->).
    pose proof (upto_last_close_spec rest) as Hclose.
    destruct (Ai.upto_last_close rest) as [body' |] eqn:Elast.
    + destruct Hclose as (body & b & -> & Hb & ->).
      exists a, body, b. auto.
    + intros a' body b Heq.
      destruct (from_first_open_app a' (body ++ "]" ++ b)) as [x Hx].
      change ("[" ++ body ++ "]" ++ b)%string
        with (String "["%char (body ++ "]" ++ b)) in Heq.
      rewrite <- Heq, Efirst in Hx. injection Hx as ->.
      rewrite !occurs_app in Hclose. cbn in Hclose.
      rewrite !orb_true_r in Hclose. discriminate.
  - intros a body b Heq. rewrite Heq, !occurs_app in Hopen. cbn in Hopen.
    rewrite orb_true_r in Hopen. discriminate.
Qed.

Lemma length_take (n : nat) (s : string) :
  (Text.len (Text.take n s) <= n)%nat.
Proof.
  revert n. induction s as [| c s IH]; intros n; cbn [Text.take Text.len]; [lia |].
  destruct (Text.is_continuation c) eqn:Ec.
  - cbn [Text.len]. rewrite Ec. apply IH.
  - destruct n as [| n]; cbn [Text.len]; [lia |]. rewrite Ec.
    specialize (IH n). lia.
Qed.

Section AdapterShape.

Variable json_loads : string -> result Ai.json.
Variable repr : Ai.json -> string.
Variable float_of_str : string -> result PyFloat.float.
Variable int_of_str : string -> result Z.
Variable env : Ai.Env.
Variables (goal_text : string) (difficulty : Z) (history : string).

Lemma clean_ok (x : Ai.json) (a : Action) :
  Ai.clean repr float_of_str int_of_str x = Ok a -> proposal_ok a.
Proof.
  unfold Ai.clean.
  destruct (Ai.py_get x "text" _); cbn [bind]; [| discriminate].
  destruct (Ai.py_get x "impact_weight" _); cbn [bind]; [| discriminate].
  destruct (Ai.py_float _ _); cbn [bind]; [| discriminate].
  destruct (Ai.py_get x "difficulty" _); cbn [bind]; [| discriminate].
  destruct (Ai.py_int _ _); cbn [bind]; [| discriminate].
  intros <-%Ok_inj. split; [reflexivity | apply length_take].
Qed.

(** Only a dict can be cleaned: [a.get] raises on anything else. *)
Lemma clean_not_dict (x : Ai.json) :
  (forall kvs, x <> Ai.JObj kvs) ->
  Ai.clean repr float_of_str int_of_str x = Raise AttributeError.
Proof.
  intros Hx. destruct x; try reflexivity. exfalso. eapply Hx. reflexivity.
Qed.

Lemma mapM_Forall {A B : Type} (f : A -> result B) (P : B -> Prop)
    (l : list A) (bs : list B) :
  (forall a b, f a = Ok b -> P b) ->
  mapM f l = Ok bs -> Forall P bs.
Proof.
  intros Hf. revert bs. induction l as [| a l IH]; intros bs; cbn [mapM].
  - intros <-%Ok_inj. constructor.
  - destruct (f a) as [b |] eqn:Ha; cbn [bind]; [| discriminate].
    destruct (mapM f l) as [bs' |]; cbn [bind]; [| discriminate].
    intros <-%Ok_inj. constructor; eauto.
Qed.

Lemma mapM_raises {A B : Type} (f : A -> result B) (l : list A) (x : A)
    (e : PyExn) :
  In x l -> f x = Raise e -> exists e', mapM f l = Raise e'.
Proof.
  intros Hin Hx. induction l as [| a l IH]; [contradiction |].
  cbn [mapM]. destruct Hin as [-> | Hin].
  - rewrite Hx. eexists. reflexivity.
  - destruct (f a); cbn [bind]; [| eexists; reflexivity].
    destruct (IH Hin) as [e' ->]. eexists. reflexivity.
Qed.

Lemma Forall_firstn {A : Type} (P : A -> Prop) (n : nat) (l : list A) :
  Forall P l -> Forall P (firstn n l).
Proof.
  intros H. apply Forall_forall. intros a Ha.
  apply (proj1 (Forall_forall P l) H). exact (In_firstn n l a Ha).
Qed.

(** X10. One item that is not a JSON object discards the whole array, however
    many well-formed items stand beside it, before or after the fifth
    place: the loop cleans every element before the list is cut. *)
Theorem usable_items_bad_item (m : string) (elems : list Ai.json) (x : Ai.json) :
  json_loads m = Ok (Ai.JArr elems) ->
  In x elems ->
  (forall kvs, x <> Ai.JObj kvs) ->
  exists e, usable_items json_loads repr float_of_str int_of_str m = Raise e.
Proof.
  intros Hm Hin Hx. unfold usable_items. rewrite Hm. cbn [bind Ai.py_iter].
  destruct (mapM_raises _ _ _ _ Hin (clean_not_dict x Hx)) as [e ->].
  exists e. reflexivity.
Qed.

Lemma generate_actions_proposals :
  exists actions,
    Ai.generate_actions json_loads repr float_of_str int_of_str env
      goal_text difficulty history = Ok actions /\
    (3 <= List.length actions <= 5)%nat /\
    Forall proposal_ok actions.
Proof.
  assert (Hoff : (3 <= List.length (Ai._offline_actions goal_text difficulty) <= 5)%nat
                 /\ Forall proposal_ok (Ai._offline_actions goal_text difficulty)).
  { destruct (offline_actions_ok goal_text difficulty) as [Hlen Hall].
    split; [lia | exact Hall]. }
  unfold Ai.generate_actions. cbv zeta.
  destruct (Text.is_empty _); [eexists; split; [reflexivity | exact Hoff] |].
  rewrite external_attempt_stages.
  destruct (Ai.requests_post env _ _) as [r | e]; cbn [bind try_except];
    [| eexists; split; [reflexivity | exact Hoff]].
  destruct (Ai.raise_for_status r) as [[] | e]; cbn [bind try_except];
    [| eexists; split; [reflexivity | exact Hoff]].
  destruct (Ai.json_body r) as [data | e]; cbn [bind try_except];
    [| eexists; split; [reflexivity | exact Hoff]].
  destruct (output_text data) as [txt | e]; cbn [bind try_except];
    [| eexists; split; [reflexivity | exact Hoff]].
  destruct (Ai.re_search_brackets txt) as [m |];
    [| eexists; split; [reflexivity | exact Hoff]].
  unfold usable_items.
  destruct (json_loads m) as [arr | e]; cbn [bind try_except];
    [| eexists; split; [reflexivity | exact Hoff]].
  destruct (Ai.py_iter arr) as [elems | e]; cbn [bind try_except];
    [| eexists; split; [reflexivity | exact Hoff]].
  destruct (mapM _ elems) as [cleaned | e] eqn:Hclean; cbn [bind try_except];
    [| eexists; split; [reflexivity | exact Hoff]].
  pose proof (firstn_le_length 5 cleaned) as Hle.
  pose proof (Forall_firstn _ 5 _ (mapM_Forall _ _ _ _ clean_ok Hclean)) as Hall.
  set (kept := firstn 5 cleaned) in *.
  destruct (Nat.ltb_spec (List.length kept) 3) as [Hlt | Hge];
    cbn [try_except]; eexists; (split; [reflexivity |]);
    [exact Hoff | split; [lia | exact Hall]].
Qed.

(** X11. [generate_actions] always returns between three and five proposals,
    each flagged non-negotiable and with a text of at most 300
    characters, whichever path produced them. *)
Theorem generate_actions_shape :
  exists actions,
    Ai.generate_actions json_loads repr float_of_str int_of_str env
      goal_text difficulty history = Ok actions /\
    (3 <= List.length actions <= 5)%nat /\
    Forall proposal_ok actions.
Proof. exact generate_actions_proposals. Qed.

End AdapterShape.

(* ================================================================== *)
(** * The history of a user *)
(* ================================================================== *)

Lemma find_app_none {A : Type} (p : A -> bool) (l l' : list A) :
  find p l = None -> find p (l ++ l') = find p l'.
Proof.
  induction l as [| y l IH]; cbn; [reflexivity |].
  destruct (p y); [discriminate | exact IH].
Qed.

(** Bytewise order of texts. *)
Lemma ascii_compare_refl (c : ascii) : Ascii.compare c c = Eq.
Proof. unfold Ascii.compare. apply N.compare_refl. Qed.



Section HistoryFacts.

Import Store.







End HistoryFacts.

(* ================================================================== *)
(** * The store functions of engine.py *)
(* ================================================================== *)

Section EngineStoreFacts.

Import Store.

Variable uuid4 : nat -> string.
Variable now_iso : nat -> string.

(** X13. [upsert_user]: a user that exists keeps every stat and gets the new
    goal; a user that does not is created with the column defaults; no
    other user, no action and no result is touched. *)
Theorem upsert_user_lookup (w : World) (user_id goal_text : string) :
  get_user (db (upsert_user now_iso w user_id goal_text)) user_id
  = Some (match get_user (db w) user_id with
          | Some u =>
              mkUserRow (u_id u) (u_created_at u) (Text.strip goal_text)
                (u_level u) (u_xp u) (u_streak u) (u_debt u) (u_difficulty u)
          | None =>
              mkUserRow user_id (now_iso (now_calls w)) (Text.strip goal_text)
                1 0 0 0 1
          end) /\
  (forall other, other <> user_id ->
     get_user (db (upsert_user now_iso w user_id goal_text)) other
     = get_user (db w) other) /\
  actions (db (upsert_user now_iso w user_id goal_text)) = actions (db w) /\
  daily_results (db (upsert_user now_iso w user_id goal_text))
  = daily_results (db w).
Proof.
  unfold upsert_user, get_user. cbv zeta. cbn [db users actions daily_results].
  split; [| split; [| split; reflexivity]].
  - rewrite find_update_where_user by reflexivity.
    destruct (find (fun u => String.eqb (u_id u) user_id) (users (db w)))
      as [u |] eqn:Hu.
    + rewrite Hu. cbn [option_map].
      apply find_some in Hu as [_ Hid]. rewrite Hid. reflexivity.
    + rewrite (find_app_none _ _ _ Hu). cbn [find u_id].
      rewrite String.eqb_refl. cbn [option_map u_id].
      rewrite String.eqb_refl. reflexivity.
  - intros other Hne. rewrite find_update_where_user by reflexivity.
    assert (Hsame :
      find (fun u => String.eqb (u_id u) other)
        match find (fun u => String.eqb (u_id u) user_id) (users (db w)) with
        | Some _ => users (db w)
        | None =>
            (users (db w)
             ++ [mkUserRow user_id (now_iso (now_calls w))
                   (Text.strip goal_text) 1 0 0 0 1])%list
        end
      = find (fun u => String.eqb (u_id u) other) (users (db w))).
    { destruct (find (fun u => String.eqb (u_id u) user_id) (users (db w)));
        [reflexivity |].
      destruct (find (fun u => String.eqb (u_id u) other) (users (db w)))
        as [u |] eqn:Ho.
      - apply find_app_found. exact Ho.
      - rewrite (find_app_none _ _ _ Ho). cbn [find u_id].
        apply String.eqb_neq in Hne. rewrite String.eqb_sym, Hne. reflexivity. }
    rewrite Hsame.
    destruct (find (fun u => String.eqb (u_id u) other) (users (db w)))
      as [u |] eqn:Ho; [| reflexivity].
    cbn [option_map]. apply find_some in Ho as [_ Hid].
    apply String.eqb_eq in Hid. rewrite Hid.
    apply String.eqb_neq in Hne. rewrite Hne. reflexivity.
Qed.

(** ** What sqlite3 accepts *)

Lemma bind_int_cases (z : Z) :
  (- 2 ^ 63 <= z < 2 ^ 63 /\ bind_int z = Ok z) \/
  (~ - 2 ^ 63 <= z < 2 ^ 63 /\ bind_int z = Raise OverflowError).
Proof.
  unfold bind_int.
  destruct (Z.leb_spec (- 2 ^ 63) z) as [Hlo | Hlo];
    destruct (Z.ltb_spec z (2 ^ 63)) as [Hhi | Hhi]; cbn [andb];
    [left | right | right | right]; (split; [lia | reflexivity]).
Qed.

Lemma bind_int_in_range (z : Z) :
  - 2 ^ 63 <= z < 2 ^ 63 -> bind_int z = Ok z.
Proof. intros H. destruct (bind_int_cases z) as [[_ E] | [N _]]; tauto. Qed.

Lemma bind_real_cases (f : PyFloat.float) :
  (f <> S754_nan /\ bind_real f = Ok f) \/
  (f = S754_nan /\ bind_real f = Raise IntegrityError).
Proof.
  destruct f; cbn [bind_real];
    first [right; split; reflexivity | left; split; [discriminate | reflexivity]].
Qed.

(** One insertion goes through exactly when the proposal is storable. *)
Lemma insert_action_cases (d : Db) (id user_id day txt : string) (a : Action) :
  match insert_action d id user_id day txt (impact_weight a) (difficulty a) with
  | Ok d' =>
      storable a /\
      d' = mkDb (users d)
             (actions d ++ [mkActionRow id user_id day txt (impact_weight a)
                              (difficulty a) 1 None None])
             (daily_results d)
  | Raise e => ~ storable a /\ (e = OverflowError \/ e = IntegrityError)
  end.
Proof.
  unfold insert_action, storable.
  destruct (bind_int_cases (difficulty a)) as [[Hz ->] | [Hz ->]]; cbn [bind];
    [| split; [tauto | left; reflexivity]].
  destruct (bind_real_cases (impact_weight a)) as [[Hf ->] | [Hf ->]]; cbn [bind];
    [split; [split; assumption | reflexivity]
    | split; [tauto | right; reflexivity]].
Qed.

(** ** The insertion loops *)

(** The loop of [generate_today]: every proposal is stored, in order,
    exactly when each of them is storable; the first one that is not
    raises, OverflowError on the difficulty or IntegrityError on the
    weight. *)
Lemma insert_generated_cases (w : World) (user_id d : string)
    (proposals : list Action) :
  match LegacyMain.insert_generated uuid4 w user_id d proposals with
  | Ok w' =>
      Forall storable proposals /\
      w' = mkWorld (mkDb (users (db w))
                      (actions (db w)
                       ++ fresh_rows uuid4 (uuid_calls w) user_id d proposals)
                      (daily_results (db w)))
                   (uuid_calls w + List.length proposals) (now_calls w)
  | Raise e =>
      Exists (fun a => ~ storable a) proposals /\
      (e = OverflowError \/ e = IntegrityError)
  end.
Proof.
  revert w. induction proposals as [| a rest IH]; intros [[us acts rs] n t].
  - cbn. rewrite app_nil_r, Nat.add_0_r. split; [constructor | reflexivity].
  - cbn [LegacyMain.insert_generated db uuid_calls now_calls].
    pose proof (insert_action_cases (mkDb us acts rs) (uuid4 n) user_id d
                  (text a) a) as Hone.
    destruct (insert_action _ _ _ _ _ _ _) as [d' | e]; cbn [bind].
    + destruct Hone as [Ha ->].
      specialize (IH (mkWorld
                        (mkDb us
                           (acts ++ [mkActionRow (uuid4 n) user_id d (text a)
                                       (impact_weight a) (difficulty a) 1 None None])
                           rs) (S n) t)).
      cbn [users actions daily_results] in *.
      destruct (LegacyMain.insert_generated _ _ _ _ _) as [w' | e].
      * destruct IH as [Hrest ->]. split; [constructor; assumption |].
        cbn. rewrite <- app_assoc, Nat.add_succ_r. reflexivity.
      * destruct IH as [Hrest He]. split; [apply Exists_cons_tl; exact Hrest | exact He].
    + destruct Hone as [Ha He]. split; [apply Exists_cons_hd; exact Ha | exact He].
Qed.



Lemma list_actions_fresh_rows (n : nat) (user_id day user_id' day' : string)
    (proposals : list Action) :
  filter (fun a => String.eqb (a_user_id a) user_id' && String.eqb (a_date a) day')
         (fresh_rows uuid4 n user_id day proposals)
  = if String.eqb user_id user_id' && String.eqb day day'
    then fresh_rows uuid4 n user_id day proposals else [].
Proof.
  revert n. induction proposals as [| a rest IH]; intros n; cbn [fresh_rows filter].
  - destruct (_ && _); reflexivity.
  - cbn [a_user_id a_date]. rewrite IH.
    destruct (String.eqb user_id user_id' && String.eqb day day'); reflexivity.
Qed.

Lemma length_fresh_rows (n : nat) (user_id day : string) (proposals : list Action) :
  List.length (fresh_rows uuid4 n user_id day proposals) = List.length proposals.
Proof.
  revert n. induction proposals as [| a rest IH]; intros n; cbn; [reflexivity |].
  rewrite IH. reflexivity.
Qed.


End EngineStoreFacts.

(* ================================================================== *)
(** * The check-in of the Streamlit page *)
(* ================================================================== *)

Section CheckInFacts.

Import Store.

Variable uuid4 : nat -> string.
Variable now_iso : nat -> string.
Variable sum_weights : list PyFloat.float -> pynum.

Lemma same_action_refl (a : ActionRow) : same_action a a.
Proof. repeat split. Qed.

Lemma marked_nil (checked : string -> bool) (l : list ActionRow) :
  Forall2 (marked checked []) l l.
Proof.
  induction l as [| a l IH]; constructor; [| exact IH].
  split; [apply same_action_refl | reflexivity].
Qed.

(** One [UPDATE actions SET completed=... WHERE id=?] in front of the
    updates of [ids]. *)
Lemma marked_update (checked : string -> bool) (ids : list string) (d : Db)
    (id t : string) (l1 : list ActionRow) :
  Forall2 (marked checked ids)
    (actions (update_completion d id (if checked id then 1 else 0) t)) l1 ->
  Forall2 (marked checked (id :: ids)) (actions d) l1.
Proof.
  cbn [update_completion actions]. unfold update_where.
  revert l1. induction (actions d) as [| a l IH]; intros l1 H.
  - inversion H. constructor.
  - cbn [map] in H. inversion H as [| x a' xs l1' Ha Hl]; subst.
    constructor; [| exact (IH _ Hl)].
    clear IH H Hl. unfold marked in *. cbn [existsb].
    destruct (String.eqb_spec (a_id a) id) as [Heq | Hne]; cbn [orb];
      [| exact Ha].
    subst id. destruct Ha as [Hsame Hc]. cbn [a_id a_completed] in Hc.
    split; [exact Hsame |].
    rewrite Hc. destruct (existsb _ ids); reflexivity.
Qed.

Lemma marked_length (checked : string -> bool) (ids : list string)
    (l l' : list ActionRow) :
  Forall2 (marked checked ids) l l' -> List.length l' = List.length l.
Proof. induction 1; cbn; congruence. Qed.

(** Counting the judged rows of a day whose every action was submitted. *)
Lemma marked_counts (checked : string -> bool) (ids : list string)
    (user_id day : string) (l l' : list ActionRow) :
  Forall2 (marked checked ids) l l' ->
  (forall a, In a l -> a_user_id a = user_id -> a_date a = day ->
             In (a_id a) ids) ->
  let mine := fun a => String.eqb (a_user_id a) user_id
                       && String.eqb (a_date a) day in
  count_completed 1 (filter mine l')
  = Z.of_nat (List.length (filter (fun a => checked (a_id a)) (filter mine l))) /\
  count_completed 0 (filter mine l')
  = Z.of_nat (List.length (filter (fun a => negb (checked (a_id a)))
                             (filter mine l))) /\
  completed_weights (filter mine l')
  = map a_impact_weight (filter (fun a => checked (a_id a)) (filter mine l)).
Proof.
  intros H. unfold count_completed, completed_weights. cbv zeta.
  induction H as [| a a' l l' Ha Hl IH]; intros Hids; [repeat split |].
  destruct IH as (IH1 & IH0 & IHw); [intros x Hx; apply Hids; right; exact Hx |].
  apply Nat2Z.inj in IH1, IH0.
  destruct Ha as [(Hid & Hu & Hd & _ & Hw & _) Hc].
  cbn [filter]. rewrite Hu, Hd.
  destruct (String.eqb_spec (a_user_id a) user_id) as [Eu | Nu];
    [destruct (String.eqb_spec (a_date a) day) as [Ed | Nd] |]; cbn [andb];
    try (rewrite IH1, IH0, IHw; repeat split; reflexivity).
  assert (Hin : existsb (String.eqb (a_id a)) ids = true).
  { apply existsb_exists. exists (a_id a).
    split; [apply Hids; [left; reflexivity | exact Eu | exact Ed]
           | apply String.eqb_refl]. }
  rewrite Hin in Hc. cbn [filter]. rewrite Hc.
  destruct (checked (a_id a)); cbn [negb Z.eqb Pos.eqb List.length map];
    rewrite ?Hw, ?IH1, ?IH0, ?IHw; repeat split; reflexivity.
Qed.

Lemma filter_partition_length {A : Type} (q : A -> bool) (l : list A) :
  (List.length (filter q l) + List.length (filter (fun a => negb (q a)) l)
   = List.length l)%nat.
Proof.
  induction l as [| a l IH]; cbn [filter]; [reflexivity |].
  destruct (q a); cbn [negb List.length]; lia.
Qed.

(** ** The Streamlit page *)

Lemma set_completions_marked (checked : string -> bool)
    (session : list ActionRow) (w : World) :
  Forall2 (marked checked (map a_id session)) (actions (db w))
    (actions (db (fold_left
                    (fun w upd => set_action_completion now_iso w (fst upd) (snd upd))
                    (map (fun a => (a_id a, checked (a_id a))) session) w))).
Proof.
  revert w. induction session as [| s session IH]; intros w; cbn [map fold_left].
  - apply marked_nil.
  - apply (marked_update checked _ (db w) (a_id s) (now_iso (now_calls w))).
    exact (IH (set_action_completion now_iso w (a_id s) (checked (a_id s)))).
Qed.

(** X15. The check-in of the Streamlit page judges every action of the day
    that the session shows: a ticked box counts as completed, an unticked
    one as missed, and none is left out. *)
Theorem checkin_button_counts (w : World) (ss ss' : App.Session)
    (checked : string -> bool) (v : App.Verdict) :
  (forall a, In a (list_actions (db w) (App.user_id ss) (App.today ss)) ->
             In (a_id a) (map a_id (App.today_actions ss))) ->
  snd (App.checkin_button uuid4 now_iso sum_weights w ss checked) = Ok ss' ->
  App.last_verdict ss' = Some v ->
  App.v_completed v
  = Z.of_nat (List.length (filter (fun a => checked (a_id a))
                             (list_actions (db w) (App.user_id ss) (App.today ss)))) /\
  App.v_missed v
  = Z.of_nat (List.length (filter (fun a => negb (checked (a_id a)))
                             (list_actions (db w) (App.user_id ss) (App.today ss)))) /\
  App.v_completed v + App.v_missed v
  = Z.of_nat (List.length (list_actions (db w) (App.user_id ss) (App.today ss))).
Proof.
  intros Hshown. unfold App.checkin_button. cbv zeta.
  pose proof (set_completions_marked checked (App.today_actions ss) w) as Hmarked.
  set (w1 := fold_left _ _ w) in *.
  destruct (marked_counts checked _ (App.user_id ss) (App.today ss) _ _ Hmarked)
    as (Hc & Hm & _).
  { intros a Ha Hu Hd. apply Hshown. unfold list_actions. apply filter_In.
    split; [exact Ha |]. rewrite Hu, Hd, !String.eqb_refl. reflexivity. }
  fold (list_actions (db w1) (App.user_id ss) (App.today ss)) in Hc, Hm.
  fold (list_actions (db w) (App.user_id ss) (App.today ss)) in Hc, Hm.
  destruct (get_user (db w1) (App.user_id ss)); [| discriminate].
  destruct (Engine.judge_day _ _ _ _ _ _ _); [| discriminate].
  destruct (upsert_daily_result _ _ _ _ _ _); [| discriminate].
  destruct (update_user_stats _ _ _); [| discriminate].
  cbn [snd]. intros <-%Ok_inj. cbn [App.last_verdict].
  intros [= <-]. cbn [App.v_completed App.v_missed].
  rewrite Hc, Hm. split; [reflexivity |]. split; [reflexivity |].
  rewrite <- Nat2Z.inj_add, filter_partition_length. reflexivity.
Qed.

End CheckInFacts.

(* ================================================================== *)
(** * The routes of main.py *)
(* ================================================================== *)

Section RouteFacts.

Import Store.

Variable uuid4 : nat -> string.
Variable now_iso : nat -> string.
Variable generate_actions : string -> Z -> string -> result (list Action).
Variable sum_weights : list PyFloat.float -> pynum.

Local Abbreviation checkin :=
  (LegacyMain.checkin uuid4 now_iso sum_weights).

(** X17. [POST /users] for a new id stores the user with the column values of
    the INSERT (level 1, no XP, no streak, no debt, difficulty 1) and the
    stripped goal, touches no other user, and a second request for the
    same id is answered 409 and changes nothing, whatever its goal. *)
Theorem create_user_then_conflict (w : World)
    (user_id goal_text goal_text' : string) :
  get_user (db w) user_id = None ->
  exists w1,
    LegacyMain.create_user now_iso w user_id goal_text
    = (w1, LegacyMain.Reply user_id) /\
    get_user (db w1) user_id
    = Some (mkUserRow user_id (now_iso (now_calls w)) (Text.strip goal_text)
              1 0 0 0 1) /\
    (forall other, other <> user_id ->
                   get_user (db w1) other = get_user (db w) other) /\
    LegacyMain.create_user now_iso w1 user_id goal_text'
    = (w1, LegacyMain.HTTPException 409 "User already exists.").
Proof.
  intros Hnew. unfold LegacyMain.create_user at 1. rewrite Hnew.
  eexists. split; [reflexivity |].
  assert (Hfound :
    get_user
      (db (mkWorld
             (mkDb (users (db w)
                    ++ [mkUserRow user_id (now_iso (now_calls w))
                          (Text.strip goal_text) 1 0 0 0 1])
                (actions (db w)) (daily_results (db w)))
             (uuid_calls w) (S (now_calls w)))) user_id
    = Some (mkUserRow user_id (now_iso (now_calls w)) (Text.strip goal_text)
              1 0 0 0 1)).
  { unfold get_user in *. cbn [db users]. rewrite (find_app_none _ _ _ Hnew).
    cbn [find u_id]. rewrite String.eqb_refl. reflexivity. }
  split; [exact Hfound |]. split.
  - intros other Hne. unfold get_user. cbn [db users].
    destruct (find (fun u => String.eqb (u_id u) other) (users (db w)))
      as [u |] eqn:Ho.
    + apply find_app_found. exact Ho.
    + rewrite (find_app_none _ _ _ Ho). cbn [find u_id].
      apply String.eqb_neq in Hne. rewrite String.eqb_sym, Hne. reflexivity.
  - unfold LegacyMain.create_user. rewrite Hfound. reflexivity.
Qed.


(** ** What a check-in writes *)

Lemma same_action_trans (a b c : ActionRow) :
  same_action a b -> same_action b c -> same_action a c.
Proof. unfold same_action. intuition congruence. Qed.

Lemma same_actions_refl (l : list ActionRow) : Forall2 same_action l l.
Proof. induction l; constructor; [apply same_action_refl | assumption]. Qed.

Lemma same_actions_trans (l1 l2 l3 : list ActionRow) :
  Forall2 same_action l1 l2 -> Forall2 same_action l2 l3 ->
  Forall2 same_action l1 l3.
Proof.
  intros H12. revert l3. induction H12 as [| a b l1 l2 Hab _ IH]; intros l3 H23.
  - inversion H23. constructor.
  - inversion H23 as [| b' c l2' l3' Hbc Hrest]; subst.
    constructor; [exact (same_action_trans _ _ _ Hab Hbc) | exact (IH _ Hrest)].
Qed.

Lemma update_completion_same_actions (d : Db) (id : string) (c : Z) (t : string) :
  Forall2 same_action (actions d) (actions (update_completion d id c t)).
Proof.
  cbn [update_completion actions]. unfold update_where.
  induction (actions d) as [| a l IH]; cbn [map]; constructor; [| exact IH].
  destruct (String.eqb (a_id a) id); repeat split.
Qed.

(** One update of the request: the world as it was, or one UPDATE of the
    completion columns. *)
Lemma apply_update_cases (ids : list string) (w w1 : World) (upd : Ai.json) :
  LegacyMain.apply_update now_iso ids w upd = Ok w1 ->
  w1 = w \/
  exists id c,
    (c = 0 \/ c = 1) /\
    w1 = mkWorld (update_completion (db w) id c (now_iso (now_calls w)))
           (uuid_calls w) (S (now_calls w)).
Proof.
  unfold LegacyMain.apply_update.
  destruct (Ai.py_get upd "id" Ai.JNull) as [aid | e]; cbn [bind]; [| discriminate].
  destruct (Ai.py_get upd "completed" Ai.JNull) as [c | e]; cbn [bind];
    [| discriminate].
  destruct aid as [| b | z | f | id | l | kvs]; try discriminate;
    try (intros <-%Ok_inj; left; reflexivity).
  destruct (existsb (String.eqb id) ids); intros <-%Ok_inj;
    [right | left; reflexivity].
  eexists. eexists. split; [| reflexivity].
  destruct (LegacyMain.truthy c); auto.
Qed.

Lemma apply_updates_kept (ids : list string) (upds : list Ai.json)
    (w w1 : World) :
  Ai.foldM (LegacyMain.apply_update now_iso ids) w upds = Ok w1 ->
  users (db w1) = users (db w) /\
  daily_results (db w1) = daily_results (db w) /\
  uuid_calls w1 = uuid_calls w /\
  Forall2 same_action (actions (db w)) (actions (db w1)).
Proof.
  revert w. induction upds as [| upd upds IH]; intros w; cbn [Ai.foldM].
  - intros <-%Ok_inj. repeat split. apply same_actions_refl.
  - destruct (LegacyMain.apply_update now_iso ids w upd) as [w0 | e] eqn:Hupd;
      cbn [bind]; [| discriminate].
    intros H. destruct (IH _ H) as (Hu & Hr & Hn & Ha).
    apply apply_update_cases in Hupd as [-> | (id & c & _ & ->)];
      [repeat split; assumption |].
    cbn [db users daily_results uuid_calls update_completion] in *.
    repeat split; try assumption.
    eapply same_actions_trans; [apply update_completion_same_actions | exact Ha].
Qed.

(** A check-in that replies, taken apart. *)
Lemma checkin_reply_inv (w w' : World) (d user_id : string)
    (action_updates : list Ai.json) (reply : LegacyMain.CheckInReply) :
  checkin w d user_id action_updates = (w', LegacyMain.Reply reply) ->
  exists u w1 j,
    get_user (db w) user_id = Some u /\
    list_actions (db w) user_id d <> [] /\
    Ai.foldM (LegacyMain.apply_update now_iso
                (map a_id (list_actions (db w) user_id d))) w action_updates
    = Ok w1 /\
    LegacyRules.judge_day (u_xp u) (u_streak u) (u_debt u) (u_difficulty u)
      (count_completed 1 (list_actions (db w1) user_id d))
      (count_completed 0 (list_actions (db w1) user_id d))
      (sum_weights (completed_weights (list_actions (db w1) user_id d)))
    = Ok j /\
    users (db w')
    = update_where (fun u => String.eqb (u_id u) user_id)
        (fun u => mkUserRow (u_id u) (u_created_at u) (u_goal_text u)
                    (Engine.new_level j) (Engine.new_xp j) (Engine.new_streak j)
                    (Engine.new_debt j) (Engine.new_difficulty j))
        (users (db w)) /\
    actions (db w') = actions (db w1) /\
    daily_results (db w')
    = match get_result (db w1) user_id d with
      | Some existing =>
          update_where (fun r => String.eqb (r_id r) (r_id existing))
            (fun r => mkResultRow (r_id r) (r_user_id r) (r_date r)
                        (Engine.xp_delta j) (Engine.penalty j) (Engine.verdict j)
                        (now_iso (now_calls w1)))
            (daily_results (db w1))
      | None =>
          (daily_results (db w1)
           ++ [mkResultRow (uuid4 (uuid_calls w1)) user_id d (Engine.xp_delta j)
                 (Engine.penalty j) (Engine.verdict j) (now_iso (now_calls w1))])%list
      end /\
    reply = LegacyMain.mkCheckInReply d
              (count_completed 1 (list_actions (db w1) user_id d))
              (count_completed 0 (list_actions (db w1) user_id d))
              j (list_actions (db w1) user_id d).
Proof.
  unfold LegacyMain.checkin.
  destruct (get_user (db w) user_id) as [u |] eqn:Hu; [| discriminate].
  destruct (nonempty (list_actions (db w) user_id d)) eqn:Hne; cbn [negb];
    [| discriminate].
  apply nonempty_true in Hne.
  destruct (LegacyMain.checkin_body _ _ _ _ _ _ _ _ _) as [[w2' r2] | e]
    eqn:Hbody; [| discriminate].
  intros H. injection H as <- <-.
  apply checkin_body_ok in Hbody
    as (w1 & j & w2 & db3 & Hupd & Hj & Hw2 & Hdb3 & -> & ->).
  exists u, w1, j. pose proof (apply_updates_kept _ _ _ _ Hupd) as (Hus & _).
  apply upsert_daily_result_ok in Hw2 as (Hus2 & Hacts2 & Hres2).
  apply update_stats_ok in Hdb3. subst db3.
  cbn [db users actions daily_results].
  repeat split; try assumption; try reflexivity.
  rewrite Hus2, Hus. reflexivity.
Qed.

(** X22. No check-in adds, removes or rewrites an action: whatever the
    request and its outcome, the rows stay in place with their id, owner,
    date, text, weight and difficulty, and only the completion columns
    can differ; and no other user's row is written. *)
Theorem checkin_keeps_actions (w : World) (d user_id : string)
    (action_updates : list Ai.json) :
  Forall2 same_action (actions (db w))
    (actions (db (fst (checkin w d user_id action_updates)))) /\
  (forall other, other <> user_id ->
     get_user (db (fst (checkin w d user_id action_updates))) other
     = get_user (db w) other).
Proof.
  destruct (checkin w d user_id action_updates) as [w' [reply | code detail | e]]
    eqn:Hci.
  2, 3: assert (w' = w);
    [| subst w'; split; [apply same_actions_refl | reflexivity]].
  2, 3: unfold LegacyMain.checkin in Hci;
    destruct (get_user (db w) user_id); [| congruence];
    destruct (negb _); [congruence |];
    destruct (LegacyMain.checkin_body _ _ _ _ _ _ _ _ _) as [[w2 r2] |];
    congruence.
  apply checkin_reply_inv in Hci
    as (u & w1 & j & Hu & _ & Hupd & _ & Hus & Hacts & _).
  apply apply_updates_kept in Hupd as (_ & _ & _ & Hsame).
  cbn [fst]. split; [rewrite Hacts; exact Hsame |].
  intros other Hne. unfold get_user. rewrite Hus.
  rewrite find_update_where_user by reflexivity.
  destruct (find (fun u0 => String.eqb (u_id u0) other) (users (db w)))
    as [u0 |] eqn:Ho; [| reflexivity].
  cbn [option_map]. apply find_some in Ho as [_ Hid].
  apply String.eqb_eq in Hid. rewrite Hid.
  apply String.eqb_neq in Hne. rewrite Hne. reflexivity.
Qed.

Lemma find_update_where_first {A : Type} (p cond : A -> bool) (set : A -> A)
    (rows : list A) (r0 : A) :
  (forall r, p (set r) = p r) ->
  find p rows = Some r0 -> cond r0 = true ->
  find p (update_where cond set rows) = Some (set r0).
Proof.
  intros Hp. unfold update_where.
  induction rows as [| r rows IH]; cbn [find map]; [discriminate |].
  destruct (p r) eqn:Hr.
  - intros [= ->] Hc. rewrite Hc, Hp, Hr. reflexivity.
  - intros Hf Hc.
    assert (Hr' : p (if cond r then set r else r) = false)
      by (destruct (cond r); [rewrite Hp |]; exact Hr).
    rewrite Hr'. exact (IH Hf Hc).
Qed.

Lemma count_completed_disjoint (rows : list ActionRow) :
  count_completed 1 rows + count_completed 0 rows
  <= Z.of_nat (List.length rows).
Proof.
  unfold count_completed. rewrite <- Nat2Z.inj_add. apply Nat2Z.inj_le.
  induction rows as [| a rows IH]; cbn [filter List.length]; [lia |].
  destruct (a_completed a) as [c |]; [| lia].
  destruct (Z.eqb_spec c 1) as [-> | H1]; cbn [Z.eqb Pos.eqb List.length];
    [lia |].
  destruct (c =? 0); cbn [List.length]; lia.
Qed.

(** X23. What the reply of a check-in shows is what the store holds after it:
    the actions of the reply are the stored actions of the day, the
    result stored for the user and the day carries the judgement's XP
    delta, penalty and verdict, and the user's row carries its new XP,
    level, streak, debt and difficulty with the goal unchanged.  An action
    is counted at most once, as completed or as missed. *)
Theorem checkin_records_judgement (w w' : World) (d user_id : string)
    (action_updates : list Ai.json) (reply : LegacyMain.CheckInReply) :
  checkin w d user_id action_updates = (w', LegacyMain.Reply reply) ->
  LegacyMain.ci_actions reply = list_actions (db w') user_id d /\
  LegacyMain.ci_completed reply + LegacyMain.ci_missed reply
  <= Z.of_nat (List.length (LegacyMain.ci_actions reply)) /\
  (exists r,
      get_result (db w') user_id d = Some r /\
      r_xp_delta r = Engine.xp_delta (LegacyMain.ci_judgement reply) /\
      r_penalty r = Engine.penalty (LegacyMain.ci_judgement reply) /\
      r_verdict_text r = Engine.verdict (LegacyMain.ci_judgement reply)) /\
  (exists u u',
      get_user (db w) user_id = Some u /\
      get_user (db w') user_id = Some u' /\
      u_goal_text u' = u_goal_text u /\
      u_xp u' = Engine.new_xp (LegacyMain.ci_judgement reply) /\
      u_level u' = Engine.new_level (LegacyMain.ci_judgement reply) /\
      u_streak u' = Engine.new_streak (LegacyMain.ci_judgement reply) /\
      u_debt u' = Engine.new_debt (LegacyMain.ci_judgement reply) /\
      u_difficulty u' = Engine.new_difficulty (LegacyMain.ci_judgement reply)).
Proof.
  intros Hci. apply checkin_reply_inv in Hci
    as (u & w1 & j & Hu & _ & _ & _ & Hus & Hacts & Hres & ->).
  cbn [LegacyMain.ci_actions LegacyMain.ci_completed LegacyMain.ci_missed
       LegacyMain.ci_judgement].
  split; [unfold list_actions; rewrite Hacts; reflexivity |].
  split; [apply count_completed_disjoint |]. split.
  - unfold get_result in *. rewrite Hres.
    destruct (find _ (daily_results (db w1))) as [r0 |] eqn:Hfind.
    + erewrite find_update_where_first
        by first [exact Hfind | apply String.eqb_refl | reflexivity].
      eexists. split; [reflexivity |]. repeat split.
    + rewrite (find_app_none _ _ _ Hfind).
      cbn [find r_user_id r_date]. rewrite !String.eqb_refl. cbn [andb].
      eexists. split; [reflexivity |]. repeat split.
  - exists u. unfold get_user in *. rewrite Hus.
    rewrite find_update_where_user by reflexivity. rewrite Hu. cbn [option_map].
    apply find_some in Hu as [_ Hid]. rewrite Hid.
    eexists. split; [reflexivity |]. split; [reflexivity |]. repeat split.
Qed.

Lemma count_completed_unjudged (v : Z) (rows : list ActionRow) :
  Forall (fun a => a_completed a = None) rows -> count_completed v rows = 0.
Proof.
  unfold count_completed. induction 1 as [| a rows Ha _ IH]; [reflexivity |].
  cbn [filter]. rewrite Ha. exact IH.
Qed.

Lemma completed_weights_unjudged (rows : list ActionRow) :
  Forall (fun a => a_completed a = None) rows -> completed_weights rows = [].
Proof.
  unfold completed_weights. induction 1 as [| a rows Ha _ IH]; [reflexivity |].
  cbn [filter]. rewrite Ha. exact IH.
Qed.

(** X24. A check-in that reports nothing on a day whose actions are all
    unjudged counts nothing as completed and nothing as missed: the user
    is credited 5 XP per point of difficulty, pays no penalty, keeps the
    debt and loses the streak, under the catch-all verdict.  The stats
    are those of a user of the service, far inside the 64-bit integers. *)
Theorem checkin_reports_nothing (w : World) (d user_id : string) (u : UserRow) :
  sum_weights [] = PyInt 0 ->
  get_user (db w) user_id = Some u ->
  list_actions (db w) user_id d <> [] ->
  Forall (fun a => a_completed a = None) (list_actions (db w) user_id d) ->
  1 <= u_difficulty u <= 5 ->
  0 <= u_xp u < 2 ^ 62 ->
  0 <= u_debt u < 2 ^ 63 ->
  exists w' reply,
    checkin w d user_id [] = (w', LegacyMain.Reply reply) /\
    LegacyMain.ci_completed reply = 0 /\
    LegacyMain.ci_missed reply = 0 /\
    Engine.xp_delta (LegacyMain.ci_judgement reply) = 5 * u_difficulty u /\
    Engine.penalty (LegacyMain.ci_judgement reply) = 0 /\
    Engine.new_streak (LegacyMain.ci_judgement reply) = 0 /\
    Engine.new_debt (LegacyMain.ci_judgement reply) = u_debt u /\
    Engine.verdict (LegacyMain.ci_judgement reply) = LegacyRules.verdict_bailed.
Proof.
  intros Hsum Hu Hne Hnone Hd Hxp Hdebt. unfold LegacyMain.checkin. rewrite Hu.
  apply nonempty_true in Hne. rewrite Hne. cbn [negb].
  unfold LegacyMain.checkin_body. cbn [Ai.foldM bind].
  rewrite !(count_completed_unjudged _ _ Hnone),
    (completed_weights_unjudged _ Hnone), Hsum.
  unfold LegacyRules.judge_day. rewrite base_xp_of_int. cbn [bind].
  change ((0 =? 0) && (0 >? 0)) with false. cbv iota.
  change (0 >=? 3) with false. cbv iota.
  change (0 >=? 2) with false. cbv iota.
  change (0 >=? 5) with false. cbv iota.
  change ((0 =? 0) && (0 >=? 4)) with false. cbv iota.
  set (j := Engine.mkJudgement _ _ _ _ _ _ _ _).
  unfold update_result, insert_result, update_stats.
  rewrite !bind_int_in_range
    by (unfold j;
        cbn [Engine.xp_delta Engine.penalty Engine.new_xp Engine.new_level
             Engine.new_streak Engine.new_debt Engine.new_difficulty];
        unfold LegacyRules.level_from_xp, LegacyRules.clamp; lia).
  cbn [bind].
  destruct (get_result (db w) user_id d) as [existing |]; cbn [bind];
    (eexists; eexists; split; [reflexivity |];
     cbn [LegacyMain.ci_completed LegacyMain.ci_missed LegacyMain.ci_judgement];
     unfold j;
     cbn [Engine.xp_delta Engine.penalty Engine.new_streak Engine.new_debt
          Engine.verdict];
     repeat split; try reflexivity; lia).
Qed.

(** ** The check-in of frontend/app.py through [/checkin] *)

Lemma frontend_updates_marked (checked : string -> bool) (ids : list string)
    (session : list ActionRow) (w : World) :
  exists w1,
    Ai.foldM (LegacyMain.apply_update now_iso ids) w
      (Frontend.updates session checked) = Ok w1 /\
    Forall2 (marked checked
               (filter (fun id => existsb (String.eqb id) ids)
                  (map a_id session)))
      (actions (db w)) (actions (db w1)).
Proof.
  revert w. induction session as [| s session IH]; intros w;
    cbn [Frontend.updates map Ai.foldM filter].
  - exists w. split; [reflexivity | apply marked_nil].
  - unfold LegacyMain.apply_update at 1.
    cbn [Ai.py_get Ai.lookup String.eqb Ascii.eqb Bool.eqb bind LegacyMain.truthy].
    destruct (existsb (String.eqb (a_id s)) ids); cbn [bind].
    + destruct (IH (mkWorld
                      (update_completion (db w) (a_id s)
                         (if checked (a_id s) then 1 else 0)
                         (now_iso (now_calls w)))
                      (uuid_calls w) (S (now_calls w)))) as [w1 [Hw1 Hm]].
      exists w1. split; [exact Hw1 |].
      apply (marked_update checked _ (db w) (a_id s) (now_iso (now_calls w))).
      exact Hm.
    + exact (IH w).
Qed.

(** X25. The check-in of the client page, sent to [/checkin], judges every
    action of the day that the session shows: a ticked box counts as
    completed, an unticked one as missed, and none is left out. *)
Theorem frontend_checkin_counts (w w' : World) (d user_id : string)
    (session : list ActionRow) (checked : string -> bool)
    (reply : LegacyMain.CheckInReply) :
  (forall a, In a (list_actions (db w) user_id d) ->
             In (a_id a) (map a_id session)) ->
  checkin w d user_id (Frontend.updates session checked)
  = (w', LegacyMain.Reply reply) ->
  LegacyMain.ci_completed reply
  = Z.of_nat (List.length (filter (fun a => checked (a_id a))
                             (list_actions (db w) user_id d))) /\
  LegacyMain.ci_missed reply
  = Z.of_nat (List.length (filter (fun a => negb (checked (a_id a)))
                             (list_actions (db w) user_id d))) /\
  LegacyMain.ci_completed reply + LegacyMain.ci_missed reply
  = Z.of_nat (List.length (list_actions (db w) user_id d)).
Proof.
  intros Hshown Hci. apply checkin_reply_inv in Hci
    as (u & w1 & j & _ & _ & Hupd & _ & _ & _ & _ & ->).
  destruct (frontend_updates_marked checked
              (map a_id (list_actions (db w) user_id d)) session w)
    as [w1' [Hupd' Hmarked]].
  rewrite Hupd in Hupd'. apply Ok_inj in Hupd'. subst w1'.
  destruct (marked_counts checked _ user_id d _ _ Hmarked) as (Hc & Hm & _).
  { intros a Ha Hu Hd.
    assert (Hmine : In a (list_actions (db w) user_id d)).
    { unfold list_actions. apply filter_In. split; [exact Ha |].
      rewrite Hu, Hd, !String.eqb_refl. reflexivity. }
    apply filter_In. split; [apply Hshown; exact Hmine |].
    apply existsb_exists. exists (a_id a).
    split; [apply in_map; exact Hmine | apply String.eqb_refl]. }
  fold (list_actions (db w1) user_id d) in Hc, Hm.
  fold (list_actions (db w) user_id d) in Hc, Hm.
  cbn [LegacyMain.ci_completed LegacyMain.ci_missed].
  rewrite Hc, Hm. split; [reflexivity |]. split; [reflexivity |].
  rewrite <- Nat2Z.inj_add, filter_partition_length. reflexivity.
Qed.

End RouteFacts.

(* ================================================================== *)
(** * Invariants of the service *)
(* ================================================================== *)

(** What [judge_day] of rules.py returns for a user whose row is in
    order, on a day with [missed >= 0]. *)
Lemma legacy_judge_day_user_ok (xp streak debt d c m : Z) (x : pynum)
    (j : Engine.Judgement) :
  LegacyRules.judge_day xp streak debt d c m x = Ok j ->
  0 <= streak -> 0 <= debt -> 0 <= m ->
  (0 <= Engine.new_xp j /\
   Engine.new_level j = Engine.level_from_xp (Engine.new_xp j) /\
   0 <= Engine.new_streak j /\
   0 <= Engine.new_debt j /\
   1 <= Engine.new_difficulty j <= 5) /\
  (1 <= d <= 5 -> d <= Engine.new_difficulty j).
Proof.
  unfold LegacyRules.judge_day.
  destruct (Engine.base_xp_of c x d) as [b |]; cbn [bind]; [| discriminate].
  intros <-%Ok_inj Hs Hd Hm.
  cbn [Engine.new_xp Engine.new_level Engine.new_streak Engine.new_debt
       Engine.new_difficulty].
  unfold LegacyRules.clamp.
  repeat split; try lia; try reflexivity.
  - destruct ((m =? 0) && (c >? 0)); lia.
  - destruct (m >=? 2); [lia |]. destruct (_ >=? 5); [lia |].
    destruct ((m =? 0) && (c >=? 4)); lia.
Qed.

Section Invariants.

Import Store.

Variable uuid4 : nat -> string.
Variable now_iso : nat -> string.
Variable generate_actions : string -> Z -> string -> result (list Action).
Variable sum_weights : list PyFloat.float -> pynum.

Local Abbreviation serve :=
  (LegacyMain.serve uuid4 now_iso generate_actions sum_weights).
Local Abbreviation reachable :=
  (LegacyMain.reachable uuid4 now_iso generate_actions sum_weights).
Local Abbreviation checkin :=
  (LegacyMain.checkin uuid4 now_iso sum_weights).

Lemma reachable_fold (w : World) (rs : list LegacyMain.request) :
  reachable w -> reachable (fold_left serve rs w).
Proof.
  revert w. induction rs as [| r rs IH]; intros w Hw; cbn [fold_left];
    [exact Hw |].
  apply IH. constructor. exact Hw.
Qed.

(** A check-in that does not reply leaves the world as it was. *)
Lemma checkin_no_reply (w w' : World) (d user_id : string)
    (action_updates : list Ai.json) (out : LegacyMain.response LegacyMain.CheckInReply) :
  checkin w d user_id action_updates = (w', out) ->
  (forall reply, out <> LegacyMain.Reply reply) -> w' = w.
Proof.
  unfold LegacyMain.checkin.
  destruct (get_user (db w) user_id); [| congruence].
  destruct (negb _); [congruence |].
  destruct (LegacyMain.checkin_body _ _ _ _ _ _ _ _ _) as [[w2 r2] |];
    [| congruence].
  intros [= <- <-] H. exfalso. exact (H r2 eq_refl).
Qed.

(** What a route does to each table: [create_user] appends one user
    under a new id; [generate_today] appends actions; [checkin] rewrites
    actions in place, the stats of one user, and one result. *)
Lemma checkin_tables (w : World) (d user_id : string)
    (action_updates : list Ai.json) :
  fst (checkin w d user_id action_updates) = w \/
  exists u w1 j,
    get_user (db w) user_id = Some u /\
    Ai.foldM (LegacyMain.apply_update now_iso
                (map a_id (list_actions (db w) user_id d))) w action_updates
    = Ok w1 /\
    LegacyRules.judge_day (u_xp u) (u_streak u) (u_debt u) (u_difficulty u)
      (count_completed 1 (list_actions (db w1) user_id d))
      (count_completed 0 (list_actions (db w1) user_id d))
      (sum_weights (completed_weights (list_actions (db w1) user_id d)))
    = Ok j /\
    users (db (fst (checkin w d user_id action_updates)))
    = update_where (fun u => String.eqb (u_id u) user_id)
        (fun u => mkUserRow (u_id u) (u_created_at u) (u_goal_text u)
                    (Engine.new_level j) (Engine.new_xp j) (Engine.new_streak j)
                    (Engine.new_debt j) (Engine.new_difficulty j))
        (users (db w)) /\
    actions (db (fst (checkin w d user_id action_updates))) = actions (db w1) /\
    daily_results (db (fst (checkin w d user_id action_updates)))
    = match get_result (db w) user_id d with
      | Some existing =>
          update_where (fun r => String.eqb (r_id r) (r_id existing))
            (fun r => mkResultRow (r_id r) (r_user_id r) (r_date r)
                        (Engine.xp_delta j) (Engine.penalty j) (Engine.verdict j)
                        (now_iso (now_calls w1)))
            (daily_results (db w))
      | None =>
          (daily_results (db w)
           ++ [mkResultRow (uuid4 (uuid_calls w1)) user_id d (Engine.xp_delta j)
                 (Engine.penalty j) (Engine.verdict j) (now_iso (now_calls w1))])%list
      end.
Proof.
  destruct (checkin w d user_id action_updates) as [w' out] eqn:Hci.
  destruct out as [reply | code detail | e].
  - right. apply checkin_reply_inv in Hci
      as (u & w1 & j & Hu & _ & Hupd & Hj & Hus & Hacts & Hres & _).
    exists u, w1, j. cbn [fst].
    repeat split; try assumption.
    apply apply_updates_kept in Hupd as (_ & Hr & _).
    rewrite Hres. unfold get_result. rewrite Hr. reflexivity.
  - left. cbn [fst]. apply (checkin_no_reply _ _ _ _ _ _ Hci). discriminate.
  - left. cbn [fst]. apply (checkin_no_reply _ _ _ _ _ _ Hci). discriminate.
Qed.

(** ** Users *)

Lemma map_update_where {A B : Type} (f : A -> B) (cond : A -> bool)
    (set : A -> A) (rows : list A) :
  (forall r, f (set r) = f r) ->
  map f (update_where cond set rows) = map f rows.
Proof.
  intros Hf. unfold update_where. rewrite map_map. apply map_ext.
  intros r. destruct (cond r); [apply Hf | reflexivity].
Qed.

Lemma get_user_none_fresh (d : Db) (user_id : string) :
  get_user d user_id = None -> ~ In user_id (map u_id (users d)).
Proof.
  unfold get_user. intros Hnone Hin. apply in_map_iff in Hin as [u [Hid Hu]].
  pose proof (find_none _ _ Hnone u Hu) as Hf. cbn in Hf.
  rewrite Hid, String.eqb_refl in Hf. discriminate.
Qed.

Lemma NoDup_snoc {A : Type} (l : list A) (x : A) :
  NoDup l -> ~ In x l -> NoDup (l ++ [x]).
Proof.
  intros Hl Hx. apply NoDup_app; [exact Hl | repeat constructor; intros [] |].
  intros a Ha [<- | []]. exact (Hx Ha).
Qed.

Lemma update_stats_users_ok (d : Db) (user_id : string) (u : UserRow)
    (c m : Z) (x : pynum) (j : Engine.Judgement) :
  Forall user_ok (users d) ->
  get_user d user_id = Some u ->
  0 <= m ->
  LegacyRules.judge_day (u_xp u) (u_streak u) (u_debt u) (u_difficulty u) c m x
  = Ok j ->
  Forall user_ok
    (update_where (fun u => String.eqb (u_id u) user_id)
       (fun u => mkUserRow (u_id u) (u_created_at u) (u_goal_text u)
                   (Engine.new_level j) (Engine.new_xp j) (Engine.new_streak j)
                   (Engine.new_debt j) (Engine.new_difficulty j))
       (users d)).
Proof.
  intros Hall Hu Hm Hj.
  assert (Hok : user_ok u).
  { apply (proj1 (Forall_forall _ _) Hall). unfold get_user in Hu.
    exact (proj1 (find_some _ _ Hu)). }
  destruct Hok as (_ & _ & Hs & Hd & _).
  destruct (legacy_judge_day_user_ok _ _ _ _ _ _ _ _ Hj Hs Hd Hm) as [Hnew _].
  unfold update_where.
  apply Forall_forall. intros u' Hin. apply in_map_iff in Hin as [u0 [<- Hin0]].
  destruct (String.eqb (u_id u0) user_id);
    [exact Hnew | exact (proj1 (Forall_forall _ _) Hall u0 Hin0)].
Qed.

Lemma serve_users_ok (w : World) (r : LegacyMain.request) :
  NoDup (map u_id (users (db w))) /\ Forall user_ok (users (db w)) ->
  NoDup (map u_id (users (db (serve w r)))) /\
  Forall user_ok (users (db (serve w r))).
Proof.
  intros [Huniq Hall].
  destruct r as [uid goal | d uid | d uid upds]; cbn [LegacyMain.serve].
  - destruct (LegacyMain.valid_create_user_req _ _); [| split; assumption].
    unfold LegacyMain.create_user.
    destruct (get_user (db w) uid) eqn:Hu; [split; assumption |].
    cbn [fst db users]. split.
    + rewrite map_app. cbn [map u_id]. apply NoDup_snoc; [exact Huniq |].
      apply get_user_none_fresh. exact Hu.
    + apply Forall_app. split; [exact Hall |].
      repeat constructor; cbn; lia.
  - unfold LegacyMain.generate_today.
    destruct (get_user (db w) uid); [| split; assumption].
    destruct (nonempty _); [split; assumption |].
    destruct (generate_actions _ _ _); [| split; assumption].
    destruct (LegacyMain.insert_generated _ _ _ _ _) as [w' |] eqn:Hins;
      [| split; assumption].
    cbn [fst]. rewrite (insert_generated_users uuid4 _ _ _ _ _ Hins).
    split; assumption.
  - destruct (checkin_tables w d uid upds)
      as [-> | (u & w1 & j & Hu & _ & Hj & -> & _)]; [split; assumption |].
    split.
    + rewrite map_update_where by reflexivity. exact Huniq.
    + eapply (update_stats_users_ok _ _ u); [exact Hall | exact Hu | | exact Hj].
      apply count_completed_nonneg.
Qed.

Lemma reachable_users (w : World) :
  reachable w ->
  NoDup (map u_id (users (db w))) /\ Forall user_ok (users (db w)).
Proof.
  induction 1 as [| w r _ IH]; [split; constructor |].
  apply serve_users_ok. exact IH.
Qed.

(** X27. In every world the routes of main.py can reach, no two users share an
    id, and every user's row is in order: XP, streak and debt are not
    negative, the level is the level of the XP (so within 1 and 10), and
    the difficulty is within 1 and 5. *)
Theorem reachable_users_ok (w : World) :
  reachable w ->
  NoDup (map u_id (users (db w))) /\
  Forall user_ok (users (db w)) /\
  Forall (fun u => 1 <= u_level u <= 10) (users (db w)).
Proof.
  intros Hw. destruct (reachable_users w Hw) as [Huniq Hall].
  split; [exact Huniq |]. split; [exact Hall |].
  eapply Forall_impl; [| exact Hall].
  intros u (_ & Hlevel & _). rewrite Hlevel.
  unfold Engine.level_from_xp. apply clamp_bounds. lia.
Qed.

(** ** The difficulty is a ratchet *)

Lemma difficulty_kept_same_users (w w' : World) :
  users (db w') = users (db w) -> difficulty_kept w w'.
Proof.
  intros H uid u Hu. exists u. unfold get_user in *. rewrite H.
  split; [exact Hu | lia].
Qed.

Lemma difficulty_kept_trans (w1 w2 w3 : World) :
  difficulty_kept w1 w2 -> difficulty_kept w2 w3 -> difficulty_kept w1 w3.
Proof.
  intros H12 H23 uid u Hu.
  destruct (H12 uid u Hu) as [u2 [Hu2 Hle2]].
  destruct (H23 uid u2 Hu2) as [u3 [Hu3 Hle3]].
  exists u3. split; [exact Hu3 | lia].
Qed.

Lemma serve_difficulty_kept (w : World) (r : LegacyMain.request) :
  Forall user_ok (users (db w)) -> difficulty_kept w (serve w r).
Proof.
  intros Hall.
  destruct r as [uid goal | d uid | d uid upds]; cbn [LegacyMain.serve].
  - destruct (LegacyMain.valid_create_user_req _ _);
      [| apply difficulty_kept_same_users; reflexivity].
    unfold LegacyMain.create_user.
    destruct (get_user (db w) uid);
      [apply difficulty_kept_same_users; reflexivity |].
    cbn [fst]. intros uid' u Hu. exists u. split; [| lia].
    unfold get_user in *. cbn [db users]. apply find_app_found. exact Hu.
  - apply difficulty_kept_same_users. unfold LegacyMain.generate_today.
    destruct (get_user (db w) uid); [| reflexivity].
    destruct (nonempty _); [reflexivity |].
    destruct (generate_actions _ _ _); [| reflexivity].
    destruct (LegacyMain.insert_generated _ _ _ _ _) as [w' |] eqn:Hins;
      [| reflexivity].
    cbn [fst]. exact (insert_generated_users uuid4 _ _ _ _ _ Hins).
  - destruct (checkin_tables w d uid upds)
      as [-> | (u & w1 & j & Hu & _ & Hj & Hus & _)];
      [apply difficulty_kept_same_users; reflexivity |].
    assert (Hok : user_ok u).
    { apply (proj1 (Forall_forall _ _) Hall). unfold get_user in Hu.
      exact (proj1 (find_some _ _ Hu)). }
    destruct Hok as (_ & _ & Hs & Hd & Hdiff).
    destruct (legacy_judge_day_user_ok _ _ _ _ _ _ _ _ Hj Hs Hd
                (count_completed_nonneg 0 _)) as [_ Hup].
    specialize (Hup Hdiff).
    intros uid' u' Hu'. unfold get_user in *. rewrite Hus.
    rewrite find_update_where_user by reflexivity.
    rewrite Hu'. cbn [option_map]. eexists. split; [reflexivity |].
    destruct (String.eqb_spec (u_id u') uid) as [Heq | Hne]; [| lia].
    cbn [u_difficulty].
    pose proof (find_some _ _ Hu') as [_ Hid']. apply String.eqb_eq in Hid'.
    rewrite <- Hid', Heq in Hu'.
    assert (u' = u) by congruence. subst u'. exact Hup.
Qed.

(** X28. From a world the routes of main.py can reach, no run of requests
    loses a user or lowers a user's difficulty: the difficulty only ever
    goes up, until 5. *)
Theorem reachable_difficulty_kept (w : World) (rs : list LegacyMain.request) :
  reachable w -> difficulty_kept w (fold_left serve rs w).
Proof.
  revert w. induction rs as [| r rs IH]; intros w Hw; cbn [fold_left].
  - apply difficulty_kept_same_users. reflexivity.
  - eapply difficulty_kept_trans.
    + apply serve_difficulty_kept. exact (proj2 (reachable_users w Hw)).
    + apply IH. constructor. exact Hw.
Qed.

(** ** Actions *)

Lemma fresh_rows_ok (n : nat) (user_id d : string) (proposals : list Action) :
  Forall action_ok (fresh_rows uuid4 n user_id d proposals).
Proof.
  revert n. induction proposals as [| a rest IH]; intros n; cbn [fresh_rows];
    constructor; [split; [reflexivity | exact I] | apply IH].
Qed.

Lemma apply_updates_actions_ok (ids : list string) (upds : list Ai.json)
    (w w1 : World) :
  Ai.foldM (LegacyMain.apply_update now_iso ids) w upds = Ok w1 ->
  Forall action_ok (actions (db w)) -> Forall action_ok (actions (db w1)).
Proof.
  revert w. induction upds as [| upd upds IH]; intros w; cbn [Ai.foldM].
  - intros <-%Ok_inj. auto.
  - destruct (LegacyMain.apply_update now_iso ids w upd) as [w0 | e] eqn:Hupd;
      cbn [bind]; [| discriminate].
    intros H Hall. apply (IH _ H).
    apply apply_update_cases in Hupd as [-> | (id & c & Hc & ->)];
      [exact Hall |].
    cbn [db update_completion actions]. unfold update_where.
    apply Forall_forall. intros a' Hin. apply in_map_iff in Hin as [a [<- Hin]].
    pose proof (proj1 (Forall_forall _ _) Hall a Hin) as [Hnn Hcols].
    destruct (String.eqb (a_id a) id); split; auto.
Qed.

Lemma serve_actions_ok (w : World) (r : LegacyMain.request) :
  Forall action_ok (actions (db w)) ->
  Forall action_ok (actions (db (serve w r))).
Proof.
  intros Hall.
  destruct r as [uid goal | d uid | d uid upds]; cbn [LegacyMain.serve].
  - destruct (LegacyMain.valid_create_user_req _ _); [| exact Hall].
    unfold LegacyMain.create_user. destruct (get_user (db w) uid); exact Hall.
  - unfold LegacyMain.generate_today.
    destruct (get_user (db w) uid); [| exact Hall].
    destruct (nonempty _); [exact Hall |].
    destruct (generate_actions _ _ _) as [proposals |]; [| exact Hall].
    pose proof (insert_generated_cases uuid4 w uid d proposals) as Hins.
    destruct (LegacyMain.insert_generated _ _ _ _ _) as [w' |]; [| exact Hall].
    destruct Hins as [_ ->]. cbn [fst db actions].
    apply Forall_app. split; [exact Hall | apply fresh_rows_ok].
  - destruct (checkin_tables w d uid upds)
      as [-> | (u & w1 & j & _ & Hupd & _ & _ & -> & _)]; [exact Hall |].
    exact (apply_updates_actions_ok _ _ _ _ Hupd Hall).
Qed.

(** X29. In every world the routes of main.py can reach, every action is
    flagged non-negotiable and is either not judged, with both completion
    columns NULL, or judged 0 or 1 with the time of the judgement. *)
Theorem reachable_actions_ok (w : World) :
  reachable w -> Forall action_ok (actions (db w)).
Proof.
  induction 1 as [| w r _ IH]; [constructor |].
  apply serve_actions_ok. exact IH.
Qed.

(** ** Results *)

Lemma get_result_none_fresh (d : Db) (user_id day : string) :
  get_result d user_id day = None ->
  ~ In (user_id, day) (map result_key (daily_results d)).
Proof.
  unfold get_result. intros Hnone Hin. apply in_map_iff in Hin as [r [Hkey Hr]].
  pose proof (find_none _ _ Hnone r Hr) as Hf. cbn in Hf.
  unfold result_key in Hkey. injection Hkey as Hu Hd.
  rewrite Hu, Hd, !String.eqb_refl in Hf. discriminate.
Qed.

Lemma serve_results_unique (w : World) (r : LegacyMain.request) :
  NoDup (map result_key (daily_results (db w))) ->
  NoDup (map result_key (daily_results (db (serve w r)))).
Proof.
  intros Huniq.
  destruct r as [uid goal | d uid | d uid upds]; cbn [LegacyMain.serve].
  - destruct (LegacyMain.valid_create_user_req _ _); [| exact Huniq].
    unfold LegacyMain.create_user. destruct (get_user (db w) uid); exact Huniq.
  - unfold LegacyMain.generate_today.
    destruct (get_user (db w) uid); [| exact Huniq].
    destruct (nonempty _); [exact Huniq |].
    destruct (generate_actions _ _ _) as [proposals |]; [| exact Huniq].
    pose proof (insert_generated_cases uuid4 w uid d proposals) as Hins.
    destruct (LegacyMain.insert_generated _ _ _ _ _) as [w' |]; [| exact Huniq].
    destruct Hins as [_ ->]. exact Huniq.
  - destruct (checkin_tables w d uid upds)
      as [-> | (u & w1 & j & _ & _ & _ & _ & _ & ->)]; [exact Huniq |].
    destruct (get_result (db w) uid d) as [r0 |] eqn:Hres.
    + rewrite map_update_where by reflexivity. exact Huniq.
    + rewrite map_app. cbn [map].
      apply NoDup_snoc; [exact Huniq |].
      apply get_result_none_fresh. exact Hres.
Qed.

Lemma NoDup_keys_at_most_one (rows : list ResultRow) (user_id day : string) :
  NoDup (map result_key rows) ->
  (List.length
     (filter (fun r => String.eqb (r_user_id r) user_id
                       && String.eqb (r_date r) day) rows) <= 1)%nat.
Proof.
  induction rows as [| r rows IH]; cbn [map filter]; [cbn; lia |].
  intros H. apply NoDup_cons_iff in H as [Hnotin Hrest].
  specialize (IH Hrest).
  destruct (String.eqb (r_user_id r) user_id && String.eqb (r_date r) day)
    eqn:Hr; [| exact IH].
  apply andb_true_iff in Hr as [Hu Hd].
  apply String.eqb_eq in Hu, Hd.
  destruct (filter _ rows) as [| r' rest] eqn:Hf; [cbn; lia |].
  exfalso. apply Hnotin.
  assert (Hin : In r' (filter (fun r => String.eqb (r_user_id r) user_id
                                        && String.eqb (r_date r) day) rows))
    by (rewrite Hf; left; reflexivity).
  apply filter_In in Hin as [Hin Hr'].
  apply andb_true_iff in Hr' as [Hu' Hd'].
  apply String.eqb_eq in Hu', Hd'.
  apply in_map_iff. exists r'. split; [| exact Hin].
  unfold result_key. congruence.
Qed.

(** X30. In every world the routes of main.py can reach, a user has at most
    one result per day: a later check-in of the same day rewrites the
    day's row. *)
Theorem reachable_one_result_per_day (w : World) (user_id day : string) :
  reachable w ->
  (List.length
     (filter (fun r => String.eqb (r_user_id r) user_id
                       && String.eqb (r_date r) day)
        (daily_results (db w))) <= 1)%nat.
Proof.
  intros Hw. apply NoDup_keys_at_most_one.
  induction Hw as [| w r _ IH]; [constructor |].
  apply serve_results_unique. exact IH.
Qed.

End Invariants.

(** ** The route and the adapter together *)

Section RouteAndAdapter.

Import Store.

Variable uuid4 : nat -> string.
Variable json_loads : string -> result Ai.json.
Variable repr : Ai.json -> string.
Variable float_of_str : string -> result PyFloat.float.
Variable int_of_str : string -> result Z.
Variable env : Ai.Env.


Lemma offline_actions_storable (goal_text : string) (d : Z) :
  - 2 ^ 63 <= d < 2 ^ 63 - 1 ->
  Forall storable (Ai._offline_actions goal_text d).
Proof.
  intros Hd. rewrite offline_actions_cases. cbv zeta.
  destruct (Text.any_in Ai.revenue_keywords _);
    [| destruct (Text.any_in Ai.build_keywords _)];
    repeat (apply Forall_cons;
            [split; [cbn [difficulty]; lia | discriminate] |]);
    apply Forall_nil.
Qed.


(** X20. Without an API key the request of a user whose difficulty is within
    1 and 5 is always answered: the four proposals of the heuristic
    generator are stored and returned. *)
Theorem generate_today_offline (w : World) (d user_id : string) (u : UserRow) :
  Text.is_empty (Text.strip (Ai.getenv_OPENAI_API_KEY env)) = true ->
  get_user (db w) user_id = Some u ->
  list_actions (db w) user_id d = [] ->
  1 <= u_difficulty u <= 5 ->
  exists w',
    LegacyMain.generate_today uuid4
      (Ai.generate_actions json_loads repr float_of_str int_of_str env)
      w d user_id
    = (w', LegacyMain.Reply
             (d, fresh_rows uuid4 (uuid_calls w) user_id d
                   (Ai._offline_actions (u_goal_text u) (u_difficulty u)))) /\
    List.length (list_actions (db w') user_id d) = 4%nat.
Proof.
  intros Hkey Hu Hnone Hd.
  unfold LegacyMain.generate_today. rewrite Hu, Hnone. cbn [nonempty].
  unfold Ai.generate_actions. cbv zeta. rewrite Hkey.
  pose proof (insert_generated_cases uuid4 w user_id d
                (Ai._offline_actions (u_goal_text u) (u_difficulty u))) as Hins.
  destruct (LegacyMain.insert_generated _ _ _ _ _) as [w' | e].
  - destruct Hins as [_ ->].
    assert (Hout :
      list_actions
        (db (mkWorld
               (mkDb (users (db w))
                  (actions (db w)
                   ++ fresh_rows uuid4 (uuid_calls w) user_id d
                        (Ai._offline_actions (u_goal_text u) (u_difficulty u)))
                  (daily_results (db w)))
               (uuid_calls w
                + List.length (Ai._offline_actions (u_goal_text u) (u_difficulty u)))
               (now_calls w)))
        user_id d
      = fresh_rows uuid4 (uuid_calls w) user_id d
          (Ai._offline_actions (u_goal_text u) (u_difficulty u))).
    { unfold list_actions in *. cbn [db actions].
      rewrite filter_app, Hnone, (list_actions_fresh_rows uuid4), !String.eqb_refl.
      reflexivity. }
    eexists. split; [rewrite Hout; reflexivity |].
    rewrite Hout, (length_fresh_rows uuid4).
    exact (proj1 (offline_actions_ok _ _)).
  - exfalso. destruct Hins as [Hex _].
    apply Exists_exists in Hex as (a & Hin & Hbad). apply Hbad.
    refine (proj1 (Forall_forall _ _) (offline_actions_storable _ _ _) a Hin).
    lia.
Qed.

End RouteAndAdapter.

(* ================================================================== *)
(** * The scenarios of the specification, run on the model *)
(* ================================================================== *)

(** xp=0, streak=0, debt=0, difficulty=1, completed=4, missed=0,
    impacts_sum=5.5 *)
Example scenario_executed_hard :
  Engine.judge_day 0 0 0 1 4 0 (PyFloat (PyFloat.decimal 55 1))
  = Ok (Engine.mkJudgement 140 0 140 1 1 0 2 Engine.verdict_hard).
Proof. vm_compute. reflexivity. Qed.

(** xp=500, streak=4, debt=1, difficulty=2, completed=0, missed=3, and the
    [int] 0 that [sum] yields when nothing was completed *)
Example scenario_executed_nothing :
  Engine.judge_day 500 4 1 2 0 3 (PyInt 0)
  = Ok (Engine.mkJudgement (-35) 45 465 2 0 4 3 Engine.verdict_nothing).
Proof. vm_compute. reflexivity. Qed.

(** the same day with the [float] 0.0 *)
Example scenario_executed_nothing_float :
  Engine.judge_day 500 4 1 2 0 3 (PyFloat (S754_zero false))
  = Ok (Engine.mkJudgement (-35) 45 465 2 0 4 3 Engine.verdict_nothing).
Proof. vm_compute. reflexivity. Qed.

(** goal="Get 10 paying customers", difficulty=2: the revenue template,
    four actions, the last of difficulty 3 *)
Example scenario_paying_customers :
  Ai._offline_actions "Get 10 paying customers" 2 = Ai.revenue_actions 2 /\
  map difficulty (Ai._offline_actions "Get 10 paying customers" 2) = [3; 2; 3; 3].
Proof. split; reflexivity. Qed.

(** A tie of line 88 goes to the even integer: 20 + 10 * 0.05 + 10 is the
    double 30.5, and [round] gives 30. *)
Example base_xp_tie_to_even :
  Engine.base_xp_of 1 (PyFloat (PyFloat.decimal 5 2)) 2 = Ok 30.
Proof. vm_compute. reflexivity. Qed.

(** Outside the reals: an infinite [impacts_sum] makes line 88 raise. *)
Example judge_day_infinite_impacts :
  Engine.judge_day 0 0 0 1 1 0 (PyFloat (S754_infinity false))
  = Raise OverflowError.
Proof. vm_compute. reflexivity. Qed.

(** So does the double 1e308, whose product with 10 is infinite, while the
    double 2^1000 still gives a judgement. *)
Example judge_day_huge_impacts :
  Engine.judge_day 0 0 0 1 0 0 (PyFloat (PyFloat.nearest (10 ^ 308)))
  = Raise OverflowError.
Proof. vm_compute. reflexivity. Qed.

Example judge_day_large_impacts :
  exists j,
    Engine.judge_day 0 0 0 1 0 0 (PyFloat (PyFloat.nearest (2 ^ 1000))) = Ok j /\
    Engine.xp_delta j = 10 * 2 ^ 1000 /\ Engine.new_level j = 10.
Proof. eexists. split; [vm_compute; reflexivity | split; reflexivity]. Qed.

(* ================================================================== *)
(** * The claims at concrete inputs *)
(* ================================================================== *)


Lemma judge_day_verdict_witness :
  Engine.judge_day 100 2 0 3 0 0 (PyInt 0)
  = Ok (Engine.mkJudgement 15 0 115 1 0 0 3 Engine.verdict_bailed) /\
  Engine.verdict_bailed
  = first_match verdict_rules Engine.verdict_bailed (0, 0) /\
  (0 = 0 -> 0 = 0 ->
   Engine.verdict_bailed = Engine.verdict_bailed /\
   Engine.verdict_bailed <> Engine.verdict_nothing).
Proof.
  assert (H : Engine.judge_day 100 2 0 3 0 0 (PyInt 0)
              = Ok (Engine.mkJudgement 15 0 115 1 0 0 3 Engine.verdict_bailed))
    by reflexivity.
  split; [exact H |].
  exact (judge_day_verdict 100 2 0 3 0 0 (PyInt 0) _ H).
Defined.

Lemma judge_day_difficulty_level_witness :
  Engine.judge_day 2600 0 7 5 0 3 (PyInt 0)
  = Ok (Engine.mkJudgement (-20) 45 2580 10 0 10 5 Engine.verdict_nothing) /\
  5 = Z.max 1 (Z.min 5 (5 + first_match difficulty_rules 0 (0, 3, 0))) /\
  0 <= first_match difficulty_rules 0 (0, 3, 0) <= 1 /\
  10 = Z.max 1 (Z.min 10 (1 + 2580 / 250)) /\
  1 <= 5 <= 5 /\
  1 <= 10 <= 10.
Proof.
  assert (H : Engine.judge_day 2600 0 7 5 0 3 (PyInt 0)
              = Ok (Engine.mkJudgement (-20) 45 2580 10 0 10 5
                      Engine.verdict_nothing))
    by reflexivity.
  split; [exact H |].
  exact (judge_day_difficulty_level 2600 0 7 5 0 3 (PyInt 0) _ H).
Defined.

Lemma judge_day_streak_witness :
  Engine.judge_day 0 6 0 1 2 0 (PyFloat (PyFloat.decimal 26 1))
  = Ok (Engine.mkJudgement 76 0 76 1 7 0 2 Engine.verdict_work) /\
  (0 = 0 /\ 2 > 0 -> 7 = 6 + 1) /\
  (~ (0 = 0 /\ 2 > 0) -> 7 = 0).
Proof.
  assert (H : Engine.judge_day 0 6 0 1 2 0 (PyFloat (PyFloat.decimal 26 1))
              = Ok (Engine.mkJudgement 76 0 76 1 7 0 2 Engine.verdict_work))
    by (vm_compute; reflexivity).
  split; [exact H |].
  exact (judge_day_streak 0 6 0 1 2 0 (PyFloat (PyFloat.decimal 26 1)) _ H).
Defined.

Lemma judge_day_debt_witness :
  Engine.judge_day 10 0 3 2 1 2 (PyFloat (PyFloat.decimal 14 1))
  = Ok (Engine.mkJudgement 14 30 24 1 0 5 3 Engine.verdict_avoided) /\
  5 = 3 + 2 /\
  (0 <= 2 -> 3 <= 5).
Proof.
  assert (H : Engine.judge_day 10 0 3 2 1 2 (PyFloat (PyFloat.decimal 14 1))
              = Ok (Engine.mkJudgement 14 30 24 1 0 5 3 Engine.verdict_avoided))
    by (vm_compute; reflexivity).
  split; [exact H |].
  exact (judge_day_debt 10 0 3 2 1 2 (PyFloat (PyFloat.decimal 14 1)) _ H).
Defined.

Lemma judge_day_difficulty_step_witness :
  Engine.judge_day 0 0 0 5 4 0 (PyFloat (PyFloat.decimal 55 1))
  = Ok (Engine.mkJudgement 160 0 160 1 1 0 5 Engine.verdict_hard) /\
  1 <= 5 <= 5 /\
  5 <= 5 <= 5 + 1.
Proof.
  assert (H : Engine.judge_day 0 0 0 5 4 0 (PyFloat (PyFloat.decimal 55 1))
              = Ok (Engine.mkJudgement 160 0 160 1 1 0 5 Engine.verdict_hard))
    by (vm_compute; reflexivity).
  assert (Hd : 1 <= 5 <= 5) by lia.
  split; [exact H |]. split; [exact Hd |].
  exact (judge_day_difficulty_step 0 0 0 5 4 0
           (PyFloat (PyFloat.decimal 55 1)) _ H Hd).
Defined.

Lemma offline_actions_category_witness :
  mentions Ai.revenue_keywords
    (Text.lower (Text.strip "  Launch the MVP, then SELL it ")) /\
  mentions Ai.build_keywords
    (Text.lower (Text.strip "  Launch the MVP, then SELL it ")) /\
  Ai._offline_actions "  Launch the MVP, then SELL it " 2 = Ai.revenue_actions 2 /\
  all_space "   " = true /\
  Ai._offline_actions "   " 2 = Ai.generic_actions 2.
Proof.
  assert (Hr : mentions Ai.revenue_keywords
                 (Text.lower (Text.strip "  Launch the MVP, then SELL it "))).
  { exists "sell", "launch the mvp, then ", " it".
    split; [cbn; tauto | reflexivity]. }
  split; [exact Hr |]. split.
  { exists "mvp", "launch the ", ", then sell it".
    split; [cbn; tauto | reflexivity]. }
  split.
  { apply (proj1 (offline_actions_category "  Launch the MVP, then SELL it " 2)).
    exact Hr. }
  split; [reflexivity |].
  apply (proj2 (proj2 (proj2 (offline_actions_category "   " 2)))).
  reflexivity.
Defined.

Example generate_actions_external_path :
  Ai.generate_actions loads_items repr_blank float_fail int_fail env_answering
    "Get 10 paying customers" 2 EmptyString
  = Ok [ mkAction "Call five leads" (PyFloat.decimal 10 1) 1 true;
         mkAction "Send the invoice" (PyFloat.nearest 1) 1 true;
         mkAction EmptyString (PyFloat.decimal 5 1) 2 true ].
Proof. vm_compute. reflexivity. Qed.

Lemma generate_actions_falls_back_witness :
  Text.is_empty (Text.strip (Ai.getenv_OPENAI_API_KEY env_no_key)) = true /\
  Ai.generate_actions loads_fail repr_blank float_fail int_fail env_no_key
    "Ship the app" 4 EmptyString = Ok (Ai._offline_actions "Ship the app" 4) /\
  external_failure loads_fail repr_blank float_fail int_fail env_dead_network
    (Text.strip (Ai.getenv_OPENAI_API_KEY env_dead_network)) "Ship the app" 4 EmptyString /\
  Ai.generate_actions loads_fail repr_blank float_fail int_fail env_dead_network
    "Ship the app" 4 EmptyString = Ok (Ai._offline_actions "Ship the app" 4).
Proof.
  assert (F : external_failure loads_fail repr_blank float_fail int_fail
                env_dead_network
                (Text.strip (Ai.getenv_OPENAI_API_KEY env_dead_network))
                "Ship the app" 4 EmptyString).
  { apply network_error with (e := RequestException). reflexivity. }
  split; [reflexivity |]. split.
  { apply (proj1 (proj2 (generate_actions_falls_back loads_fail repr_blank
                           float_fail int_fail env_no_key "Ship the app" 4 EmptyString))).
    reflexivity. }
  split; [exact F |].
  apply (proj1 (proj2 (proj2 (generate_actions_falls_back loads_fail repr_blank
                         float_fail int_fail env_dead_network "Ship the app" 4 EmptyString)))).
  exact F.
Defined.

Lemma generation_once_per_day_witness :
  Store.get_user (Store.db world_with_actions) "founder" = Some founder /\
  Store.list_actions (Store.db world_with_actions) "founder" "2026-01-05" <> [] /\
  LegacyMain.generate_today uuid_counter generator_offline world_with_actions
    "2026-01-05" "founder"
  = (world_with_actions, LegacyMain.Reply ("2026-01-05", [stored_action])) /\
  exists n,
    App.generate_button uuid_counter generator_offline world_with_actions
      (App.mkSession "founder" [] "2026-01-05" None) founder
    = Ok (world_with_actions,
          App.mkSession "founder" [stored_action] "2026-01-05" None, n).
Proof.
  assert (Hex : Store.list_actions (Store.db world_with_actions)
                  "founder" "2026-01-05" <> []) by (cbn; discriminate).
  split; [reflexivity |]. split; [exact Hex |]. split.
  - apply (proj1 (generation_once_per_day uuid_counter generator_offline
                    world_with_actions) "2026-01-05" "founder" founder).
    + reflexivity.
    + exact Hex.
  - apply (proj2 (generation_once_per_day uuid_counter generator_offline
                    world_with_actions)
             (App.mkSession "founder" [] "2026-01-05" None) founder).
    exact Hex.
Defined.

(** A first generation on an empty day stores the four heuristic actions;
    the second request returns those four rows and changes nothing. *)
Example generate_today_round_trip :
  let w0 := Store.mkWorld (Store.mkDb [founder] [] []) 0 0 in
  let '(w1, reply1) :=
    LegacyMain.generate_today uuid_counter generator_offline w0
      "2026-01-05" "founder" in
  let '(w2, reply2) :=
    LegacyMain.generate_today uuid_counter generator_offline w1
      "2026-01-05" "founder" in
  w2 = w1 /\ reply2 = reply1 /\
  List.length (Store.actions (Store.db w1)) = 4%nat /\
  map Store.a_id (Store.actions (Store.db w1))
    = ["uuid-0"; "uuid-1"; "uuid-2"; "uuid-3"].
Proof. vm_compute. repeat split; reflexivity. Qed.

(* ================================================================== *)
(** * Further properties at concrete inputs *)
(* ================================================================== *)

Lemma world_generated_reachable :
  LegacyMain.reachable uuid_counter clock_counter generator_offline sum_naive
    world_generated.
Proof.
  unfold world_generated, empty_world.
  apply LegacyMain.reachable_serve. apply LegacyMain.reachable_serve.
  apply LegacyMain.reachable_init.
Qed.

Lemma world_checked_in_reachable :
  LegacyMain.reachable uuid_counter clock_counter generator_offline sum_naive
    world_checked_in.
Proof.
  unfold world_checked_in. apply LegacyMain.reachable_serve.
  exact world_generated_reachable.
Qed.

Lemma judge_day_miss_costs_witness :
  0 <= 0 /\
  Engine.judge_day 100 2 0 2 3 0 (PyInt 4)
  = Ok (Engine.mkJudgement 115 0 215 1 3 0 2 Engine.verdict_work) /\
  exists j',
    Engine.judge_day 100 2 0 2 3 (0 + 1) (PyInt 4) = Ok j' /\
    Engine.xp_delta j' <= 115 - 15 /\
    Engine.new_xp j' <= 215 /\
    Engine.new_streak j' = 0 /\
    Engine.new_debt j' = 0 + 1.
Proof.
  split; [lia |]. split; [reflexivity |].
  apply (judge_day_miss_costs 100 2 0 2 3 0 (PyInt 4)
           (Engine.mkJudgement 115 0 215 1 3 0 2 Engine.verdict_work));
    [lia | reflexivity].
Defined.

Lemma judge_day_verdict_cases_witness :
  0 <= 2 /\ 0 <= 1 /\
  Engine.judge_day 0 0 0 1 2 1 (PyInt 2)
  = Ok (Engine.mkJudgement 50 15 50 1 0 1 1 Engine.verdict_bailed) /\
  (Engine.verdict_bailed = Engine.verdict_bailed <->
   (1 <= 2 /\ 1 = 1) \/ (2 = 0 /\ 1 = 0)).
Proof.
  split; [lia |]. split; [lia |]. split; [reflexivity |].
  apply (judge_day_verdict_cases 0 0 0 1 2 1 (PyInt 2)
           (Engine.mkJudgement 50 15 50 1 0 1 1 Engine.verdict_bailed));
    [lia | lia | reflexivity].
Defined.

Lemma judge_day_non_finite_impacts_witness :
  Z.abs (20 * 3) < 2 ^ 1000 /\ Z.abs (5 * 2) < 2 ^ 1000 /\
  Engine.judge_day 500 4 1 2 3 0 (PyFloat (S754_infinity false))
  = Raise OverflowError /\
  Engine.judge_day 500 4 1 2 3 0 (PyFloat S754_nan) = Raise ValueError.
Proof.
  assert (Hc : Z.abs (20 * 3) < 2 ^ 1000) by (vm_compute; reflexivity).
  assert (Hd : Z.abs (5 * 2) < 2 ^ 1000) by (vm_compute; reflexivity).
  split; [exact Hc |]. split; [exact Hd |].
  destruct (judge_day_non_finite_impacts 500 4 1 2 3 0 Hc Hd) as [Hinf Hnan].
  split; [apply Hinf | exact Hnan].
Defined.

Lemma offline_actions_insensitive_witness :
  all_space "  " = true /\ all_space Ai.nl = true /\
  Text.lower "Ship The APP" = Text.lower "ship the app" /\
  Ai._offline_actions ("  " ++ "Ship The APP" ++ Ai.nl) 2
  = Ai._offline_actions "ship the app" 2.
Proof.
  split; [reflexivity |]. split; [reflexivity |]. split; [reflexivity |].
  apply (offline_actions_insensitive "  " "Ship The APP" Ai.nl "ship the app" 2);
    reflexivity.
Defined.

Lemma usable_items_bad_item_witness :
  loads_one_bad "[...]" = Ok items_one_bad /\
  In (Ai.JStr "Publish the offer")
     [ Ai.JObj [("text", Ai.JStr "Call five leads")];
       Ai.JObj [("text", Ai.JStr "Send the invoice")];
       Ai.JStr "Publish the offer";
       Ai.JObj [("text", Ai.JStr "Book a demo")] ] /\
  (forall kvs, Ai.JStr "Publish the offer" <> Ai.JObj kvs) /\
  exists e,
    usable_items loads_one_bad repr_blank float_fail int_fail "[...]" = Raise e.
Proof.
  assert (Hin : In (Ai.JStr "Publish the offer")
                  [ Ai.JObj [("text", Ai.JStr "Call five leads")];
                    Ai.JObj [("text", Ai.JStr "Send the invoice")];
                    Ai.JStr "Publish the offer";
                    Ai.JObj [("text", Ai.JStr "Book a demo")] ])
    by (right; right; left; reflexivity).
  assert (Hbad : forall kvs, Ai.JStr "Publish the offer" <> Ai.JObj kvs)
    by (intros kvs; discriminate).
  split; [reflexivity |]. split; [exact Hin |]. split; [exact Hbad |].
  apply (usable_items_bad_item loads_one_bad repr_blank float_fail int_fail
           "[...]" _ (Ai.JStr "Publish the offer") eq_refl Hin Hbad).
Defined.

Lemma checkin_button_counts_witness :
  (forall a,
      In a (Store.list_actions (Store.db world_with_actions)
              (App.user_id session_with_actions)
              (App.today session_with_actions)) ->
      In (Store.a_id a)
         (map Store.a_id (App.today_actions session_with_actions))) /\
  exists ss' v,
    snd (App.checkin_button uuid_counter clock_counter sum_naive
           world_with_actions session_with_actions every_box) = Ok ss' /\
    App.last_verdict ss' = Some v /\
    App.v_completed v = 1 /\ App.v_missed v = 0.
Proof.
  assert (Hshown : forall a,
             In a (Store.list_actions (Store.db world_with_actions)
                     (App.user_id session_with_actions)
                     (App.today session_with_actions)) ->
             In (Store.a_id a)
                (map Store.a_id (App.today_actions session_with_actions))).
  { intros a Ha. apply in_map. exact Ha. }
  split; [exact Hshown |].
  destruct (snd (App.checkin_button uuid_counter clock_counter sum_naive
                   world_with_actions session_with_actions every_box))
    as [ss' | e] eqn:Hss; [| vm_compute in Hss; discriminate Hss].
  destruct (App.last_verdict ss') as [v |] eqn:Hv.
  2: { exfalso. vm_compute in Hss. apply Ok_inj in Hss. subst ss'.
       discriminate Hv. }
  exists ss', v. split; [reflexivity |]. split; [exact Hv |].
  destruct (checkin_button_counts uuid_counter clock_counter sum_naive
              world_with_actions session_with_actions ss' every_box v
              Hshown Hss Hv) as (Hc & Hm & _).
  split; [rewrite Hc | rewrite Hm]; vm_compute; reflexivity.
Defined.

Lemma create_user_then_conflict_witness :
  Store.get_user (Store.db empty_world) "founder" = None /\
  exists w1,
    LegacyMain.create_user clock_counter empty_world "founder"
      "Get 10 paying customers"
    = (w1, LegacyMain.Reply "founder") /\
    Store.get_user (Store.db w1) "founder"
    = Some (Store.mkUserRow "founder"
              (clock_counter (Store.now_calls empty_world))
              (Text.strip "Get 10 paying customers") 1 0 0 0 1) /\
    (forall other, other <> "founder" ->
                   Store.get_user (Store.db w1) other
                   = Store.get_user (Store.db empty_world) other) /\
    LegacyMain.create_user clock_counter w1 "founder" "Ship the app"
    = (w1, LegacyMain.HTTPException 409 "User already exists.").
Proof.
  split; [reflexivity |].
  exact (create_user_then_conflict clock_counter empty_world "founder"
           "Get 10 paying customers" "Ship the app" eq_refl).
Defined.


Lemma checkin_records_judgement_witness :
  exists w' reply,
    LegacyMain.checkin uuid_counter clock_counter sum_naive world_with_actions
      "2026-01-05" "founder" (Frontend.updates [stored_action] every_box)
    = (w', LegacyMain.Reply reply) /\
    LegacyMain.ci_actions reply
    = Store.list_actions (Store.db w') "founder" "2026-01-05" /\
    LegacyMain.ci_completed reply + LegacyMain.ci_missed reply
    <= Z.of_nat (List.length (LegacyMain.ci_actions reply)) /\
    (exists r,
        Store.get_result (Store.db w') "founder" "2026-01-05" = Some r /\
        Store.r_xp_delta r = Engine.xp_delta (LegacyMain.ci_judgement reply) /\
        Store.r_penalty r = Engine.penalty (LegacyMain.ci_judgement reply) /\
        Store.r_verdict_text r = Engine.verdict (LegacyMain.ci_judgement reply)) /\
    (exists u u',
        Store.get_user (Store.db world_with_actions) "founder" = Some u /\
        Store.get_user (Store.db w') "founder" = Some u' /\
        Store.u_goal_text u' = Store.u_goal_text u /\
        Store.u_xp u' = Engine.new_xp (LegacyMain.ci_judgement reply) /\
        Store.u_level u' = Engine.new_level (LegacyMain.ci_judgement reply) /\
        Store.u_streak u' = Engine.new_streak (LegacyMain.ci_judgement reply) /\
        Store.u_debt u' = Engine.new_debt (LegacyMain.ci_judgement reply) /\
        Store.u_difficulty u'
        = Engine.new_difficulty (LegacyMain.ci_judgement reply)).
Proof.
  destruct (LegacyMain.checkin uuid_counter clock_counter sum_naive
              world_with_actions "2026-01-05" "founder"
              (Frontend.updates [stored_action] every_box))
    as [w' [reply | code detail | e]] eqn:H;
    [| exfalso; vm_compute in H; discriminate H ..].
  exists w', reply. split; [reflexivity |].
  exact (checkin_records_judgement uuid_counter clock_counter sum_naive
           world_with_actions w' "2026-01-05" "founder"
           (Frontend.updates [stored_action] every_box) reply H).
Defined.

Lemma checkin_reports_nothing_witness :
  sum_naive [] = PyInt 0 /\
  Store.get_user (Store.db world_with_actions) "founder" = Some founder /\
  Store.list_actions (Store.db world_with_actions) "founder" "2026-01-05" <> [] /\
  Forall (fun a => Store.a_completed a = None)
    (Store.list_actions (Store.db world_with_actions) "founder" "2026-01-05") /\
  1 <= Store.u_difficulty founder <= 5 /\
  0 <= Store.u_xp founder < 2 ^ 62 /\
  0 <= Store.u_debt founder < 2 ^ 63 /\
  exists w' reply,
    LegacyMain.checkin uuid_counter clock_counter sum_naive world_with_actions
      "2026-01-05" "founder" []
    = (w', LegacyMain.Reply reply) /\
    LegacyMain.ci_completed reply = 0 /\
    LegacyMain.ci_missed reply = 0 /\
    Engine.xp_delta (LegacyMain.ci_judgement reply) = 5 * Store.u_difficulty founder /\
    Engine.penalty (LegacyMain.ci_judgement reply) = 0 /\
    Engine.new_streak (LegacyMain.ci_judgement reply) = 0 /\
    Engine.new_debt (LegacyMain.ci_judgement reply) = Store.u_debt founder /\
    Engine.verdict (LegacyMain.ci_judgement reply) = LegacyRules.verdict_bailed.
Proof.
  assert (Hne : Store.list_actions (Store.db world_with_actions)
                  "founder" "2026-01-05" <> []) by (cbn; discriminate).
  assert (Hnone : Forall (fun a => Store.a_completed a = None)
                    (Store.list_actions (Store.db world_with_actions)
                       "founder" "2026-01-05"))
    by (repeat constructor).
  assert (Hd : 1 <= Store.u_difficulty founder <= 5) by (cbn; lia).
  assert (Hxp : 0 <= Store.u_xp founder < 2 ^ 62) by (cbn [Store.u_xp founder]; lia).
  assert (Hdebt : 0 <= Store.u_debt founder < 2 ^ 63)
    by (cbn [Store.u_debt founder]; lia).
  split; [reflexivity |]. split; [reflexivity |]. split; [exact Hne |].
  split; [exact Hnone |]. split; [exact Hd |]. split; [exact Hxp |].
  split; [exact Hdebt |].
  exact (checkin_reports_nothing uuid_counter clock_counter sum_naive
           world_with_actions "2026-01-05" "founder" founder
           eq_refl eq_refl Hne Hnone Hd Hxp Hdebt).
Defined.

Lemma frontend_checkin_counts_witness :
  (forall a,
      In a (Store.list_actions (Store.db world_with_actions) "founder" "2026-01-05") ->
      In (Store.a_id a) (map Store.a_id [stored_action])) /\
  exists w' reply,
    LegacyMain.checkin uuid_counter clock_counter sum_naive world_with_actions
      "2026-01-05" "founder" (Frontend.updates [stored_action] every_box)
    = (w', LegacyMain.Reply reply) /\
    LegacyMain.ci_completed reply = 1 /\
    LegacyMain.ci_missed reply = 0.
Proof.
  assert (Hshown : forall a,
             In a (Store.list_actions (Store.db world_with_actions)
                     "founder" "2026-01-05") ->
             In (Store.a_id a) (map Store.a_id [stored_action])).
  { intros a Ha. apply in_map. exact Ha. }
  split; [exact Hshown |].
  destruct (LegacyMain.checkin uuid_counter clock_counter sum_naive
              world_with_actions "2026-01-05" "founder"
              (Frontend.updates [stored_action] every_box))
    as [w' [reply | code detail | e]] eqn:H;
    [| exfalso; vm_compute in H; discriminate H ..].
  exists w', reply. split; [reflexivity |].
  destruct (frontend_checkin_counts uuid_counter clock_counter sum_naive
              world_with_actions w' "2026-01-05" "founder" [stored_action]
              every_box reply Hshown H) as (Hc & Hm & _).
  split; [rewrite Hc | rewrite Hm]; vm_compute; reflexivity.
Defined.

Lemma reachable_users_ok_witness :
  LegacyMain.reachable uuid_counter clock_counter generator_offline sum_naive
    world_checked_in /\
  NoDup (map Store.u_id (Store.users (Store.db world_checked_in))) /\
  Forall user_ok (Store.users (Store.db world_checked_in)) /\
  Forall (fun u => 1 <= Store.u_level u <= 10)
    (Store.users (Store.db world_checked_in)).
Proof.
  split; [exact world_checked_in_reachable |].
  exact (reachable_users_ok uuid_counter clock_counter generator_offline
           sum_naive world_checked_in world_checked_in_reachable).
Defined.

Lemma reachable_difficulty_kept_witness :
  LegacyMain.reachable uuid_counter clock_counter generator_offline sum_naive
    world_generated /\
  difficulty_kept world_generated
    (fold_left
       (LegacyMain.serve uuid_counter clock_counter generator_offline sum_naive)
       [LegacyMain.CheckIn "2026-01-05" "founder" [];
        LegacyMain.GenerateToday "2026-01-06" "founder"]
       world_generated).
Proof.
  split; [exact world_generated_reachable |].
  exact (reachable_difficulty_kept uuid_counter clock_counter generator_offline
           sum_naive world_generated _ world_generated_reachable).
Defined.

Lemma reachable_actions_ok_witness :
  LegacyMain.reachable uuid_counter clock_counter generator_offline sum_naive
    world_checked_in /\
  Forall action_ok (Store.actions (Store.db world_checked_in)).
Proof.
  split; [exact world_checked_in_reachable |].
  exact (reachable_actions_ok uuid_counter clock_counter generator_offline
           sum_naive world_checked_in world_checked_in_reachable).
Defined.

Lemma reachable_one_result_per_day_witness :
  LegacyMain.reachable uuid_counter clock_counter generator_offline sum_naive
    world_checked_in /\
  (List.length
     (filter (fun r => String.eqb (Store.r_user_id r) "founder"
                       && String.eqb (Store.r_date r) "2026-01-05")
        (Store.daily_results (Store.db world_checked_in))) <= 1)%nat.
Proof.
  split; [exact world_checked_in_reachable |].
  exact (reachable_one_result_per_day uuid_counter clock_counter
           generator_offline sum_naive world_checked_in "founder" "2026-01-05"
           world_checked_in_reachable).
Defined.


Lemma generate_today_offline_witness :
  Text.is_empty (Text.strip (Ai.getenv_OPENAI_API_KEY env_no_key)) = true /\
  Store.get_user (Store.db world_with_founder) "founder" = Some founder /\
  Store.list_actions (Store.db world_with_founder) "founder" "2026-01-05" = [] /\
  1 <= Store.u_difficulty founder <= 5 /\
  exists w',
    LegacyMain.generate_today uuid_counter
      (Ai.generate_actions loads_fail repr_blank float_fail int_fail env_no_key)
      world_with_founder "2026-01-05" "founder"
    = (w', LegacyMain.Reply
             ("2026-01-05",
              fresh_rows uuid_counter (Store.uuid_calls world_with_founder)
                "founder" "2026-01-05"
                (Ai._offline_actions (Store.u_goal_text founder)
                   (Store.u_difficulty founder)))) /\
    List.length (Store.list_actions (Store.db w') "founder" "2026-01-05") = 4%nat.
Proof.
  assert (Hd : 1 <= Store.u_difficulty founder <= 5) by (cbn; lia).
  split; [reflexivity |]. split; [reflexivity |]. split; [reflexivity |].
  split; [exact Hd |].
  exact (generate_today_offline uuid_counter loads_fail repr_blank float_fail
           int_fail env_no_key world_with_founder "2026-01-05" "founder" founder
           eq_refl eq_refl eq_refl Hd).
Defined.

Lemma generate_button_twice_witness :
  exists w1 ss1 n,
    App.generate_button uuid_counter generator_offline world_with_founder
      (App.mkSession "founder" [] "2026-01-05" None) founder
    = Ok (w1, ss1, n) /\
    App.today_actions ss1 <> [] /\
    exists n1,
      App.generate_button uuid_counter generator_offline w1 ss1 founder
      = Ok (w1, ss1, n1).
Proof.
  destruct (App.generate_button uuid_counter generator_offline world_with_founder
              (App.mkSession "founder" [] "2026-01-05" None) founder)
    as [[[w1 ss1] n] | e] eqn:H; [| exfalso; vm_compute in H; discriminate H].
  assert (Hne : App.today_actions ss1 <> []).
  { pose proof H as H'. vm_compute in H'. apply Ok_inj in H'.
    injection H' as _ <- _. discriminate. }
  exists w1, ss1, n. split; [reflexivity |]. split; [exact Hne |].
  exact (generate_button_twice uuid_counter generator_offline world_with_founder
           w1 (App.mkSession "founder" [] "2026-01-05" None) ss1 founder founder
           n H Hne).
Defined.

Lemma generate_today_twice_witness :
  exists w1 out,
    LegacyMain.generate_today uuid_counter generator_offline world_with_founder
      "2026-01-05" "founder"
    = (w1, LegacyMain.Reply ("2026-01-05", out)) /\
    out <> [] /\
    LegacyMain.generate_today uuid_counter generator_offline w1
      "2026-01-05" "founder"
    = (w1, LegacyMain.Reply ("2026-01-05", out)).
Proof.
  destruct (LegacyMain.generate_today uuid_counter generator_offline
              world_with_founder "2026-01-05" "founder")
    as [w1 [[d1 out] | code detail | e]] eqn:H;
    [| exfalso; vm_compute in H; discriminate H ..].
  assert (Hd : d1 = "2026-01-05").
  { pose proof H as H'. vm_compute in H'. injection H' as _ <- _. reflexivity. }
  assert (Hne : out <> []).
  { pose proof H as H'. vm_compute in H'. injection H' as _ _ <-. discriminate. }
  subst d1. exists w1, out. split; [reflexivity |]. split; [exact Hne |].
  exact (generate_today_twice uuid_counter generator_offline world_with_founder
           w1 "2026-01-05" "2026-01-05" "founder" out H Hne).
Defined.
